(** * nylas-nodejs: attribute coercion, model hydration, request
      classification and chunked collection traversal

    A shallow embedding of [src/nylas-connection.ts].  JavaScript values
    are an inductive type, objects are finite maps from property names,
    promises are their settlement, and every observable effect of an
    operation (network call, console warning, user callback) is an entry
    of an event trace. *)

From Stdlib Require Import ZArith QArith Qcanon Lia Ascii String.
From stdpp Require Import gmap strings list pretty.

#[local] Set Warnings "-register-all".
#[local] Open Scope Z_scope.

(** ** JavaScript values and the built-in coercions the source leans on *)
Module JS.

(** Numbers are binary64 numbers.  A finite one is given by its value,
    a rational of the form [m * 2 ^ e] with [|m| < 2 ^ 53] and
    [-1074 <= e <= 971]; arithmetic rounds its exact result to the
    nearest such value ([round64]).  The sign of a zero is not kept: no
    operation of the source tells the two zeros apart. *)
Inductive number :=
| NaN
| Inf (negative : bool)
| Fin (q : Qc).

(** The number equal to the integer [z]; every [|z| <= 2 ^ 53] is one. *)
Definition num (z : Z) : number := Fin (Q2Qc (inject_Z z)).

(** [n / d] divided by [2 ^ e], as a fraction. *)
Definition scale (n d e : Z) : Z * Z :=
  if 0 <=? e then (n, d * 2 ^ e) else (n * 2 ^ (- e), d).

(** The integer nearest to the fraction [nd], the even one of the two
    when they are equally near. *)
Definition nearest_even (nd : Z * Z) : Z :=
  let k := nd.1 / nd.2 in
  match 2 * (nd.1 mod nd.2) ?= nd.2 with
  | Lt => k
  | Gt => k + 1
  | Eq => if Z.even k then k else k + 1
  end.

(** The exponent [e] of the binary64 grid around [n / d > 0]: the one
    with [2 ^ 52 <= n / d / 2 ^ e < 2 ^ 53], and -1074 for the
    subnormal numbers below that. *)
Definition ulp_exponent (n d : Z) : Z :=
  let e := Z.log2 n - Z.log2 d - 53 in
  let e := if 2 ^ 53 <=? (scale n d e).1 / (scale n d e).2 then e + 1 else e in
  Z.max e (-1074).

(** [m * 2 ^ e] *)
Definition dyadic (m e : Z) : Qc :=
  if 0 <=? e then Q2Qc (inject_Z (m * 2 ^ e))
  else Q2Qc (m # Z.to_pos (2 ^ (- e))).

(** Rounding to binary64, roundTiesToEven: the nearest multiple of
    [2 ^ e], an infinity from [2 ^ 1024 - 2 ^ 970] on. *)
Definition round64 (q : Qc) : number :=
  let n := Qnum (this q) in
  let d := Zpos (Qden (this q)) in
  if n =? 0 then Fin q
  else
    let e := ulp_exponent (Z.abs n) d in
    let m := nearest_even (scale (Z.abs n) d e) in
    if (971 <? e) || ((e =? 971) && (2 ^ 53 <=? m)) then Inf (n <? 0)
    else Fin (dyadic (Z.sgn n * m) e).

(** [Date] objects are their time value in milliseconds, [None] being
    the NaN time value of an invalid date. *)
Inductive value :=
| VUndefined
| VNull
| VBool (b : bool)
| VNum (n : number)
| VStr (s : string)
| VArr (items : list value)
| VObj (props : gmap string value)
| VDate (tv : option Z)
| VModel (fields : gmap string value).
(* [VModel] is a model instance, given by its own fields. *)

(** [obj[key]] for the objects of the model; a missing property, and any
    property of a primitive, reads as [undefined]. *)
Definition get_prop (v : value) (key : string) : value :=
  match v with
  | VObj o | VModel o => default VUndefined (o !! key)
  | _ => VUndefined
  end.

Definition is_zero (q : Qc) : bool := (Qnum (this q) =? 0)%Z.

(** ToBoolean *)
Definition truthy (v : value) : bool :=
  match v with
  | VUndefined | VNull => false
  | VBool b => b
  | VNum NaN => false
  | VNum (Inf _) => true
  | VNum (Fin q) => negb (is_zero q)
  | VStr s => negb (String.eqb s "")
  | VArr _ | VObj _ | VDate _ | VModel _ => true
  end.

(** [a || b] *)
Definition or_else (a b : value) : value := if truthy a then a else b.

(** *** Number to string and string to number *)

(** Truncation toward zero (ToIntegerOrInfinity on a finite number). *)
Definition trunc (q : Qc) : Z := Z.quot (Qnum (this q)) (Zpos (Qden (this q))).

(** Equality of numbers; NaN equals nothing. *)
Definition number_eqb (a b : number) : bool :=
  match a, b with
  | Fin x, Fin y => Qeq_bool (this x) (this y)
  | Inf s, Inf s' => Bool.eqb s s'
  | _, _ => false
  end.

(** [c * 10 ^ p] *)
Definition decimal (c p : Z) : Qc :=
  if 0 <=? p then Q2Qc (inject_Z (c * 10 ^ p))
  else Q2Qc (c # Z.to_pos (10 ^ (- p))).

(** [10 ^ n <= a / d] *)
Definition at_least_pow10 (a d n : Z) : bool :=
  if 0 <=? n then d * 10 ^ n <=? a else d <=? a * 10 ^ (- n).

(** The [n] with [10 ^ (n - 1) <= a / d < 10 ^ n], for positive [a] and
    [d]: an estimate from the binary logarithms, corrected. *)
Fixpoint adjust_digits (fuel : nat) (a d n : Z) : Z :=
  match fuel with
  | O => n
  | S fuel' =>
      if at_least_pow10 a d n then adjust_digits fuel' a d (n + 1)
      else if at_least_pow10 a d (n - 1) then n
      else adjust_digits fuel' a d (n - 1)
  end.

Definition integer_digits (a d : Z) : Z :=
  adjust_digits 8 a d ((Z.log2 a - Z.log2 d) * 30103 / 100000 + 1).

(** The integer part of [a / d / 10 ^ p]. *)
Definition leading (a d p : Z) : Z :=
  if 0 <=? p then a / (d * 10 ^ p) else a * 10 ^ (- p) / d.

(** The digits [s] and the exponent [n] of Number::toString for the
    positive number [a / d]: the fewest digits [k] for which some
    [s * 10 ^ (n - k)] is read back as the same number; of the two
    candidates with [k] digits the nearer one, on a tie the even one. *)
Fixpoint shortest (fuel : nat) (k : Z) (a d n : Z) : Z * Z :=
  let x := Q2Qc (a # Z.to_pos d) in
  let p := n - k in
  let lo := leading a d p in
  let hi := lo + 1 in
  let ok (c : Z) := number_eqb (round64 (decimal c p)) (Fin x) in
  let pick (c : Z) := if c =? 10 ^ k then (1, n + 1) else (c, n) in
  match fuel with
  | O => (lo, n)
  | S fuel' =>
      match ok lo, ok hi with
      | true, false => pick lo
      | false, true => pick hi
      | true, true =>
          match (Q2Qc (2 # 1) * x ?= decimal (lo + hi) p)%Qc with
          | Lt => pick lo
          | Gt => pick hi
          | Eq => if Z.even lo then pick lo else pick hi
          end
      | false, false => shortest fuel' (k + 1) a d n
      end
  end.

Definition zeros (n : Z) : string :=
  string_of_list_ascii (replicate (Z.to_nat n) "0"%char).

(** The four notations of Number::toString: digits and zeros, digits
    around a point, a fraction after leading zeros, and the exponent
    notation from [1e21] on and below [1e-6]. *)
Definition positive_to_string (a d : Z) : string :=
  let '(s, n) := shortest 17 1 a d (integer_digits a d) in
  let ds := pretty s in
  let k := Z.of_nat (String.length ds) in
  if (k <=? n) && (n <=? 21) then ds +:+ zeros (n - k)
  else if (0 <? n) && (n <=? 21) then
    substring 0 (Z.to_nat n) ds +:+ "."
      +:+ substring (Z.to_nat n) (Z.to_nat (k - n)) ds
  else if (-6 <? n) && (n <=? 0) then "0." +:+ zeros (- n) +:+ ds
  else
    let e := n - 1 in
    let mant :=
      if k =? 1 then ds
      else substring 0 1 ds +:+ "." +:+ substring 1 (Z.to_nat (k - 1)) ds in
    mant +:+ "e" +:+ (if e <? 0 then "-" else "+") +:+ pretty (Z.abs e).

(** Number::toString *)
Definition number_to_string (n : number) : string :=
  match n with
  | NaN => "NaN"
  | Inf false => "Infinity"
  | Inf true => "-Infinity"
  | Fin q =>
      let a := Qnum (this q) in
      if a =? 0 then "0"
      else (if a <? 0 then "-" else "")
             +:+ positive_to_string (Z.abs a) (Zpos (Qden (this q)))
  end.

(** ToString as used by ToPrimitive and by template literals.  A plain
    object prints as [Object.prototype.toString] has it.  [None]: the
    model does not have the text.  That is so for a [Date] and for a
    model instance ([Date.prototype.toString] in the host's time zone,
    [JSON.stringify(this.toJSON())]), whose text is neither a numeric
    literal nor a date-time string, and for a plain object with a
    property [toString] of its own, which hides [Object.prototype.toString]
    and, being data, leaves the conversion nothing to call. *)
Fixpoint to_string (v : value) : option string :=
  match v with
  | VUndefined => Some "undefined"
  | VNull => Some "null"
  | VBool true => Some "true"
  | VBool false => Some "false"
  | VNum n => Some (number_to_string n)
  | VStr s => Some s
  | VArr items =>
      (fix join (vs : list value) (first : bool) : option string :=
         match vs with
         | [] => Some ""
         | x :: rest =>
             match (match x with
                    | VUndefined | VNull => Some ""
                    | _ => to_string x
                    end), join rest false with
             | Some sx, Some sr =>
                 Some ((if first then "" else ",") +:+ sx +:+ sr)
             | _, _ => None
             end
         end) items true
  | VObj props =>
      match props !! "toString" with
      | None => Some "[object Object]"
      | Some _ => None
      end
  | VDate _ | VModel _ => None
  end.

Definition is_space (c : ascii) : bool :=
  let n := nat_of_ascii c in
  (n =? 32)%nat || ((9 <=? n)%nat && (n <=? 13)%nat).

Definition is_digit (c : ascii) : bool :=
  let n := nat_of_ascii c in (48 <=? n)%nat && (n <=? 57)%nat.

Definition digit_val (c : ascii) : Z := Z.of_nat (nat_of_ascii c) - 48.

(** Value of a hexadecimal digit, if [c] is one. *)
Definition hex_val (c : ascii) : option Z :=
  let n := nat_of_ascii c in
  if is_digit c then Some (digit_val c)
  else if (97 <=? n)%nat && (n <=? 102)%nat then Some (Z.of_nat n - 87)
  else if (65 <=? n)%nat && (n <=? 70)%nat then Some (Z.of_nat n - 55)
  else None.

Fixpoint drop_spaces (cs : list ascii) : list ascii :=
  match cs with
  | c :: rest => if is_space c then drop_spaces rest else cs
  | [] => []
  end.

Definition trim (cs : list ascii) : list ascii :=
  rev (drop_spaces (rev (drop_spaces cs))).

(** Longest prefix of decimal digits, with its value and the rest. *)
Fixpoint take_digits (acc : Z) (n : nat) (cs : list ascii)
  : Z * nat * list ascii :=
  match cs with
  | c :: rest =>
      if is_digit c then take_digits (10 * acc + digit_val c) (S n) rest
      else (acc, n, cs)
  | [] => (acc, n, [])
  end.

(** All of [cs] read in [radix], when every character is a digit of it. *)
Fixpoint radix_digits (radix acc : Z) (cs : list ascii) : option Z :=
  match cs with
  | [] => Some acc
  | c :: rest =>
      match hex_val c with
      | Some d => if (d <? radix)%Z then radix_digits radix (radix * acc + d) rest
                  else None
      | None => None
      end
  end.

Definition pow10 (e : Z) : Qc :=
  if (0 <=? e)%Z then Q2Qc (inject_Z (10 ^ e))
  else Q2Qc (1 # Z.to_pos (10 ^ (- e))).

(** StrUnsignedDecimalLiteral: digits, optional fraction, optional
    exponent, or [Infinity]. *)
Definition unsigned_decimal (cs : list ascii) : option number :=
  if bool_decide (cs = list_ascii_of_string "Infinity") then Some (Inf false)
  else
    let '(ip, ni, r1) := take_digits 0 0 cs in
    let '(fp, nf, r2) :=
      match r1 with
      | "."%char :: r => take_digits 0 0 r
      | _ => (0, 0%nat, r1)
      end in
    if ((ni + nf =? 0)%nat) then None
    else
      let mant := ip * 10 ^ Z.of_nat nf + fp in
      let finish (e : Z) :=
        Some (round64 (Q2Qc (inject_Z mant) * pow10 (e - Z.of_nat nf))%Qc) in
      match r2 with
      | [] => finish 0
      | c :: r3 =>
          if bool_decide (c = "e"%char) || bool_decide (c = "E"%char) then
            let '(neg, r4) :=
              match r3 with
              | "-"%char :: r => (true, r)
              | "+"%char :: r => (false, r)
              | _ => (false, r3)
              end in
            match take_digits 0 0 r4 with
            | (_, O, _) => None
            | (e, _, []) => finish (if neg then - e else e)
            | _ => None
            end
          else None
      end.

Definition negate (n : number) : number :=
  match n with
  | NaN => NaN
  | Inf s => Inf (negb s)
  | Fin q => Fin (- q)%Qc
  end.

(** StringToNumber: surrounding white space is dropped, the empty string
    is 0, then a signed decimal literal or an unsigned 0x / 0o / 0b
    literal, rounded to binary64; anything else is NaN. *)
Definition string_to_number (s : string) : number :=
  let prefixed (radix : Z) (r : list ascii) :=
    match r with
    | [] => NaN
    | _ => match radix_digits radix 0 r with
           | Some z => round64 (Q2Qc (inject_Z z))
           | None => NaN
           end
    end in
  match trim (list_ascii_of_string s) with
  | [] => num 0
  | "0"%char :: "x"%char :: r | "0"%char :: "X"%char :: r => prefixed 16 r
  | "0"%char :: "o"%char :: r | "0"%char :: "O"%char :: r => prefixed 8 r
  | "0"%char :: "b"%char :: r | "0"%char :: "B"%char :: r => prefixed 2 r
  | "-"%char :: r =>
      match unsigned_decimal r with Some n => negate n | None => NaN end
  | "+"%char :: r | r =>
      match unsigned_decimal r with Some n => n | None => NaN end
  end.

(** ToNumber.  Arrays and plain objects go through their string form. *)
Definition to_number (v : value) : number :=
  match v with
  | VUndefined => NaN
  | VNull => num 0
  | VBool b => num (if b then 1 else 0)
  | VNum n => n
  | VStr s => string_to_number s
  | VDate (Some t) => num t
  | VDate None => NaN
  | VArr _ | VObj _ | VModel _ =>
      match to_string v with
      | Some s => string_to_number s
      | None => NaN
      end
  end.

(** The global [isNaN] and [Number] functions. *)
Definition isNaN (v : value) : bool :=
  match to_number v with NaN => true | _ => false end.

Definition Number (v : value) : value := VNum (to_number v).

(** [a * b] on numbers. *)
Definition mul (a b : number) : number :=
  match a, b with
  | NaN, _ | _, NaN => NaN
  | Fin x, Fin y => round64 (x * y)%Qc
  | Inf s, Fin y | Fin y, Inf s =>
      if is_zero y then NaN else Inf (xorb s (Qnum (this y) <? 0)%Z)
  | Inf s, Inf s' => Inf (xorb s s')
  end.

(** [a / b] on numbers; the sign of a zero is not represented, a finite
    non-zero number over zero is taken as the positive-zero quotient. *)
Definition div (a b : number) : number :=
  match a, b with
  | NaN, _ | _, NaN => NaN
  | Inf _, Inf _ => NaN
  | Inf s, Fin y => Inf (xorb s (Qnum (this y) <? 0)%Z)
  | Fin _, Inf _ => num 0
  | Fin x, Fin y =>
      if is_zero y then (if is_zero x then NaN else Inf (Qnum (this x) <? 0)%Z)
      else round64 (x / y)%Qc
  end.

(** *** Array-like access, as the collection code applies it to whatever
    a chunk request resolved to *)

(** [v == 'text']: loose equality with a string on the right. *)
Definition loose_eq_string (v : value) (s : string) : bool :=
  match v with
  | VUndefined | VNull => false
  | VStr s' => String.eqb s' s
  | VNum n => number_eqb n (string_to_number s)
  | VBool b => number_eqb (num (if b then 1 else 0)) (string_to_number s)
  | VArr _ | VObj _ | VDate _ | VModel _ =>
      match to_string v with
      | Some s' => String.eqb s' s
      | None => false
      end
  end.

Definition chars (s : string) : list value :=
  map (fun c => VStr (String c EmptyString)) (list_ascii_of_string s).

(** The elements [for (const x of v)] visits; [None] when [v] is not
    iterable (a TypeError). *)
Definition iterate (v : value) : option (list value) :=
  match v with
  | VArr items => Some items
  | VStr s => Some (chars s)
  | _ => None
  end.

(** [v.length]; [None] when reading it throws ([null], [undefined]). *)
Definition length_of (v : value) : option value :=
  match v with
  | VUndefined | VNull => None
  | VArr items => Some (VNum (num (Z.of_nat (length items))))
  | VStr s => Some (VNum (num (Z.of_nat (String.length s))))
  | VObj _ | VModel _ => Some (get_prop v "length")
  | _ => Some VUndefined
  end.

(** [a < n] for an integer [n]: false when [a] converts to NaN. *)
Definition less_than (a : value) (n : Z) : bool :=
  match to_number a with
  | NaN => false
  | Inf s => s
  | Fin q => match (this q ?= inject_Z n)%Q with Lt => true | _ => false end
  end.

(** [acc.concat(v)]: an array is spread, anything else is appended. *)
Definition concat (acc : list value) (v : value) : list value :=
  match v with
  | VArr items => acc ++ items
  | _ => acc ++ [v]
  end.

(** [v[0]]; [None] when reading it throws. *)
Definition first_of (v : value) : option value :=
  match v with
  | VUndefined | VNull => None
  | VArr items => Some (default VUndefined (head items))
  | VStr s => Some (default VUndefined (head (chars s)))
  | VObj _ | VModel _ => Some (get_prop v "0")
  | _ => Some VUndefined
  end.

(** [a === b].  Two objects are strictly equal when they are one and the
    same object, which a value does not record: [None]. *)
Definition strict_eq (a b : value) : option bool :=
  match a, b with
  | VUndefined, VUndefined | VNull, VNull => Some true
  | VBool x, VBool y => Some (Bool.eqb x y)
  | VNum x, VNum y => Some (number_eqb x y)
  | VStr x, VStr y => Some (String.eqb x y)
  | (VArr _ | VObj _ | VDate _ | VModel _),
    (VArr _ | VObj _ | VDate _ | VModel _) => None
  | _, _ => Some false
  end.

End JS.

(** ** The [Date] built-in: time values, calendar arithmetic, the ISO
    date-time string format ([Date.parse]) and [toISOString] *)
Module Date.
Import JS.

Definition msPerDay : Z := 86400000.
Definition maxTime : Z := 8640000000000000.

Definition Day (t : Z) : Z := t / msPerDay.
Definition TimeWithinDay (t : Z) : Z := t mod msPerDay.

Definition DayFromYear (y : Z) : Z :=
  365 * (y - 1970) + (y - 1969) / 4 - (y - 1901) / 100 + (y - 1601) / 400.

Definition isLeap (y : Z) : bool :=
  ((y mod 4 =? 0) && negb (y mod 100 =? 0)) || (y mod 400 =? 0).

(** The year containing day number [d]: the largest [y] with
    [DayFromYear y <= d], found next to the mean-year estimate. *)
Definition YearFromDay (d : Z) : Z :=
  let e := 1970 + (400 * d) / 146097 in
  if DayFromYear (e + 1) <=? d then e + 1
  else if DayFromYear e <=? d then e
  else e - 1.

Definition YearFromTime (t : Z) : Z := YearFromDay (Day t).
Definition DayWithinYear (t : Z) : Z := Day t - DayFromYear (YearFromTime t).

(** Number of days of the year before month [m] (0 = January). *)
Definition monthStart (leap : bool) (m : Z) : Z :=
  let l := if leap then 1 else 0 in
  if m <=? 0 then 0 else if m =? 1 then 31 else if m =? 2 then 59 + l
  else if m =? 3 then 90 + l else if m =? 4 then 120 + l
  else if m =? 5 then 151 + l else if m =? 6 then 181 + l
  else if m =? 7 then 212 + l else if m =? 8 then 243 + l
  else if m =? 9 then 273 + l else if m =? 10 then 304 + l
  else if m =? 11 then 334 + l else 365 + l.

Definition monthOfDay (leap : bool) (d : Z) : Z :=
  if d <? monthStart leap 1 then 0 else if d <? monthStart leap 2 then 1
  else if d <? monthStart leap 3 then 2 else if d <? monthStart leap 4 then 3
  else if d <? monthStart leap 5 then 4 else if d <? monthStart leap 6 then 5
  else if d <? monthStart leap 7 then 6 else if d <? monthStart leap 8 then 7
  else if d <? monthStart leap 9 then 8 else if d <? monthStart leap 10 then 9
  else if d <? monthStart leap 11 then 10 else 11.

Definition MonthFromTime (t : Z) : Z :=
  monthOfDay (isLeap (YearFromTime t)) (DayWithinYear t).

Definition DateFromTime (t : Z) : Z :=
  DayWithinYear t - monthStart (isLeap (YearFromTime t)) (MonthFromTime t) + 1.

Definition HourFromTime (t : Z) : Z := (TimeWithinDay t) / 3600000.
Definition MinFromTime (t : Z) : Z := (TimeWithinDay t / 60000) mod 60.
Definition SecFromTime (t : Z) : Z := (TimeWithinDay t / 1000) mod 60.
Definition msFromTime (t : Z) : Z := t mod 1000.

Definition MakeTime (h m s ms : Z) : Z := h * 3600000 + m * 60000 + s * 1000 + ms.

Definition MakeDay (year month date : Z) : Z :=
  let ym := year + month / 12 in
  let mn := month mod 12 in
  DayFromYear ym + monthStart (isLeap ym) mn + date - 1.

Definition MakeDate (day time : Z) : Z := day * msPerDay + time.

(** TimeClip on an integral time value, and on a number. *)
Definition TimeClip (t : Z) : option Z :=
  if Z.abs t <=? maxTime then Some t else None.

Definition clip_number (n : number) : option Z :=
  match n with
  | NaN | Inf _ => None
  | Fin q => TimeClip (trunc q)
  end.

(** *** Formatting *)

Definition digit_char (d : Z) : ascii := ascii_of_nat (48 + Z.to_nat d).

Definition pad2 (n : Z) : list ascii :=
  [digit_char (n / 10); digit_char (n mod 10)].
Definition pad3 (n : Z) : list ascii :=
  digit_char (n / 100) :: pad2 (n mod 100).
Definition pad4 (n : Z) : list ascii :=
  pad2 (n / 100) ++ pad2 (n mod 100).
Definition pad6 (n : Z) : list ascii :=
  pad2 (n / 10000) ++ pad4 (n mod 10000).

Definition year_chars (y : Z) : list ascii :=
  if (0 <=? y) && (y <=? 9999) then pad4 y
  else (if y <? 0 then "-"%char else "+"%char) :: pad6 (Z.abs y).

(** [Date.prototype.toISOString] on a valid time value:
    YYYY-MM-DDTHH:mm:ss.sssZ, the year expanded to a signed six digits
    outside 0000..9999. *)
Definition iso_chars (t : Z) : list ascii :=
  year_chars (YearFromTime t) ++ "-"%char :: pad2 (MonthFromTime t + 1)
    ++ "-"%char :: pad2 (DateFromTime t)
    ++ "T"%char :: pad2 (HourFromTime t) ++ ":"%char :: pad2 (MinFromTime t)
    ++ ":"%char :: pad2 (SecFromTime t) ++ "."%char :: pad3 (msFromTime t)
    ++ ["Z"%char].

Definition toISOString (t : Z) : string := string_of_list_ascii (iso_chars t).

(** *** Parsing *)

(** Exactly [n] decimal digits. *)
Fixpoint read_digits (n : nat) (acc : Z) (cs : list ascii)
  : option (Z * list ascii) :=
  match n with
  | O => Some (acc, cs)
  | S n' =>
      match cs with
      | c :: r =>
          if is_digit c then read_digits n' (10 * acc + digit_val c) r
          else None
      | [] => None
      end
  end.

Definition in_range (lo hi x : Z) : bool := (lo <=? x) && (x <=? hi).

(** What the language leaves to the host: its time zone, as the map
    from a local time to UTC, and the time value it makes of a string
    that is not in the date-time string format ([None]: NaN). *)
Record Host := mkHost {
  UTC : Z -> Z;
  parse_other : string -> option Z
}.

(** The fields of a string in the date-time string format, as read. *)
Record Fields := mkFields {
  f_year : option Z;             (* [None]: the year -000000 *)
  f_month : Z;                   (* 1 when absent *)
  f_day : Z;                     (* 1 when absent *)
  f_time : option (Z * Z * Z * Z);     (* hours, minutes, seconds, ms *)
  f_offset : option (bool * Z * Z)     (* negative, hours, minutes *)
}.

(** YYYY, or a sign and six digits. *)
Definition read_year (cs : list ascii) : option (option Z * list ascii) :=
  match cs with
  | c :: r =>
      if Ascii.eqb c "+" then
        (fun yr : Z * list ascii => (Some yr.1, yr.2)) <$> read_digits 6 0 r
      else if Ascii.eqb c "-" then
        (fun yr : Z * list ascii =>
           (if yr.1 =? 0 then None else Some (- yr.1), yr.2))
          <$> read_digits 6 0 r
      else (fun yr : Z * list ascii => (Some yr.1, yr.2)) <$> read_digits 4 0 cs
  | [] => None
  end.

(** An optional group, [sep] and [width] digits. *)
Definition read_group (sep : ascii) (width : nat) (cs : list ascii)
    : option (option Z * list ascii) :=
  match cs with
  | c :: r =>
      if Ascii.eqb c sep then
        (fun vr : Z * list ascii => (Some vr.1, vr.2)) <$> read_digits width 0 r
      else Some (None, cs)
  | [] => Some (None, [])
  end.

(** The UTC offset that ends the string: [Z], [+HH:mm], [-HH:mm], or
    nothing. *)
Definition read_offset (cs : list ascii) : option (option (bool * Z * Z)) :=
  match cs with
  | [] => Some None
  | c :: r =>
      if Ascii.eqb c "Z" then
        (match r with [] => Some (Some (false, 0, 0)) | _ => None end)
      else if Ascii.eqb c "+" || Ascii.eqb c "-" then
        match read_digits 2 0 r with
        | Some (h, c2 :: r2) =>
            if Ascii.eqb c2 ":" then
              match read_digits 2 0 r2 with
              | Some (m, []) => Some (Some (Ascii.eqb c "-", h, m))
              | _ => None
              end
            else None
        | _ => None
        end
      else None
  end.

(** The time part after [T]: HH:mm, optionally :ss, optionally .sss,
    then the offset. *)
Definition read_time (cs : list ascii)
    : option ((Z * Z * Z * Z) * option (bool * Z * Z)) :=
  match read_digits 2 0 cs with
  | Some (h, c :: r) =>
      if Ascii.eqb c ":" then
        match read_digits 2 0 r with
        | Some (m, r1) =>
            match read_group ":" 2 r1 with
            | Some (s, r2) =>
                match (match s with
                       | Some _ => read_group "." 3 r2
                       | None => Some (None, r2)
                       end) with
                | Some (ms, r3) =>
                    match read_offset r3 with
                    | Some off => Some ((h, m, default 0 s, default 0 ms), off)
                    | None => None
                    end
                | None => None
                end
            | None => None
            end
        | None => None
        end
      else None
  | _ => None
  end.

(** A string in the date-time string format: YYYY, YYYY-MM or
    YYYY-MM-DD, alone or followed by [T] and a time.  [None]: the string
    is not in the format. *)
Definition read_format (cs : list ascii) : option Fields :=
  match read_year cs with
  | Some (y, r0) =>
      match read_group "-" 2 r0 with
      | Some (mo, r1) =>
          match (match mo with
                 | Some _ => read_group "-" 2 r1
                 | None => Some (None, r1)
                 end) with
          | Some (d, r2) =>
              match r2 with
              | [] => Some (mkFields y (default 1 mo) (default 1 d) None None)
              | c :: r3 =>
                  if Ascii.eqb c "T" then
                    match read_time r3 with
                    | Some (tm, off) =>
                        Some (mkFields y (default 1 mo) (default 1 d)
                                       (Some tm) off)
                    | None => None
                    end
                  else None
              end
          | None => None
          end
      | None => None
      end
  | None => None
  end.

(** The time value of the fields; NaN ([None]) when one of them is out
    of its range.  A date alone is a UTC time, a date and time without
    an offset a local time. *)
Definition time_value (host : Host) (f : Fields) : option Z :=
  match f_year f with
  | None => None
  | Some y =>
      if in_range 1 12 (f_month f) && in_range 1 31 (f_day f) then
        let day := MakeDay y (f_month f - 1) (f_day f) in
        match f_time f with
        | None => Some (MakeDate day 0)
        | Some (h, m, s, ms) =>
            if in_range 0 59 m && in_range 0 59 s
               && (in_range 0 23 h
                   || ((h =? 24) && (m =? 0) && (s =? 0) && (ms =? 0)))
            then
              let t := MakeDate day (MakeTime h m s ms) in
              match f_offset f with
              | None => Some (UTC host t)
              | Some (negative, oh, om) =>
                  if in_range 0 23 oh && in_range 0 59 om then
                    Some (t - (if negative then -1 else 1)
                                * (oh * 3600000 + om * 60000))
                  else None
              end
            else None
        end
      else None
  end.

(** [Date.parse]: a string in the date-time string format has the time
    value of its fields; any other string is left by the language to
    the host. *)
Definition parse (host : Host) (s : string) : option Z :=
  match read_format (list_ascii_of_string s) with
  | Some f => time_value host f
  | None => parse_other host s
  end.

(** [new Date(n)] for a number [n]. *)
Definition of_number (n : number) : value := VDate (clip_number n).

(** [new Date(v)] with one argument. *)
Definition construct (host : Host) (v : value) : value :=
  match v with
  | VDate tv => VDate tv
  | VStr s => VDate (parse host s ≫= TimeClip)
  | VArr _ | VObj _ | VModel _ =>
      VDate (match to_string v with
             | Some s => parse host s ≫= TimeClip
             | None => None
             end)
  | _ => of_number (to_number v)
  end.

End Date.

(** ** Errors, thrown completions and connections *)

(** A JavaScript [Error] object: its message and the [statusCode]
    property [request] may attach. *)
Record Error := mkError {
  message : string;
  statusCode : option Z
}.

Definition new_Error (msg : string) : Error :=
  {| message := msg; statusCode := None |}.

(** The result of evaluating code that may throw. *)
Inductive completion (A : Type) :=
| Normal (a : A)
| Throw (e : Error).
Arguments Normal {A} a.
Arguments Throw {A} e.

(** The data of a [NylasConnection]. *)
Record NylasConnection := mkConnection {
  accessToken : option string;
  clientId : option string
}.

(** Text of a value inside a template literal.  For a [Date] and for a
    model instance, whose text the model does not have, a placeholder
    stands in; what is proved of a text is proved of [printable]
    values. *)
Definition show (v : JS.value) : string := default "[object]" (JS.to_string v).

(** ** Attributes

    An [Attribute] object is its two keys and its two virtual methods;
    each subclass of the source is a module giving the methods it
    overrides.  [parent] is the instance being hydrated. *)
Record Attribute := mkAttribute {
  modelKey : string;
  jsonKey : string;
  toJSON_of : JS.value -> completion JS.value;
  fromJSON_of : JS.value -> NylasConnection * gmap string JS.value -> JS.value
}.

(** The constructor argument [{ modelKey, jsonKey? }]. *)
Record AttributeArgs := mkArgs {
  arg_modelKey : string;
  arg_jsonKey : option string
}.

(** [jsonKey || modelKey] *)
Definition default_jsonKey (a : AttributeArgs) : string :=
  match arg_jsonKey a with
  | Some k => if String.eqb k "" then arg_modelKey a else k
  | None => arg_modelKey a
  end.

Module Attribute.
Import JS.
Definition toJSON (val : value) : completion value := Normal val.
Definition fromJSON (val : value)
    (parent : NylasConnection * gmap string value) : value :=
  or_else val VNull.
Definition new (a : AttributeArgs) : Attribute :=
  mkAttribute (arg_modelKey a) (default_jsonKey a) toJSON fromJSON.
End Attribute.

Module AttributeObject.
(** Inherits both methods from [Attribute]. *)
Definition toJSON := Attribute.toJSON.
Definition fromJSON := Attribute.fromJSON.
Definition new (a : AttributeArgs) : Attribute :=
  mkAttribute (arg_modelKey a) (default_jsonKey a) toJSON fromJSON.
End AttributeObject.

Module AttributeNumber.
Import JS.
Definition toJSON (val : value) : completion value := Normal val.
Definition fromJSON (val : value)
    (parent : NylasConnection * gmap string value) : value :=
  if negb (isNaN val) then Number val else VNull.
Definition new (a : AttributeArgs) : Attribute :=
  mkAttribute (arg_modelKey a) (default_jsonKey a) toJSON fromJSON.
End AttributeNumber.

Module AttributeBoolean.
Import JS.
Definition toJSON (val : value) : completion value := Normal val.
(** [val === 'true' || val === true || false] *)
Definition fromJSON (val : value)
    (parent : NylasConnection * gmap string value) : value :=
  match val with
  | VStr s => VBool (String.eqb s "true")
  | VBool b => VBool b
  | _ => VBool false
  end.
Definition new (a : AttributeArgs) : Attribute :=
  mkAttribute (arg_modelKey a) (default_jsonKey a) toJSON fromJSON.
End AttributeBoolean.

Module AttributeString.
Import JS.
Definition toJSON (val : value) : completion value := Normal val.
Definition fromJSON (val : value)
    (parent : NylasConnection * gmap string value) : value :=
  or_else val (VStr "").
Definition new (a : AttributeArgs) : Attribute :=
  mkAttribute (arg_modelKey a) (default_jsonKey a) toJSON fromJSON.
End AttributeString.

Module AttributeStringList.
Import JS.
Definition toJSON (val : value) : completion value := Normal val.
Definition fromJSON (val : value)
    (parent : NylasConnection * gmap string value) : value :=
  or_else val (VArr []).
Definition new (a : AttributeArgs) : Attribute :=
  mkAttribute (arg_modelKey a) (default_jsonKey a) toJSON fromJSON.
End AttributeStringList.

Module AttributeDate.
Import JS.
Definition not_a_date (key : string) (val : value) : Error :=
  new_Error ("Attempting to toJSON AttributeDate which is not a date:
          " +:+ key +:+ "
         = " +:+ show val).

(** [toISOString] throws a RangeError on an invalid date. *)
Definition toJSON (key : string) (val : value) : completion value :=
  if negb (truthy val) then Normal val
  else match val with
       | VDate (Some t) => Normal (VStr (Date.toISOString t))
       | VDate None => Throw (new_Error "Invalid time value")
       | _ => Throw (not_a_date key val)
       end.

Definition fromJSON (host : Date.Host) (val : value)
    (parent : NylasConnection * gmap string value) : value :=
  if negb (truthy val) then VNull else Date.construct host val.

Definition new (host : Date.Host) (a : AttributeArgs) : Attribute :=
  mkAttribute (arg_modelKey a) (default_jsonKey a)
              (toJSON (arg_modelKey a)) (fromJSON host).
End AttributeDate.

Module AttributeDateTime.
Import JS.
Definition not_a_date (key : string) (val : value) : Error :=
  new_Error ("Attempting to toJSON AttributeDateTime which is not a date:
          " +:+ key +:+ "
        = " +:+ show val).

(** [val.getTime() / 1000.0]; [getTime] of an invalid date is NaN. *)
Definition toJSON (key : string) (val : value) : completion value :=
  if negb (truthy val) then Normal VNull
  else match val with
       | VDate (Some t) => Normal (VNum (div (num t) (num 1000)))
       | VDate None => Normal (VNum NaN)
       | _ => Throw (not_a_date key val)
       end.

(** [new Date(val * 1000)] *)
Definition fromJSON (val : value)
    (parent : NylasConnection * gmap string value) : value :=
  if negb (truthy val) then VNull
  else Date.of_number (mul (to_number val) (num 1000)).

Definition new (a : AttributeArgs) : Attribute :=
  mkAttribute (arg_modelKey a) (default_jsonKey a)
              (toJSON (arg_modelKey a)) fromJSON.
End AttributeDateTime.

(** ** Query parameters

    The [params] / [qs] dictionaries.  The three keys the collection
    engine itself reads are fields ([None]: the property is absent);
    [offset] and [limit] are integers, as [_range] declares them.  Every
    other filter is passed through in [filters]. *)
Record Params := mkParams {
  view : option JS.value;
  limit : option Z;
  offset : option Z;
  filters : gmap string JS.value
}.

Definition no_params : Params := mkParams None None None ∅.

(** ** Model classes and [RestfulModel] *)

(** What a model class contributes statically: its names, its attribute
    table in declaration order (the order [for ... in] visits it), and
    the instance methods a subclass may override. *)
Record ModelClass := mkClass {
  className : string;
  collectionName : string;
  endpointName : string;
  attributes : list (string * Attribute);
  pathPrefix : string;
  toJSON_m : gmap string JS.value -> completion JS.value;
  saveRequestBody_m : gmap string JS.value -> completion JS.value;
  deleteRequestQueryString_m : Params -> Params;
  deleteRequestBody_m : Params -> JS.value
}.

(** An instance: its class, its connection and its own fields. *)
Record Instance := mkInstance {
  cls : ModelClass;
  connection : NylasConnection;
  fields : gmap string JS.value
}.

(** ** The request dispatcher: [NylasConnection] *)

(** The [options] object handed to [request], and what
    [requestOptions] resolves it to. *)
Record Options := mkOptions {
  method : option string;
  path : string;
  url : option string;
  qs : option Params;
  body : option JS.value;
  formData : option JS.value;
  json : option bool;
  downloadRequest : bool;
  headers : gmap string string
}.

Record ResolvedOptions := mkResolved {
  r_method : string;
  r_path : string;
  r_url : string;
  r_qs : option Params;
  r_body : option JS.value;
  r_formData : option JS.value;
  r_json : bool;
  r_downloadRequest : bool;
  r_auth : option string;
  r_headers : gmap string string
}.

(** The response object of the HTTP client; an absent [statusCode]
    behaves as 0 in both tests [request] makes of it. *)
Record Response := mkResponse {
  resp_statusCode : Z;
  resp_headers : gmap string string
}.

(** What the HTTP client passes to its callback:
    [(error, response, body)]. *)
Record Reply := mkReply {
  reply_error : option Error;
  reply_response : option Response;
  reply_body : JS.value
}.

(** The injected HTTP client: one reply per request. *)
Definition Transport := ResolvedOptions -> Reply.

(** How a promise ends.  [Uncaught] is an exception that escapes the
    response callback of the HTTP client: the promise is never settled. *)
Inductive settlement :=
| Resolved (v : JS.value)
| Rejected (e : Error)
| Uncaught (e : Error).

(** A user callback, as the value it returns; its invocation is an
    event of the trace. *)
Definition Callback := option Error -> JS.value -> JS.value.

(** Observable effects, in the order they happen. *)
Inductive event :=
| EvRequest (o : ResolvedOptions)
| EvWarn (warning : string)
| EvCallback (err : option Error) (result : JS.value)
| EvEach (item : JS.value)
| EvComplete (err : option Error).

(** What the module takes from outside [src/]: the values of
    [./config], the version in [package.json], and the [JSON.parse]
    built-in, which returns a value or throws. *)
Record Config := mkConfig {
  apiServer : string;
  clientSecret : option string;
  SDK_VERSION : string;
  JSON_parse : JS.value -> completion JS.value
}.

Definition SUPPORTED_API_VERSION : string := "2.1".

(** The response object as the value a download request resolves to;
    [body] is the body as the client delivered it. *)
Definition response_value (r : Response) (body : JS.value) : JS.value :=
  JS.VObj (<["statusCode" := JS.VNum (JS.num (resp_statusCode r))]>
          (<["headers" := JS.VObj (JS.VStr <$> resp_headers r)]>
          (<["body" := body]> ∅))).

Module NylasConnection.
Import JS.

Definition nonempty (o : option string) : option string :=
  match o with
  | Some s => if String.eqb s "" then None else Some s
  | None => None
  end.

(** The [expanded] convenience: a truthy [qs.expanded] is removed, and
    [qs.view] becomes ['expanded'] when it was exactly [true]. *)
Definition rewrite_expanded (q : Params) : Params :=
  match filters q !! "expanded" with
  | Some e =>
      if truthy e then
        {| view := match e with
                   | VBool true => Some (VStr "expanded")
                   | _ => view q
                   end;
           limit := limit q; offset := offset q;
           filters := delete "expanded" (filters q) |}
      else q
  | None => q
  end.

Definition requestOptions (cfg : Config) (conn : NylasConnection)
    (options : Options) : ResolvedOptions :=
  let user :=
    if String.eqb (substring 0 3 (path options)) "/a/"
    then clientSecret cfg else accessToken conn in
  let hs := headers options in
  let hs := match hs !! "User-Agent" with
            | Some _ => hs
            | None => <["User-Agent" := "Nylas Node SDK v" +:+ SDK_VERSION cfg]> hs
            end in
  let hs := <["Nylas-SDK-API-Version" := SUPPORTED_API_VERSION]> hs in
  let hs := match clientId conn with
            | Some c => <["X-Nylas-Client-Id" := c]> hs
            | None => delete "X-Nylas-Client-Id" hs
            end in
  {| r_method := default "GET" (nonempty (method options));
     r_path := path options;
     r_url := match String.eqb (path options) "", nonempty (url options) with
              | false, None => apiServer cfg +:+ path options
              | _, u => default "" u
              end;
     r_qs := rewrite_expanded <$> qs options;
     r_body := match formData options with
               | Some f => if truthy f then body options
                           else Some (or_else (default VUndefined (body options)) (VObj ∅))
               | None => Some (or_else (default VUndefined (body options)) (VObj ∅))
               end;
     r_formData := formData options;
     r_json := default true (json options);
     r_downloadRequest := downloadRequest options;
     r_auth := nonempty user;
     r_headers := hs |}.

(** [parseInt(s)]: leading white space, a sign, then the longest run
    of digits, hexadecimal after a [0x] prefix. *)
Fixpoint run_digits (radix : Z) (acc : option Z) (cs : list ascii)
  : option Z :=
  match cs with
  | c :: r =>
      match hex_val c with
      | Some d =>
          if d <? radix then run_digits radix (Some (radix * default 0 acc + d)) r
          else acc
      | None => acc
      end
  | [] => acc
  end.

Definition parseInt (s : string) : option Z :=
  let cs := drop_spaces (list_ascii_of_string s) in
  let '(neg, cs) :=
    match cs with
    | "-"%char :: r => (true, r)
    | "+"%char :: r => (false, r)
    | _ => (false, cs)
    end in
  let '(radix, cs) :=
    match cs with
    | "0"%char :: "x"%char :: r | "0"%char :: "X"%char :: r => (16, r)
    | _ => (10, cs)
    end in
  (fun z => if neg then - z else z) <$> run_digits radix None cs.

(** [s.split('-')[0]] *)
Fixpoint before_dash (cs : list ascii) : list ascii :=
  match cs with
  | c :: r => if Ascii.eqb c "-" then [] else c :: before_dash r
  | [] => []
  end.

Definition major (version : string) : option Z :=
  parseInt (string_of_list_ascii (before_dash (list_ascii_of_string version))).

Definition update_api : string :=
  " Please update the version of the API that your application is using through the developer dashboard.".
Definition update_sdk : string :=
  " Please update the sdk to ensure it works properly.".

(** A comparison with NaN on either side is false. *)
Definition gt (a b : option Z) : bool :=
  match a, b with
  | Some x, Some y => y <? x
  | _, _ => false
  end.

Definition _getWarningForVersion (sdkApiVersion apiVersion : option string)
    : string :=
  if bool_decide (sdkApiVersion = apiVersion) then ""
  else
    match nonempty sdkApiVersion, nonempty apiVersion with
    | Some sdk, Some api =>
        let warning :=
          "WARNING: SDK version may not support your Nylas API version."
            +:+ " SDK supports version " +:+ sdk
            +:+ " of the API and your application"
            +:+ " is currently running on version " +:+ api
            +:+ " of the API." in
        let apiNum := major api in
        let sdkNum := major sdk in
        if gt sdkNum apiNum then warning +:+ update_api
        else if gt apiNum sdkNum then warning +:+ update_sdk
        else warning
    | _, _ => ""
    end.

Definition null_body : Error := new_Error "Cannot read properties of null".

(** The default of the callback parameter [body = {}]. *)
Definition body_or_empty (body : value) : value :=
  match body with
  | VUndefined => VObj ∅
  | _ => body
  end.

(** The error [request] rejects with once a response with an error
    status, or an error next to a response, has arrived. *)
Definition classify_error (error : option Error) (response : Response)
    (body : value) : Error :=
  let error :=
    match error with
    | Some e => e
    | None =>
        new_Error (match get_prop body "message" with
                   | VUndefined => ""
                   | m => show m
                   end)
    end in
  let error :=
    if truthy (get_prop body "missing_fields") then
      {| message := show (get_prop body "message") +:+ ": "
                      +:+ show (get_prop body "missing_fields");
         statusCode := statusCode error |}
    else error in
  let error :=
    if truthy (get_prop body "server_error") then
      {| message := message error +:+ " (Server Error:
              " +:+ show (get_prop body "server_error") +:+ "
            )";
         statusCode := statusCode error |}
    else error in
  if resp_statusCode response =? 0 then error
  else {| message := message error;
          statusCode := Some (resp_statusCode response) |}.

(** [request(options)]: the settlement of the returned promise and
    the events on the way.  With [json] left true the client delivers
    the body decoded; with [json === false] it is parsed here, and an
    exception of [JSON.parse] escapes the client's callback. *)
Definition request (cfg : Config) (transport : Transport)
    (conn : NylasConnection) (options : Options)
    : settlement * list event :=
  let resolvedOptions := requestOptions cfg conn options in
  let reply := transport resolvedOptions in
  match reply_response reply with
  | None =>
      (Rejected (default (new_Error "No response") (reply_error reply)),
       [EvRequest resolvedOptions])
  | Some response =>
      let apiVersion := resp_headers response !! "nylas-api-version" in
      let warning :=
        _getWarningForVersion (Some SUPPORTED_API_VERSION) apiVersion in
      let evs :=
        EvRequest resolvedOptions
          :: (if String.eqb warning "" then [] else [EvWarn warning]) in
      let body := body_or_empty (reply_body reply) in
      match (if r_json resolvedOptions then Normal body
             else JSON_parse cfg body) with
      | Throw e => (Uncaught e, evs)
      | Normal body =>
          if bool_decide (is_Some (reply_error reply))
             || (299 <? resp_statusCode response) then
            match body with
            | VNull => (Uncaught null_body, evs)
            | _ => (Rejected (classify_error (reply_error reply) response body),
                    evs)
            end
          else if r_downloadRequest resolvedOptions then
            (Resolved (response_value response (reply_body reply)), evs)
          else (Resolved body, evs)
      end
  end.
End NylasConnection.

(** ** Promises as settlements with a trace *)

Definition Promise : Type := settlement * list event.

(** An argument that is, dynamically, a callback, a parameter object or
    absent ([null] / [undefined]). *)
Inductive Arg :=
| ArgFn (f : Callback)
| ArgObj (p : Params)
| ArgNone.

(** [if (callback) callback(err, result)] *)
Definition call (callback : option Callback) (err : option Error)
    (result : JS.value) : list event :=
  match callback with
  | Some _ => [EvCallback err result]
  | None => []
  end.

(** [p.then(onFulfilled)] *)
Definition then_ (p : Promise) (onFulfilled : JS.value -> Promise) : Promise :=
  match p with
  | (Resolved v, evs) => let '(s, evs') := onFulfilled v in (s, evs ++ evs')
  | (Rejected e, evs) => (Rejected e, evs)
  | (Uncaught e, evs) => (Uncaught e, evs)
  end.

(** [p.catch(onRejected)] *)
Definition catch_ (p : Promise) (onRejected : Error -> Promise) : Promise :=
  match p with
  | (Rejected e, evs) => let '(s, evs') := onRejected e in (s, evs ++ evs')
  | other => other
  end.

(** The handler pair every single-request operation ends with:
    [.then(x => { if (callback) callback(null, x); return
    Promise.resolve(x) }).catch(err => { if (callback) callback(err);
    return Promise.reject(err) })]. *)
Definition report (callback : option Callback) (p : Promise) : Promise :=
  catch_ (then_ p (fun x => (Resolved x, call callback None x)))
         (fun err => (Rejected err, call callback (Some err) JS.VUndefined)).

Definition simple_options (m : string) (p : string) (q : Params)
    (b : option JS.value) : Options :=
  {| method := Some m; path := p; url := None; qs := Some q; body := b;
     formData := None; json := None; downloadRequest := false;
     headers := ∅ |}.

(** ** [RestfulModel] and the attributes that need it *)

Definition lower_char (c : ascii) : ascii :=
  let n := nat_of_ascii c in
  if (65 <=? n)%nat && (n <=? 90)%nat then ascii_of_nat (n + 32) else c.

Definition toLowerCase (s : string) : string :=
  string_of_list_ascii (map lower_char (list_ascii_of_string s)).

Module RestfulModel.
Import JS.

(** One turn of the loop of [fromJSON]: the attribute named [attrName]
    is assigned only when [json[attr.jsonKey] !== undefined]. *)
Definition hydrate_attr (conn : NylasConnection) (json : value)
    (this : gmap string value) (entry : string * Attribute)
    : gmap string value :=
  let '(attrName, attr) := entry in
  match get_prop json (jsonKey attr) with
  | VUndefined => this
  | v => <[attrName := fromJSON_of attr v (conn, this)]> this
  end.

(** [fromJSON(json = {})]: the fields of [this] afterwards.  Reading a
    property of [null] throws a TypeError, which happens at the first
    attribute. *)
Definition fromJSON (attrs : list (string * Attribute))
    (conn : NylasConnection) (json : value) (this : gmap string value)
    : completion (gmap string value) :=
  let json := match json with VUndefined => VObj ∅ | _ => json end in
  match json, attrs with
  | VNull, _ :: _ =>
      Throw (new_Error "Cannot read properties of null")
  | _, _ => Normal (fold_left (hydrate_attr conn json) attrs this)
  end.

(** [new modelClass(connection, json)]: an empty instance, hydrated
    when [json] is truthy (and then not [null], so that [fromJSON] does
    not throw). *)
Definition new (attrs : list (string * Attribute))
    (conn : NylasConnection) (json : value) : gmap string value :=
  if truthy json then
    match fromJSON attrs conn json ∅ with
    | Normal f => f
    | Throw _ => ∅
    end
  else ∅.

(** [toJSON()]: every attribute serialised under its wire key, then
    [object] set to the lower-cased class name. *)
Definition toJSON (name : string) (attrs : list (string * Attribute))
    (this : gmap string value) : completion value :=
  let step (acc : completion (gmap string value))
           (entry : string * Attribute) :=
    match acc with
    | Throw e => Throw e
    | Normal json =>
        match toJSON_of entry.2 (default VUndefined (this !! entry.1)) with
        | Normal v => Normal (<[jsonKey entry.2 := v]> json)
        | Throw e => Throw e
        end
    end in
  match fold_left step attrs (Normal ∅) with
  | Normal json => Normal (VObj (<["object" := VStr (toLowerCase name)]> json))
  | Throw e => Throw e
  end.

Definition saveEndpoint (c : ModelClass) : string :=
  pathPrefix c +:+ "/" +:+ collectionName c.

Definition deleteRequestQueryString (params : Params) : Params := no_params.
Definition deleteRequestBody (params : Params) : value := VObj ∅.

(** [deleteRequestOptions(params)]: [{ body, qs }]. *)
Definition deleteRequestOptions (c : ModelClass) (params : Params)
    : value * Params :=
  (deleteRequestBody_m c params, deleteRequestQueryString_m c params).

(** A class that overrides nothing. *)
Definition class (name coll endpoint : string)
    (attrs : list (string * Attribute)) : ModelClass :=
  {| className := name; collectionName := coll; endpointName := endpoint;
     attributes := attrs; pathPrefix := "";
     toJSON_m := toJSON name attrs;
     saveRequestBody_m := toJSON name attrs;
     deleteRequestQueryString_m := deleteRequestQueryString;
     deleteRequestBody_m := deleteRequestBody |}.

(** [_save(params, callback)].  Evaluating [this.saveRequestBody()]
    may throw before any promise exists.  The second component is the
    instance's fields afterwards. *)
Definition _save (cfg : Config) (transport : Transport) (this : Instance)
    (params : Arg) (callback : option Callback)
    : completion (Promise * gmap string value) :=
  let '(params, callback) :=
    match params with
    | ArgFn f => (no_params, Some f)
    | ArgObj p => (p, callback)
    | ArgNone => (no_params, callback)
    end in
  let id := default VUndefined (fields this !! "id") in
  match saveRequestBody_m (cls this) (fields this) with
  | Throw e => Throw e
  | Normal body =>
      let options :=
        simple_options (if truthy id then "PUT" else "POST")
          (if truthy id then saveEndpoint (cls this) +:+ "/" +:+ show id
           else saveEndpoint (cls this))
          params (Some body) in
      match NylasConnection.request cfg transport (connection this) options with
      | (Resolved json, evs) =>
          match fromJSON (attributes (cls this)) (connection this) json
                         (fields this) with
          | Normal f' =>
              Normal ((Resolved (VModel f'),
                       evs ++ call callback None (VModel f')), f')
          | Throw err =>
              Normal ((Rejected err,
                       evs ++ call callback (Some err) VUndefined),
                      fields this)
          end
      | (Rejected err, evs) =>
          Normal ((Rejected err, evs ++ call callback (Some err) VUndefined),
                  fields this)
      | (Uncaught e, evs) => Normal ((Uncaught e, evs), fields this)
      end
  end.


(** [_get(params, callback, path_suffix)]: the raw reply of
    [/collection/id/suffix]; the instance is not touched. *)
Definition _get (cfg : Config) (transport : Transport) (this : Instance)
    (params : Params) (callback : option Callback) (path_suffix : string)
    : Promise :=
  report callback
    (NylasConnection.request cfg transport (connection this)
       (simple_options "GET"
          ("/" +:+ collectionName (cls this) +:+ "/"
             +:+ show (default VUndefined (fields this !! "id")) +:+ path_suffix)
          params None)).
End RestfulModel.

Module AttributeCollection.
Import JS.

Definition not_iterable : Error := new_Error "vals is not iterable".
Definition no_toJSON (val : value) : Error :=
  new_Error ("Cannot read properties of " +:+ show val
               +:+ " (reading 'toJSON')").
Definition not_a_function : Error := new_Error "val.toJSON is not a function".

(** One element of [toJSON]: [val.toJSON()] when the element has a
    [toJSON] member, the element itself otherwise. *)
Definition item_toJSON (itemClass : ModelClass) (val : value)
    : completion value :=
  match val with
  | VUndefined | VNull => Throw (no_toJSON val)
  | VModel f => toJSON_m itemClass f
  | VDate (Some t) => Normal (VStr (Date.toISOString t))
  | VDate None => Normal VNull
  | VObj o =>
      match o !! "toJSON" with
      | None | Some VUndefined | Some VNull => Normal val
      | Some _ => Throw not_a_function
      end
  | _ => Normal val
  end.

Definition toJSON (itemClass : ModelClass) (vals : value)
    : completion value :=
  if negb (truthy vals) then Normal (VArr [])
  else
    let each (acc : completion (list value)) (val : value) :=
      match acc with
      | Throw e => Throw e
      | Normal json =>
          match item_toJSON itemClass val with
          | Normal j => Normal (json ++ [j])
          | Throw e => Throw e
          end
      end in
    match vals with
    | VArr items =>
        match fold_left each items (Normal []) with
        | Normal json => Normal (VArr json)
        | Throw e => Throw e
        end
    | VStr s =>
        Normal (VArr (map (fun c => VStr (String c EmptyString))
                          (list_ascii_of_string s)))
    | _ => Throw not_iterable
    end.

(** [fromJSON(json, parent)]: one freshly constructed item per element
    of a wire array, the empty list for anything else. *)
Definition fromJSON (itemClass : ModelClass) (json : value)
    (parent : NylasConnection * gmap string value) : value :=
  match json with
  | VArr items =>
      VArr (map (fun objJSON =>
                   VModel (RestfulModel.new (attributes itemClass) parent.1 objJSON))
                items)
  | _ => VArr []
  end.

Definition new (a : AttributeArgs) (itemClass : ModelClass) : Attribute :=
  mkAttribute (arg_modelKey a) (default_jsonKey a)
              (toJSON itemClass) (fromJSON itemClass).
End AttributeCollection.

(** The factory object [Attributes]. *)
Module Attributes.
Definition Number := AttributeNumber.new.
Definition String := AttributeString.new.
Definition StringList := AttributeStringList.new.
Definition DateTime := AttributeDateTime.new.
Definition Date := AttributeDate.new.
Definition Collection := AttributeCollection.new.
Definition Boolean := AttributeBoolean.new.
Definition Object := AttributeObject.new.
End Attributes.


(** ** The resource classes *)

Definition args (modelKey : string) : AttributeArgs := mkArgs modelKey None.
Definition args2 (modelKey jsonKey : string) : AttributeArgs :=
  mkArgs modelKey (Some jsonKey).

Definition RestfulModel_attributes : list (string * Attribute) :=
  [("id", Attributes.String (args "id"));
   ("object", Attributes.String (args "object"));
   ("accountId", Attributes.String (args2 "accountId" "account_id"))].

Module Calendar.
Import JS.
Definition attributes : list (string * Attribute) :=
  RestfulModel_attributes ++
  [("name", Attributes.String (args "name"));
   ("description", Attributes.String (args "description"));
   ("readOnly", Attributes.Boolean (args2 "readOnly" "read_only"));
   ("location", Attributes.String (args "location"));
   ("timezone", Attributes.String (args "timezone"));
   ("isPrimary", Attributes.Boolean (args2 "isPrimary" "is_primary"));
   ("jobStatusId", Attributes.String (args2 "jobStatusId" "job_status_id"))].

(** Only the four writable fields are sent back. *)
Definition saveRequestBody (this : gmap string value) : completion value :=
  match RestfulModel.toJSON "Calendar" attributes this with
  | Normal calendarJSON =>
      Normal (VObj (<["name" := get_prop calendarJSON "name"]>
                   (<["description" := get_prop calendarJSON "description"]>
                   (<["location" := get_prop calendarJSON "location"]>
                   (<["timezone" := get_prop calendarJSON "timezone"]> ∅)))))
  | Throw e => Throw e
  end.

Definition class : ModelClass :=
  mkClass "Calendar" "calendars" "" attributes ""
          (RestfulModel.toJSON "Calendar" attributes) saveRequestBody
          RestfulModel.deleteRequestQueryString
          RestfulModel.deleteRequestBody.

(** [save(params, callback)] *)
Definition save (cfg : Config) (transport : Transport)
    (conn : NylasConnection) (this : gmap string value)
    (params : Arg) (callback : option Callback)
    : completion (Promise * gmap string value) :=
  RestfulModel._save cfg transport (mkInstance class conn this) params callback.
End Calendar.

Module EventParticipant.
Import JS.
Definition attributes : list (string * Attribute) :=
  [("name", Attributes.String (args "name"));
   ("email", Attributes.String (args "email"));
   ("status", Attributes.String (args "status"))].

(** [name] falls back to [email]; [object] is dropped. *)
Definition toJSON (this : gmap string value) : completion value :=
  match RestfulModel.toJSON "EventParticipant" attributes this with
  | Normal (VObj json) =>
      let json :=
        if truthy (default VUndefined (json !! "name")) then json
        else <["name" := default VUndefined (json !! "email")]> json in
      Normal (VObj (delete "object" json))
  | other => other
  end.

Definition class : ModelClass :=
  mkClass "EventParticipant" "event-participants" "" attributes ""
          toJSON toJSON
          RestfulModel.deleteRequestQueryString
          RestfulModel.deleteRequestBody.
End EventParticipant.

Module Event.
Import JS.
Definition attributes : list (string * Attribute) :=
  RestfulModel_attributes ++
  [("calendarId", Attributes.String (args2 "calendarId" "calendar_id"));
   ("masterEventId", Attributes.String (args2 "masterEventId" "master_event_id"));
   ("iCalUID", Attributes.String (args2 "iCalUID" "ical_uid"));
   ("messageId", Attributes.String (args2 "messageId" "message_id"));
   ("title", Attributes.String (args "title"));
   ("description", Attributes.String (args "description"));
   ("owner", Attributes.String (args "owner"));
   ("participants", Attributes.Collection (args "participants") EventParticipant.class);
   ("readOnly", Attributes.Boolean (args2 "readOnly" "read_only"));
   ("location", Attributes.String (args "location"));
   ("when", Attributes.Object (args "when"));
   ("busy", Attributes.Boolean (args "busy"));
   ("status", Attributes.String (args "status"));
   ("recurrence", Attributes.Object (args "recurrence"))].

Definition deleteRequestQueryString (params : Params) : Params :=
  match filters params !! "notify_participants" with
  | Some v => mkParams None None None {["notify_participants" := v]}
  | None => no_params
  end.

Definition class : ModelClass :=
  mkClass "Event" "events" "" attributes ""
          (RestfulModel.toJSON "Event" attributes)
          (RestfulModel.toJSON "Event" attributes)
          deleteRequestQueryString
          RestfulModel.deleteRequestBody.

(** [save(params, callback)] *)
Definition save (cfg : Config) (transport : Transport)
    (conn : NylasConnection) (this : gmap string value)
    (params : Arg) (callback : option Callback)
    : completion (Promise * gmap string value) :=
  RestfulModel._save cfg transport (mkInstance class conn this) params callback.

(** [this.when?.key] *)
Definition when_prop (this : gmap string value) (key : string) : value :=
  get_prop (default VUndefined (this !! "when")) key.

(** [get start()] *)
Definition start (this : gmap string value) : value :=
  or_else (or_else (or_else (when_prop this "start_time")
                            (when_prop this "start_date"))
                   (when_prop this "time"))
          (when_prop this "date").

(** [get end()] *)
Definition end_ (this : gmap string value) : value :=
  or_else (or_else (or_else (when_prop this "end_time")
                            (when_prop this "end_date"))
                   (when_prop this "time"))
          (when_prop this "date").

(** [if (!this.when) { this.when = {} }] *)
Definition ensure_when (this : gmap string value) : gmap string value :=
  if truthy (default VUndefined (this !! "when")) then this
  else <["when" := VObj ∅]> this.

(** [val === other] for a [val] that is a number or a string. *)
Definition same (val other : value) : bool :=
  default false (strict_eq val other).

(** The second branch of either setter: three keys of [this.when] are
    deleted and [key] is assigned.  The file is a module, hence strict
    code: the assignment throws a TypeError when [this.when] is a
    primitive.  [None]: [this.when] is an array or a [Date], which would
    then carry a named property, an object the value model lacks. *)
Definition retime (this : gmap string value) (d1 d2 d3 key : string)
    (val : value) : option (completion (gmap string value)) :=
  match default VUndefined (this !! "when") with
  | VObj o =>
      Some (Normal (<["when" := VObj (<[key := val]>
                        (delete d3 (delete d2 (delete d1 o))))]> this))
  | VModel f =>
      Some (Normal (<["when" := VModel (<[key := val]>
                        (delete d3 (delete d2 (delete d1 f))))]> this))
  | VArr _ | VDate _ => None
  | _ => Some (Throw (new_Error ("Cannot create property '" +:+ key +:+ "'")))
  end.

(** [set start(val)]: the fields of the event afterwards. *)
Definition set_start (this : gmap string value) (val : value)
    : option (completion (gmap string value)) :=
  let this := ensure_when this in
  let when := default VUndefined (this !! "when") in
  match val with
  | VNum _ =>
      if same val (get_prop when "end_time")
      then Some (Normal (<["when" := VObj {["time" := val]}]> this))
      else retime this "time" "start_date" "date" "start_time" val
  | VStr _ =>
      if same val (get_prop when "end_date")
      then Some (Normal (<["when" := VObj {["date" := val]}]> this))
      else retime this "date" "start_time" "time" "start_date" val
  | _ => Some (Normal this)
  end.

(** [set end(val)] *)
Definition set_end (this : gmap string value) (val : value)
    : option (completion (gmap string value)) :=
  let this := ensure_when this in
  let when := default VUndefined (this !! "when") in
  match val with
  | VNum _ =>
      if same val (get_prop when "start_time")
      then Some (Normal (<["when" := VObj {["time" := val]}]> this))
      else retime this "time" "end_date" "date" "end_time" val
  | VStr _ =>
      if same val (get_prop when "start_date")
      then Some (Normal (<["when" := VObj {["date" := val]}]> this))
      else retime this "date" "time" "end_time" "end_date" val
  | _ => Some (Normal this)
  end.

(** [rsvp(status, comment, callback)]: the promise, and the fields of
    the event afterwards, hydrated from the reply. *)
Definition rsvp (cfg : Config) (transport : Transport)
    (conn : NylasConnection) (this : gmap string value)
    (status comment : value) (callback : option Callback)
    : Promise * gmap string value :=
  let body :=
    VObj (<["event_id" := default VUndefined (this !! "id")]>
         (<["status" := status]> (<["comment" := comment]> ∅))) in
  let options :=
    mkOptions (Some "POST") "/send-rsvp" None None (Some body) None None
              false ∅ in
  match NylasConnection.request cfg transport conn options with
  | (Resolved json, evs) =>
      match RestfulModel.fromJSON attributes conn json this with
      | Normal f' =>
          ((Resolved (VModel f'), evs ++ call callback None (VModel f')), f')
      | Throw err =>
          ((Rejected err, evs ++ call callback (Some err) VUndefined), this)
      end
  | (Rejected err, evs) =>
      ((Rejected err, evs ++ call callback (Some err) VUndefined), this)
  | (Uncaught e, evs) => ((Uncaught e, evs), this)
  end.
End Event.

Module Account.
Definition attributes : list (string * Attribute) :=
  RestfulModel_attributes ++
  [("name", Attributes.String (args "name"));
   ("emailAddress", Attributes.String (args2 "emailAddress" "email_address"));
   ("provider", Attributes.String (args "provider"));
   ("organizationUnit", Attributes.String (args2 "organizationUnit" "organization_unit"));
   ("syncState", Attributes.String (args2 "syncState" "sync_state"));
   ("billingState", Attributes.String (args2 "billingState" "billing_state"));
   ("linkedAt", Attributes.DateTime (args2 "linkedAt" "linked_at"))].

Definition class : ModelClass :=
  RestfulModel.class "Account" "accounts" "account" attributes.
End Account.

(** ** [RestfulModelCollection]: the chunked traversal engine *)

Definition REQUEST_CHUNK_SIZE : Z := 100.

(** A [limit] as [_range] computes with it: an integer or [Infinity]. *)
Inductive bound :=
| Finite (z : Z)
| Infinity.

(** [delete]'s first argument: an id, an item, or nothing. *)
Inductive ItemOrId :=
| AnId (id : string)
| AnItem (item : Instance)
| NoItem.

(** The [options] object of [deleteItem]. *)
Record DeleteOptions := mkDeleteOptions {
  d_item : Instance;
  d_callback : option Callback;
  d_body : option JS.value;
  d_qs : option Params
}.

Module RestfulModelCollection.
Import JS.

Section Collection.
Variable cfg : Config.
Variable transport : Transport.
Variable modelClass : ModelClass.
Variable connection : NylasConnection.

Definition request := NylasConnection.request cfg transport connection.

Definition path : string := "/" +:+ collectionName modelClass.

Definition _createModel (json : value) : value :=
  VModel (RestfulModel.new (attributes modelClass) connection json).

Definition not_a_function : Error := new_Error "jsonArray.map is not a function".
Definition not_iterable : Error := new_Error "items is not iterable".
Definition no_property : Error := new_Error "Cannot read properties of undefined".

(** [{ ...params, offset, limit }] *)
Definition chunk_qs (params : Params) (offset limit : Z) : Params :=
  {| view := view params; limit := Some limit; offset := Some offset;
     filters := filters params |}.

Definition view_is (params : Params) (name : string) : bool :=
  match view params with
  | Some v => loose_eq_string v name
  | None => false
  end.

Definition _getModelCollection (params : Params) (offset limit : Z)
    (path : string) : Promise :=
  then_ (request (simple_options "GET" path (chunk_qs params offset limit) None))
        (fun jsonArray =>
           match jsonArray with
           | VArr jsons => (Resolved (VArr (map _createModel jsons)), [])
           | _ => (Rejected not_a_function, [])
           end).

(** Items are models, or raw ids under the ids view. *)
Definition _getItems (params : Params) (offset limit : Z)
    (path_arg : option string) : Promise :=
  let path := default path (NylasConnection.nonempty path_arg) in
  if view_is params "ids" then
    request (simple_options "GET" path (chunk_qs params offset limit) None)
  else _getModelCollection params offset limit path.

Definition _getModel (id : string) (params : Params) : Promise :=
  then_ (request (simple_options "GET" (path +:+ "/" +:+ id) params None))
        (fun json => (Resolved (_createModel json), [])).

(** *** forEach *)

(** The recursive [iteratee] of [forEach], from [offset] on.  [fuel]
    bounds the number of chunk requests; [None] means it ran out. *)
Fixpoint forEach_iteratee (fuel : nat) (params : Params) (offset : Z)
  : option Promise :=
  match fuel with
  | O => None
  | S fuel' =>
      match _getItems params offset REQUEST_CHUNK_SIZE None with
      | (Resolved items, evs) =>
          match iterate items with
          | None => Some (Rejected not_iterable, evs)
          | Some xs =>
              let evs := evs ++ map EvEach xs in
              let offset := offset + Z.of_nat (length xs) in
              let finished := Z.of_nat (length xs) <? REQUEST_CHUNK_SIZE in
              if finished then Some (Resolved VUndefined, evs)
              else
                match forEach_iteratee fuel' params offset with
                | Some (s, evs') => Some (s, evs ++ evs')
                | None => None
                end
          end
      | other => Some other
      end
  end.

Definition count_view_error (op : string) : Error :=
  new_Error (op +:+ "() cannot be called with the count view").

(** [if (completeCallback) completeCallback(err)] *)
Definition complete (completeCallback : option Callback) (err : option Error)
    : list event :=
  match completeCallback with
  | Some _ => [EvComplete err]
  | None => []
  end.

(** [forEach(params, eachCallback, completeCallback)]: what the call
    returns at once ([None] for [undefined], else the promise), and the
    trace, which includes the traversal that goes on in the background
    ([None] when [fuel] chunk requests did not finish it). *)
Definition forEach (fuel : nat) (params : Params)
    (completeCallback : option Callback)
    : option settlement * option (list event) :=
  if view_is params "count" then
    let err := count_view_error "forEach" in
    (Some (Rejected err), Some (complete completeCallback (Some err)))
  else
    (None,
     match forEach_iteratee fuel params 0 with
     | None => None
     | Some (Resolved _, evs) => Some (evs ++ complete completeCallback None)
     | Some (Rejected err, evs) =>
         Some (evs ++ complete completeCallback (Some err))
     | Some (Uncaught _, evs) => Some evs
     end).

(** *** count, first, find *)

Definition count (params : Params) (callback : option Callback) : Promise :=
  let qs := {| view := match view params with
                       | Some v => Some v
                       | None => Some (VStr "count")
                       end;
               limit := limit params; offset := offset params;
               filters := filters params |} in
  catch_
    (then_ (request (simple_options "GET" path qs None))
           (fun json =>
              match json with
              | VUndefined | VNull => (Rejected no_property, [])
              | _ => (Resolved (get_prop json "count"),
                      call callback None (get_prop json "count"))
              end))
    (fun err => (Rejected err, call callback (Some err) VUndefined)).

Definition first (params : Params) (callback : option Callback) : Promise :=
  if view_is params "count" then
    let err := count_view_error "first" in
    (Rejected err, call callback (Some err) VUndefined)
  else
    catch_
      (then_ (_getItems params 0 1 None)
             (fun items =>
                match first_of items with
                | Some x => (Resolved x, call callback None x)
                | None => (Rejected no_property, [])
                end))
      (fun err => (Rejected err, call callback (Some err) VUndefined)).

Definition find (id : string) (paramsArg callbackArg : Arg) : Promise :=
  let callback :=
    match callbackArg, paramsArg with
    | ArgFn f, _ => Some f
    | _, ArgFn f => Some f
    | _, _ => None
    end in
  let params :=
    match paramsArg, callbackArg with
    | ArgObj p, _ => p
    | _, ArgObj p => p
    | _, _ => no_params
    end in
  if String.eqb id "" then
    let err := new_Error "find() must be called with an item id" in
    (Rejected err, call callback (Some err) VUndefined)
  else if view_is params "count" || view_is params "ids" then
    let err := new_Error "find() cannot be called with the count or ids view" in
    (Rejected err, call callback (Some err) VUndefined)
  else report callback (_getModel id params).
(** *** list and _range *)

(** [Math.min(REQUEST_CHUNK_SIZE, limit - accumulated.length)] *)
Definition chunkLimit_of (limit : bound) (accumulated : list value) : Z :=
  match limit with
  | Finite l => Z.min REQUEST_CHUNK_SIZE (l - Z.of_nat (length accumulated))
  | Infinity => REQUEST_CHUNK_SIZE
  end.

(** [accumulated.length >= limit] *)
Definition reached (limit : bound) (accumulated : list value) : bool :=
  match limit with
  | Finite l => l <=? Z.of_nat (length accumulated)
  | Infinity => false
  end.

(** The recursive [iteratee] of [_range]: the settlement of its
    promise, the trace, and [accumulated] when it settles. *)
Fixpoint range_iteratee (fuel : nat) (params : Params) (offset : Z)
    (limit : bound) (path_arg : option string) (accumulated : list value)
  : option (Promise * list value) :=
  match fuel with
  | O => None
  | S fuel' =>
      let chunkOffset := offset + Z.of_nat (length accumulated) in
      let chunkLimit := chunkLimit_of limit accumulated in
      match _getItems params chunkOffset chunkLimit path_arg with
      | (Resolved items, evs) =>
          let accumulated := concat accumulated items in
          match length_of items with
          | None => Some ((Rejected no_property, evs), accumulated)
          | Some len =>
              let finished :=
                less_than len REQUEST_CHUNK_SIZE || reached limit accumulated in
              if finished then Some ((Resolved VUndefined, evs), accumulated)
              else
                match range_iteratee fuel' params offset limit path_arg
                                     accumulated with
                | Some ((s, evs'), acc') => Some ((s, evs ++ evs'), acc')
                | None => None
                end
          end
      | other => Some (other, accumulated)
      end
  end.

(** [_range({ params, offset = 0, limit = 100, callback, path })].
    With a callback the returned promise resolves to whatever the
    callback returns, on success and on failure alike. *)
Definition _range (fuel : nat) (params : Params) (offset : option Z)
    (limit : option bound) (callback : option Callback)
    (path_arg : option string) : option Promise :=
  let offset := default 0 offset in
  let limit := default (Finite 100) limit in
  match range_iteratee fuel params offset limit path_arg [] with
  | None => None
  | Some ((Resolved _, evs), accumulated) =>
      match callback with
      | Some cb =>
          Some (Resolved (cb None (VArr accumulated)),
                evs ++ [EvCallback None (VArr accumulated)])
      | None => Some (Resolved (VArr accumulated), evs)
      end
  | Some ((Rejected err, evs), _) =>
      match callback with
      | Some cb =>
          Some (Resolved (cb (Some err) VUndefined),
                evs ++ [EvCallback (Some err) VUndefined])
      | None => Some (Rejected err, evs)
      end
  | Some ((Uncaught e, evs), _) => Some (Uncaught e, evs)
  end.

(** [params.limit || Infinity] *)
Definition limit_or_Infinity (params : Params) : bound :=
  match limit params with
  | Some l => if l =? 0 then Infinity else Finite l
  | None => Infinity
  end.

Definition list (fuel : nat) (params : Params) (callback : option Callback)
    : option Promise :=
  if view_is params "count" then
    let err := count_view_error "list" in
    Some (Rejected err, call callback (Some err) VUndefined)
  else
    _range fuel params (offset params) (Some (limit_or_Infinity params))
           callback None.

(** *** build, delete and deleteItem *)

(** [build(args)]: a model made from [{}], then every key of [args]
    assigned on it. *)
Definition build (args : gmap string value) : Instance :=
  mkInstance modelClass connection
    (args ∪ RestfulModel.new (attributes modelClass) connection (VObj ∅)).

Definition deleteItem (options : DeleteOptions) (callbackArg : option Callback)
    : Promise :=
  let item := d_item options in
  let callback :=
    match d_callback options with
    | Some f => Some f
    | None => callbackArg
    end in
  let body :=
    match d_body options with
    | Some b => b
    | None => deleteRequestBody_m (cls item) no_params
    end in
  let qs :=
    match d_qs options with
    | Some q => q
    | None => deleteRequestQueryString_m (cls item) no_params
    end in
  report callback
    (request (simple_options "DELETE"
                (path +:+ "/" +:+ show (default VUndefined (fields item !! "id")))
                qs (Some body))).

(** [delete(itemOrId, params, callback)].  A callback passed in the
    second position is only picked up after the item check. *)
Definition delete (itemOrId : ItemOrId) (params : Arg)
    (callback : option Callback) : Promise :=
  let missing :=
    match itemOrId with
    | NoItem => true
    | AnId id => String.eqb id ""
    | AnItem _ => false
    end in
  if missing then
    let err := new_Error "delete() requires an item or an id" in
    (Rejected err, call callback (Some err) VUndefined)
  else
    let '(params, callback) :=
      match params with
      | ArgFn f => (no_params, Some f)
      | ArgObj p => (p, callback)
      | ArgNone => (no_params, callback)
      end in
    let item :=
      match itemOrId with
      | AnId id => build {["id" := VStr id]}
      | AnItem i => i
      | NoItem => build ∅
      end in
    let '(body, qs) := RestfulModel.deleteRequestOptions (cls item) params in
    deleteItem (mkDeleteOptions item None (Some body) (Some qs)) callback.
End Collection.
End RestfulModelCollection.

(** ** [CalendarRestfulModelCollection] *)
Module CalendarRestfulModelCollection.
Import JS.

Section Calendars.
Variable cfg : Config.
Variable transport : Transport.
Variable connection : NylasConnection.

(** [freeBusy(options, callback)]: the camel-case spelling of either
    bound is preferred to the snake-case one. *)
Definition freeBusy (options : gmap string value) (callback : option Callback)
    : Promise :=
  let opt (key : string) := default VUndefined (options !! key) in
  let body :=
    VObj (<["start_time" := or_else (opt "startTime") (opt "start_time")]>
         (<["end_time" := or_else (opt "endTime") (opt "end_time")]>
         (<["emails" := opt "emails"]> ∅))) in
  report callback
    (NylasConnection.request cfg transport connection
       (mkOptions (Some "POST") "/calendars/free-busy" None None (Some body)
                  None None false ∅)).
End Calendars.
End CalendarRestfulModelCollection.

(** ** [RestfulModelInstance]: a resource that has one instance *)
Module RestfulModelInstance.
Import JS.

Section Instance.
Variable cfg : Config.
Variable transport : Transport.
Variable modelClass : ModelClass.
Variable connection : NylasConnection.

Definition path : string := "/" +:+ endpointName modelClass.

Definition get (params : Params) : Promise :=
  then_ (NylasConnection.request cfg transport connection
           (simple_options "GET" path params None))
        (fun json =>
           (Resolved (VModel (RestfulModel.new (attributes modelClass)
                                               connection json)), [])).
End Instance.
End RestfulModelInstance.

(** ** Servers the properties are stated against *)
Module Server.
Import JS.

Definition ok (body : value) : Reply :=
  mkReply None (Some (mkResponse 200 ∅)) body.

(** A listing endpoint holding [items]: a request for [limit] items
    from [offset] is answered 200 with that slice, in order. *)
Definition paged (items : list value) : Transport :=
  fun o =>
    match r_qs o with
    | Some q =>
        ok (VArr (take (Z.to_nat (default (Z.of_nat (length items)) (limit q)))
                       (drop (Z.to_nat (default 0 (offset q))) items)))
    | None => ok (VArr items)
    end.

(** No response arrives: a transport failure, with or without an
    error object of the client's own. *)
Definition unreachable (e : option Error) : Transport :=
  fun _ => mkReply e None VUndefined.

(** Every request is answered with the same status, headers and
    body. *)
Definition constant (status : Z) (hs : gmap string string) (body : value)
    : Transport :=
  fun _ => mkReply None (Some (mkResponse status hs)) body.

(** [transport], except that a request whose query asks from offset
    [bad] gets [reply]. *)
Definition failing_at (bad : Z) (reply : Reply) (transport : Transport)
    : Transport :=
  fun o =>
    if bool_decide (r_qs o ≫= offset = Some bad) then reply else transport o.

(** [transport] with the headers of every response replaced by [hs]. *)
Definition with_headers (hs : gmap string string) (transport : Transport)
    : Transport :=
  fun o =>
    let r := transport o in
    mkReply (reply_error r)
            ((fun resp => mkResponse (resp_statusCode resp) hs) <$> reply_response r)
            (reply_body r).
End Server.

(** A [JSON.parse] that knows the texts of the empty object and of
    [null], and takes every other argument for a syntax error. *)
Definition parse_two_texts (v : JS.value) : completion JS.value :=
  match v with
  | JS.VStr "{}" => Normal (JS.VObj ∅)
  | JS.VStr "null" => Normal JS.VNull
  | _ => Throw (new_Error "Unexpected token")
  end.

Definition test_config : Config :=
  mkConfig "https://api.nylas.com" None "0.0.0" parse_two_texts.

(** A host in UTC that knows no string outside the date-time string
    format. *)
Definition utc_host : Date.Host := Date.mkHost (fun t => t) (fun _ => None).
Definition test_connection : NylasConnection := mkConnection (Some "token") None.

(** The callback events of a trace, in order. *)
Definition callbacks (evs : list event) : list (option Error * JS.value) :=
  omap (fun ev => match ev with
                  | EvCallback e r => Some (e, r)
                  | _ => None
                  end) evs.

(** The chunk requests of a trace, as [(offset, limit)] pairs. *)
Definition chunks (evs : list event) : list (option Z * option Z) :=
  omap (fun ev => match ev with
                  | EvRequest o =>
                      Some (r_qs o ≫= offset, r_qs o ≫= limit)
                  | _ => None
                  end) evs.

(** The items handed to the item callback, in order. *)
Definition visited (evs : list event) : list JS.value :=
  omap (fun ev => match ev with EvEach x => Some x | _ => None end) evs.

(** The completion-callback invocations of a trace. *)
Definition completions (evs : list event) : list (option Error) :=
  omap (fun ev => match ev with EvComplete e => Some e | _ => None end) evs.

Definition requests (evs : list event) : list ResolvedOptions :=
  omap (fun ev => match ev with EvRequest o => Some o | _ => None end) evs.

Definition warnings (evs : list event) : list string :=
  omap (fun ev => match ev with EvWarn w => Some w | _ => None end) evs.

(** The item a chunk delivers for the wire value [json]: a model, or the
    raw value under the ids view. *)
Definition delivered (modelClass : ModelClass) (connection : NylasConnection)
    (params : Params) (json : JS.value) : JS.value :=
  if RestfulModelCollection.view_is params "ids" then json
  else RestfulModelCollection._createModel modelClass connection json.

(** The request event of the chunk at [offset] with [limit]. *)
Definition chunk_event (cfg : Config) (modelClass : ModelClass)
    (connection : NylasConnection) (params : Params) (offset limit : Z)
    : event :=
  EvRequest (NylasConnection.requestOptions cfg connection
               (simple_options "GET" (RestfulModelCollection.path modelClass)
                  (RestfulModelCollection.chunk_qs params offset limit) None)).

(** The options of the chunk request for [limit] items from [offset]. *)
Definition chunk_options (modelClass : ModelClass) (params : Params)
    (offset limit : Z) : Options :=
  simple_options "GET" (RestfulModelCollection.path modelClass)
    (RestfulModelCollection.chunk_qs params offset limit) None.

(** [transport] answers the chunk request for [limit] items from
    [offset] as a listing endpoint holding [items] does: 200 with that
    slice. *)
Definition serves (cfg : Config) (transport : Transport)
    (modelClass : ModelClass) (connection : NylasConnection)
    (params : Params) (items : list JS.value) (offset limit : Z) : Prop :=
  transport (NylasConnection.requestOptions cfg connection
               (chunk_options modelClass params offset limit))
  = Server.ok (JS.VArr (take (Z.to_nat limit) (drop (Z.to_nat offset) items))).

(** The request with [options] is rejected with [err]: no response
    came, or one with an error status. *)
Definition rejects (cfg : Config) (transport : Transport)
    (connection : NylasConnection) (options : Options) (err : Error) : Prop :=
  (NylasConnection.request cfg transport connection options).1 = Rejected err.

(** What a chunk request asks for once [got] items are in hand: 100
    items, or what is left of the limit if that is less. *)
Definition limit_at (limit : bound) (got : Z) : Z :=
  match limit with
  | Finite l => Z.min 100 (l - got)
  | Infinity => 100
  end.

(** The [(offset, limit)] pairs of [k] consecutive steps of a bounded
    traversal from offset 0 in which every chunk but the last is full:
    step [j] asks from offset [100 j]. *)
Definition planned_chunks (limit : bound) (k : nat)
    : list (option Z * option Z) :=
  map (fun j : nat =>
         (Some (100 * Z.of_nat j), Some (limit_at limit (100 * Z.of_nat j))))
      (seq 0 k).

(** How many chunk requests a traversal of [n] items makes: one more
    than the number of full chunks the server holds, unless the limit is
    reached first. *)
Definition chunk_count (limit : bound) (n : nat) : nat :=
  match limit with
  | Finite l => Nat.min (Z.to_nat ((l + 99) / 100)) (n / 100 + 1)
  | Infinity => n / 100 + 1
  end.

(** The pacing of a streaming traversal, read off its trace: every
    request asks for 100 items from the offset equal to the number of
    items handed out so far ([seen]), and is made only after a chunk of
    at least 100 items ([last]: the size of the chunk in progress). *)
Fixpoint paced (seen last : Z) (evs : list event) : bool :=
  match evs with
  | [] => true
  | EvRequest o :: rest =>
      bool_decide (r_qs o ≫= offset = Some seen)
      && bool_decide (r_qs o ≫= limit = Some 100)
      && (100 <=? last) && paced seen 0 rest
  | EvEach _ :: rest => paced (seen + 1) (last + 1) rest
  | _ :: rest => paced seen last rest
  end.

(** A failure reported on both channels: the promise is rejected with
    [err] and the callback, when there is one, was called once, with
    [err] and no result. *)
Definition both_channels (p : Promise) (callback : option Callback)
    (err : Error) : Prop :=
  p.1 = Rejected err
  /\ callbacks p.2 = match callback with
                     | Some _ => [(Some err, JS.VUndefined)]
                     | None => []
                     end.

(** Whether a version warning says which side is behind: it does so
    through one of its two closing sentences. *)
Definition names_newer_side (warning : string) : bool :=
  match index 0 NylasConnection.update_api warning,
        index 0 NylasConnection.update_sdk warning with
  | None, None => false
  | _, _ => true
  end.

(** The sentence every version warning opens with. *)
Definition version_notice (sdk api : string) : string :=
  "WARNING: SDK version may not support your Nylas API version. SDK supports version "
    +:+ sdk +:+ " of the API and your application is currently running on version "
    +:+ api +:+ " of the API.".

(** The [when] field of an event holds what its declared type admits,
    nothing or a plain object, or the [null] that hydration leaves for
    a falsy wire value. *)
Definition when_plain (this : gmap string JS.value) : bool :=
  match this !! "when" with
  | None | Some JS.VUndefined | Some JS.VNull | Some (JS.VObj _) => true
  | _ => false
  end.

(** The keys of [when] that a number (a time) or a string (a date)
    goes under: as the start, as the end, and as both at once. *)
Definition start_key (val : JS.value) : string :=
  match val with JS.VNum _ => "start_time" | _ => "start_date" end.

Definition end_key (val : JS.value) : string :=
  match val with JS.VNum _ => "end_time" | _ => "end_date" end.

Definition point_key (val : JS.value) : string :=
  match val with JS.VNum _ => "time" | _ => "date" end.

(** Wire objects of the resource classes, every declared key present. *)
Definition calendar_wire (id account_id name description location timezone
    job_status_id : string) (read_only is_primary : bool)
    : gmap string JS.value :=
  list_to_map
    [("id", JS.VStr id); ("object", JS.VStr "calendar");
     ("account_id", JS.VStr account_id); ("name", JS.VStr name);
     ("description", JS.VStr description); ("read_only", JS.VBool read_only);
     ("location", JS.VStr location); ("timezone", JS.VStr timezone);
     ("is_primary", JS.VBool is_primary);
     ("job_status_id", JS.VStr job_status_id)].

Definition account_wire (id account_id name email_address provider
    organization_unit sync_state billing_state : string) (linked_at : Z)
    : gmap string JS.value :=
  list_to_map
    [("id", JS.VStr id); ("object", JS.VStr "account");
     ("account_id", JS.VStr account_id); ("name", JS.VStr name);
     ("email_address", JS.VStr email_address); ("provider", JS.VStr provider);
     ("organization_unit", JS.VStr organization_unit);
     ("sync_state", JS.VStr sync_state);
     ("billing_state", JS.VStr billing_state);
     ("linked_at", JS.VNum (JS.num linked_at))].

Definition participant_wire (name email status : string) : JS.value :=
  JS.VObj (list_to_map [("name", JS.VStr name); ("email", JS.VStr email);
                        ("status", JS.VStr status)]).

Definition event_wire (id account_id calendar_id master_event_id ical_uid
    message_id title description owner location status : string)
    (read_only busy : bool) (participants : list (string * string * string))
    (when recurrence : JS.value) : gmap string JS.value :=
  list_to_map
    [("id", JS.VStr id); ("object", JS.VStr "event");
     ("account_id", JS.VStr account_id); ("calendar_id", JS.VStr calendar_id);
     ("master_event_id", JS.VStr master_event_id);
     ("ical_uid", JS.VStr ical_uid); ("message_id", JS.VStr message_id);
     ("title", JS.VStr title); ("description", JS.VStr description);
     ("owner", JS.VStr owner);
     ("participants",
      JS.VArr (map (fun p => participant_wire p.1.1 p.1.2 p.2) participants));
     ("read_only", JS.VBool read_only); ("location", JS.VStr location);
     ("when", when); ("busy", JS.VBool busy); ("status", JS.VStr status);
     ("recurrence", recurrence)].

(** Chunk requests moved up by the offset [k] a traversal starts at. *)
Definition shifted (k : Z) (cs : list (option Z * option Z))
    : list (option Z * option Z) :=
  map (fun c => ((fun o => k + o) <$> c.1, c.2)) cs.

(** A value whose text the model has: anything but a [Date] and a model
    instance. *)
Definition printable (v : JS.value) : Prop := is_Some (JS.to_string v).

(** Resolved options handed to [requestOptions] once more. *)
Definition as_options (r : ResolvedOptions) : Options :=
  {| method := Some (r_method r); path := r_path r; url := Some (r_url r);
     qs := r_qs r; body := r_body r; formData := r_formData r;
     json := Some (r_json r); downloadRequest := r_downloadRequest r;
     headers := r_headers r |}.

(** * Properties *)

Import JS.

(** ** Attribute coercion on absent and null input *)

Section ZeroValues.
Variable a : AttributeArgs.
Variable itemClass : ModelClass.
Variable host : Date.Host.
Variable parent : NylasConnection * gmap string value.

(** C7, as the code has it: on [undefined] and on [null] every
    attribute kind returns without throwing; String gives the empty
    string, StringList and Collection the empty list, Boolean false,
    Date, DateTime, Object and the raw Attribute null; Number gives
    null on [undefined] and 0 on [null]. *)
Theorem fromJSON_zero_values :
  (fromJSON_of (Attributes.String a) VUndefined parent = VStr ""
   /\ fromJSON_of (Attributes.String a) VNull parent = VStr "")
  /\ (fromJSON_of (Attributes.StringList a) VUndefined parent = VArr []
      /\ fromJSON_of (Attributes.StringList a) VNull parent = VArr [])
  /\ (fromJSON_of (Attributes.Collection a itemClass) VUndefined parent = VArr []
      /\ fromJSON_of (Attributes.Collection a itemClass) VNull parent = VArr [])
  /\ (fromJSON_of (Attributes.Boolean a) VUndefined parent = VBool false
      /\ fromJSON_of (Attributes.Boolean a) VNull parent = VBool false)
  /\ (fromJSON_of (Attributes.Date host a) VUndefined parent = VNull
      /\ fromJSON_of (Attributes.Date host a) VNull parent = VNull)
  /\ (fromJSON_of (Attributes.DateTime a) VUndefined parent = VNull
      /\ fromJSON_of (Attributes.DateTime a) VNull parent = VNull)
  /\ (fromJSON_of (Attributes.Object a) VUndefined parent = VNull
      /\ fromJSON_of (Attributes.Object a) VNull parent = VNull)
  /\ (fromJSON_of (Attribute.new a) VUndefined parent = VNull
      /\ fromJSON_of (Attribute.new a) VNull parent = VNull)
  /\ (fromJSON_of (Attributes.Number a) VUndefined parent = VNull
      /\ fromJSON_of (Attributes.Number a) VNull parent = VNum (num 0)).
Proof. repeat split; reflexivity. Qed.
End ZeroValues.

(** C7 as stated fails for the Number kind: [isNaN(null)] is false, so
    [null] is converted by [Number(null)] to 0 instead of staying null. *)
Lemma number_fromJSON_null_is_zero :
  fromJSON_of (Attributes.Number (args "n")) VNull (test_connection, ∅)
    = VNum (num 0)
  /\ fromJSON_of (Attributes.Number (args "n")) VNull (test_connection, ∅)
       <> VNull.
Proof. split; [reflexivity | discriminate]. Qed.

(** ** Response classification *)

Ltac request_cases :=
  repeat (cbv beta iota;
          match goal with
          | |- context [if ?c then _ else _] => destruct c
          | |- context [match ?c with VNull => _ | _ => _ end] => destruct c
          | |- context [match ?c with Normal _ => _ | Throw _ => _ end] =>
              destruct c
          end).

Lemma request_unfold cfg transport conn options response :
  reply_response (transport (NylasConnection.requestOptions cfg conn options))
    = Some response ->
  NylasConnection.request cfg transport conn options
  = let resolvedOptions := NylasConnection.requestOptions cfg conn options in
    let reply := transport resolvedOptions in
    let warning :=
      NylasConnection._getWarningForVersion (Some SUPPORTED_API_VERSION)
        (resp_headers response !! "nylas-api-version") in
    let evs := EvRequest resolvedOptions
                 :: (if String.eqb warning "" then [] else [EvWarn warning]) in
    let body := NylasConnection.body_or_empty (reply_body reply) in
    match (if r_json resolvedOptions then Normal body
           else JSON_parse cfg body) with
    | Throw e => (Uncaught e, evs)
    | Normal body =>
        if bool_decide (is_Some (reply_error reply))
           || (299 <? resp_statusCode response) then
          match body with
          | VNull => (Uncaught NylasConnection.null_body, evs)
          | _ => (Rejected (NylasConnection.classify_error (reply_error reply)
                              response body), evs)
          end
        else if r_downloadRequest resolvedOptions then
          (Resolved (response_value response (reply_body reply)), evs)
        else (Resolved body, evs)
    end.
Proof. intros H. unfold NylasConnection.request. rewrite H. reflexivity. Qed.

(** The message of the error a response with an error status is
    rejected with, when the transport handed over no error of its own. *)
Lemma classify_error_message response b :
  resp_statusCode response <> 0 ->
  NylasConnection.classify_error None response b
  = mkError
      (let listed :=
         if truthy (get_prop b "missing_fields")
         then show (get_prop b "message") +:+ ": "
                +:+ show (get_prop b "missing_fields")
         else match get_prop b "message" with
              | VUndefined => ""
              | m => show m
              end in
       if truthy (get_prop b "server_error")
       then listed +:+ " (Server Error:
              " +:+ show (get_prop b "server_error") +:+ "
            )"
       else listed)
      (Some (resp_statusCode response)).
Proof.
  intros Hs. unfold NylasConnection.classify_error.
  replace (resp_statusCode response =? 0) with false
    by (symmetry; apply Z.eqb_neq; exact Hs).
  destruct (truthy (get_prop b "missing_fields")),
           (truthy (get_prop b "server_error")); reflexivity.
Qed.

(** C4, as the code has it.  The body [request] classifies is the one
    the client delivered (an empty object when it delivered none) or,
    for a request made with [json === false], what [JSON.parse] makes of
    it; when [JSON.parse] throws, the exception escapes and the promise
    is never settled.  A response with status above 299 that arrives
    with no error object of the transport and a body other than [null]
    rejects with an error whose message is the text of the body's
    [message] (empty when there is none), replaced by
    "message: missing_fields" when [missing_fields] is truthy and
    extended by the server-error text when [server_error] is truthy, and
    whose [statusCode] is the response status.  A response with status
    at most 299 resolves with the body, or with the response object
    itself when the request is a download request.  A 404 with body
    [{message: "not found"}] rejects with message "not found" and status
    code 404. *)
Theorem request_status_classification :
  forall cfg (transport : Transport) conn options response received,
    transport (NylasConnection.requestOptions cfg conn options)
      = mkReply None (Some response) received ->
    let json := r_json (NylasConnection.requestOptions cfg conn options) in
    let delivered := NylasConnection.body_or_empty received in
    let p := NylasConnection.request cfg transport conn options in
    (forall e,
       json = false -> JSON_parse cfg delivered = Throw e ->
       p.1 = Uncaught e)
    /\ (forall b,
          (if json then Normal delivered else JSON_parse cfg delivered)
            = Normal b ->
          let seed := match get_prop b "message" with
                      | VUndefined => ""
                      | m => show m
                      end in
          let listed :=
            if truthy (get_prop b "missing_fields")
            then show (get_prop b "message") +:+ ": "
                   +:+ show (get_prop b "missing_fields")
            else seed in
          let msg :=
            if truthy (get_prop b "server_error")
            then listed +:+ " (Server Error:
              " +:+ show (get_prop b "server_error") +:+ "
            )"
            else listed in
          (299 < resp_statusCode response ->
           b <> VNull ->
           printable (get_prop b "message") ->
           printable (get_prop b "missing_fields") ->
           printable (get_prop b "server_error") ->
           p.1 = Rejected (mkError msg (Some (resp_statusCode response))))
          /\ (resp_statusCode response <= 299 ->
              p.1 = Resolved (if downloadRequest options
                              then response_value response received
                              else b)))
    /\ (json = true ->
        (NylasConnection.request cfg
           (Server.constant 404 ∅ (VObj {["message" := VStr "not found"]}))
           conn options).1
        = Rejected (mkError "not found" (Some 404))).
Proof.
  intros cfg transport conn options response received Ht json delivered p.
  assert (Hp : p = let evs :=
                     EvRequest (NylasConnection.requestOptions cfg conn options)
                       :: (if String.eqb
                                (NylasConnection._getWarningForVersion
                                   (Some SUPPORTED_API_VERSION)
                                   (resp_headers response !! "nylas-api-version"))
                                ""
                           then []
                           else [EvWarn (NylasConnection._getWarningForVersion
                                           (Some SUPPORTED_API_VERSION)
                                           (resp_headers response
                                              !! "nylas-api-version"))]) in
                   match (if json then Normal delivered
                          else JSON_parse cfg delivered) with
                   | Throw e => (Uncaught e, evs)
                   | Normal body =>
                       if 299 <? resp_statusCode response then
                         match body with
                         | VNull => (Uncaught NylasConnection.null_body, evs)
                         | _ => (Rejected (NylasConnection.classify_error None
                                             response body), evs)
                         end
                       else if downloadRequest options then
                         (Resolved (response_value response received), evs)
                       else (Resolved body, evs)
                   end).
  { subst p. rewrite (request_unfold _ _ _ _ response) by (rewrite Ht; reflexivity).
    cbv zeta. rewrite Ht. cbn [reply_error reply_body].
    rewrite bool_decide_eq_false_2 by (intros [? ?]; discriminate).
    reflexivity. }
  split; [|split].
  - intros e Hj He. rewrite Hp. cbv zeta. rewrite Hj, He. reflexivity.
  - intros b Hb seed listed msg. rewrite Hp. cbv zeta. rewrite Hb. split.
    + intros Hs Hnull _ _ _.
      replace (299 <? resp_statusCode response) with true
        by (symmetry; apply Z.ltb_lt; lia).
      rewrite classify_error_message by lia.
      destruct b; try congruence; reflexivity.
    + intros Hs.
      replace (299 <? resp_statusCode response) with false
        by (symmetry; apply Z.ltb_ge; lia).
      destruct (downloadRequest options); reflexivity.
  - intros Hj.
    rewrite (request_unfold _ _ _ _ (mkResponse 404 ∅)) by reflexivity.
    cbv zeta. fold json. rewrite Hj. reflexivity.
Qed.

(** The classification applied to a reply listing missing fields, and
    to a reply to a request made with [json === false] whose text is
    that of the empty object. *)
Lemma request_status_classification_witness :
  (NylasConnection.request test_config
     (Server.constant 422 ∅
        (VObj {["message" := VStr "Invalid"; "missing_fields" := VArr [VStr "a"; VStr "b"]]}))
     test_connection (simple_options "GET" "/events" no_params None)).1
  = Rejected (mkError "Invalid: a,b" (Some 422))
  /\ (NylasConnection.request test_config
        (Server.constant 404 ∅ (VStr "{}")) test_connection
        (mkOptions (Some "GET") "/messages/1" None None None None (Some false)
                   false ∅)).1
     = Rejected (mkError "" (Some 404)).
Proof.
  split.
  - refine (proj1 (proj1 (proj2 (request_status_classification test_config
              (Server.constant 422 ∅
                 (VObj {["message" := VStr "Invalid";
                         "missing_fields" := VArr [VStr "a"; VStr "b"]]}))
              test_connection (simple_options "GET" "/events" no_params None)
              (mkResponse 422 ∅) _ eq_refl)) _ eq_refl) _ _ _ _ _);
      first [reflexivity | discriminate | (vm_compute; eauto)].
  - refine (proj1 (proj1 (proj2 (request_status_classification test_config
              (Server.constant 404 ∅ (VStr "{}")) test_connection
              (mkOptions (Some "GET") "/messages/1" None None None None
                         (Some false) false ∅)
              (mkResponse 404 ∅) _ eq_refl)) (VObj ∅) eq_refl) _ _ _ _ _);
      first [reflexivity | discriminate | (vm_compute; eauto)].
Defined.

(** C4 as stated fails in two places.  A download request that is
    answered 200 resolves with the response object, not with the parsed
    body; and when the transport hands over an error object together
    with a response, the rejection carries that error's own message, not
    the body's. *)
Lemma request_download_and_transport_error :
  (NylasConnection.request test_config (Server.constant 200 ∅ (VObj ∅))
     test_connection
     (mkOptions (Some "GET") "/files/1/download" None None None None None true ∅)).1
    = Resolved (response_value (mkResponse 200 ∅) (VObj ∅))
  /\ response_value (mkResponse 200 ∅) (VObj ∅) <> VObj ∅
  /\ (NylasConnection.request test_config
        (fun _ => mkReply (Some (new_Error "socket hang up"))
                          (Some (mkResponse 500 ∅))
                          (VObj {["message" := VStr "boom"]}))
        test_connection (simple_options "GET" "/events" no_params None)).1
       = Rejected (mkError "socket hang up" (Some 500)).
Proof.
  split; [reflexivity | split; [|reflexivity]].
  unfold response_value. intros H. inversion H.
Qed.

(** ** The version-skew warning *)

Lemma string_app_assoc (a b c : string) : (a +:+ b) +:+ c = a +:+ (b +:+ c).
Proof.
  induction a as [|x a IH]; [reflexivity|].
  change (String x ((a +:+ b) +:+ c) = String x (a +:+ (b +:+ c))).
  now rewrite IH.
Qed.

Lemma nonempty_Some (v : string) :
  v <> "" -> NylasConnection.nonempty (Some v) = Some v.
Proof.
  intros Hv. unfold NylasConnection.nonempty.
  destruct (String.eqb_spec v ""); congruence.
Qed.

Lemma warning_text (v : string) :
  v <> "" -> v <> SUPPORTED_API_VERSION ->
  NylasConnection._getWarningForVersion (Some SUPPORTED_API_VERSION) (Some v)
  = version_notice SUPPORTED_API_VERSION v
      +:+ match NylasConnection.major v with
          | Some n => if n <? 2 then NylasConnection.update_api
                      else if 2 <? n then NylasConnection.update_sdk
                      else ""
          | None => ""
          end.
Proof.
  intros Hv Hd. unfold NylasConnection._getWarningForVersion.
  rewrite bool_decide_eq_false_2 by congruence.
  rewrite (nonempty_Some v Hv).
  change (NylasConnection.nonempty (Some SUPPORTED_API_VERSION))
    with (Some SUPPORTED_API_VERSION).
  assert (Hn : forall t, "WARNING: SDK version may not support your Nylas API version."
                 +:+ " SDK supports version " +:+ SUPPORTED_API_VERSION
                 +:+ " of the API and your application"
                 +:+ " is currently running on version " +:+ v
                 +:+ " of the API." +:+ t
               = version_notice SUPPORTED_API_VERSION v +:+ t).
  { intros t. unfold version_notice. rewrite !string_app_assoc. reflexivity. }
  unfold NylasConnection.gt. cbv zeta.
  change (NylasConnection.major SUPPORTED_API_VERSION) with (Some 2).
  destruct (NylasConnection.major v) as [n|].
  - destruct (n <? 2) eqn:E1; [|destruct (2 <? n) eqn:E2];
      rewrite ?string_app_assoc; rewrite <- ?Hn; try reflexivity.
  - rewrite <- (Hn ""). rewrite ?string_app_assoc. reflexivity.
Qed.

Lemma warning_nonempty (v : string) :
  v <> "" -> v <> SUPPORTED_API_VERSION ->
  String.eqb (NylasConnection._getWarningForVersion
                (Some SUPPORTED_API_VERSION) (Some v)) "" = false.
Proof.
  intros Hv Hd. rewrite (warning_text v Hv Hd). reflexivity.
Qed.

(** C9, as the code has it.  Once a response has arrived, [request]
    logs a warning exactly when the [nylas-api-version] header is
    present, not empty and different from the supported version 2.1.
    The warning names both versions; it ends with the advice to update
    the API when the header's leading integer is below 2, with the
    advice to update the SDK when it is above 2, and with neither when
    the leading integers agree or the header has none.  The warning is
    an event only: the trace is the request followed by the warnings,
    and replacing the response headers of a request that is not a
    download changes neither whether nor with what the promise settles. *)
Theorem version_warning_is_advisory :
  forall cfg (transport : Transport) conn options response,
    reply_response (transport (NylasConnection.requestOptions cfg conn options))
      = Some response ->
    let p := NylasConnection.request cfg transport conn options in
    warnings p.2
      = match resp_headers response !! "nylas-api-version" with
        | Some v =>
            if String.eqb v "" || String.eqb v SUPPORTED_API_VERSION then []
            else [version_notice SUPPORTED_API_VERSION v
                    +:+ match NylasConnection.major v with
                        | Some n => if n <? 2 then NylasConnection.update_api
                                    else if 2 <? n then NylasConnection.update_sdk
                                    else ""
                        | None => ""
                        end]
        | None => []
        end
    /\ p.2 = EvRequest (NylasConnection.requestOptions cfg conn options)
               :: map EvWarn (warnings p.2)
    /\ (downloadRequest options = false ->
        forall hs,
          (NylasConnection.request cfg (Server.with_headers hs transport)
             conn options).1 = p.1).
Proof.
  intros cfg transport conn options response Hr p.
  assert (Hw : warnings p.2
      = match resp_headers response !! "nylas-api-version" with
        | Some v =>
            if String.eqb v "" || String.eqb v SUPPORTED_API_VERSION then []
            else [NylasConnection._getWarningForVersion
                    (Some SUPPORTED_API_VERSION) (Some v)]
        | None => []
        end
    /\ p.2 = EvRequest (NylasConnection.requestOptions cfg conn options)
               :: map EvWarn (warnings p.2)).
  { subst p. rewrite (request_unfold _ _ _ _ response Hr). cbn zeta.
    set (w := NylasConnection._getWarningForVersion _ _).
    assert (Hsplit : forall (X : settlement) (evs : list event),
               warnings (X, EvRequest (NylasConnection.requestOptions cfg conn options)
                         :: (if String.eqb w "" then [] else [EvWarn w])).2
               = if String.eqb w "" then [] else [w]).
    { intros. cbn. destruct (String.eqb w ""); reflexivity. }
    assert (Hevs : forall q : Promise,
               q.2 = EvRequest (NylasConnection.requestOptions cfg conn options)
                       :: (if String.eqb w "" then [] else [EvWarn w]) ->
               warnings q.2 = (if String.eqb w "" then [] else [w])
               /\ q.2 = EvRequest (NylasConnection.requestOptions cfg conn options)
                          :: map EvWarn (warnings q.2)).
    { intros q ->. cbn. destruct (String.eqb w ""); cbn; split; reflexivity. }
    match goal with |- warnings ?q.2 = _ /\ _ =>
      destruct (Hevs q) as [H1 H2]
    end.
    { request_cases; reflexivity. }
    split; [|exact H2]. rewrite H1. subst w.
    destruct (resp_headers response !! "nylas-api-version") as [v|]; [|reflexivity].
    destruct (String.eqb_spec v "") as [E|Hv]; [rewrite E; reflexivity|].
    destruct (String.eqb_spec v SUPPORTED_API_VERSION) as [E|Hd];
      [rewrite E; reflexivity|].
    cbn [orb]. rewrite (warning_nonempty v Hv Hd). reflexivity. }
  destruct Hw as [Hw1 Hw2]. split; [|split; [exact Hw2|]].
  - rewrite Hw1.
    destruct (resp_headers response !! "nylas-api-version") as [v|]; [|reflexivity].
    destruct (String.eqb_spec v "") as [E|Hv]; [rewrite E; reflexivity|].
    destruct (String.eqb_spec v SUPPORTED_API_VERSION) as [E|Hd];
      [rewrite E; reflexivity|].
    cbn [orb]. rewrite (warning_text v Hv Hd). reflexivity.
  - intros Hdl hs. subst p.
    rewrite (request_unfold _ _ _ _ response Hr).
    rewrite (request_unfold _ (Server.with_headers hs transport) _ _
               (mkResponse (resp_statusCode response) hs))
      by (unfold Server.with_headers; cbn; rewrite Hr; reflexivity).
    cbn zeta. unfold Server.with_headers. cbn [reply_error reply_body resp_statusCode].
    assert (Hd : r_downloadRequest (NylasConnection.requestOptions cfg conn options) = false)
      by exact Hdl.
    rewrite Hd.
    unfold NylasConnection.classify_error. cbn [resp_statusCode].
    request_cases; reflexivity.
Qed.

(** The theorem at a response announcing API version 3.0. *)
Lemma version_warning_is_advisory_witness :
  warnings (NylasConnection.request test_config
              (Server.constant 200 {["nylas-api-version" := "3.0"]} (VObj ∅))
              test_connection
              (simple_options "GET" "/events" no_params None)).2
  = [version_notice "2.1" "3.0" +:+ NylasConnection.update_sdk].
Proof.
  exact (proj1 (version_warning_is_advisory test_config
                  (Server.constant 200 {["nylas-api-version" := "3.0"]} (VObj ∅))
                  test_connection
                  (simple_options "GET" "/events" no_params None)
                  (mkResponse 200 {["nylas-api-version" := "3.0"]}) eq_refl)).
Defined.

(** C9 as stated fails on both counts.  A server announcing 2.0 differs
    from the supported 2.1, yet the warning logged says only that the
    versions differ, not which side is newer, because both have the
    leading integer 2; and a response without the header differs from
    2.1 as well, yet nothing is logged. *)
Lemma version_warning_without_direction :
  warnings (NylasConnection.request test_config
              (Server.constant 200 {["nylas-api-version" := "2.0"]} (VObj ∅))
              test_connection
              (simple_options "GET" "/events" no_params None)).2
    = ["WARNING: SDK version may not support your Nylas API version. SDK supports version 2.1 of the API and your application is currently running on version 2.0 of the API."]
  /\ names_newer_side
       "WARNING: SDK version may not support your Nylas API version. SDK supports version 2.1 of the API and your application is currently running on version 2.0 of the API."
     = false
  /\ warnings (NylasConnection.request test_config
                 (Server.constant 200 ∅ (VObj ∅)) test_connection
                 (simple_options "GET" "/events" no_params None)).2
     = [].
Proof. repeat split; vm_compute; reflexivity. Qed.

(** ** Usage errors *)


Lemma callbacks_call cb err v :
  callbacks (call cb err v) = match cb with Some _ => [(err, v)] | None => [] end.
Proof. destruct cb; reflexivity. Qed.

Lemma requests_call cb err v : requests (call cb err v) = [].
Proof. destruct cb; reflexivity. Qed.

(** C5, as the code has it.  [list] and [first] called with a view
    equal to 'count', and [find] called with a view equal to 'count' or
    'ids', or with an empty id, return a promise already rejected with a
    usage error, call the callback with it, and issue no request.
    [count] checks nothing: whatever the view, it issues its request,
    the caller's view overriding 'count'. *)
Theorem incompatible_view_is_usage_error :
  forall cfg transport modelClass connection params cb,
    (RestfulModelCollection.view_is params "count" = true ->
     (forall fuel,
        RestfulModelCollection.list cfg transport modelClass connection fuel params cb
        = Some (Rejected (new_Error "list() cannot be called with the count view"),
                call cb (Some (new_Error "list() cannot be called with the count view"))
                     VUndefined))
     /\ RestfulModelCollection.first cfg transport modelClass connection params cb
        = (Rejected (new_Error "first() cannot be called with the count view"),
           call cb (Some (new_Error "first() cannot be called with the count view"))
                VUndefined))
    /\ (forall id,
          id = "" \/ RestfulModelCollection.view_is params "count" = true
                  \/ RestfulModelCollection.view_is params "ids" = true ->
          let err :=
            new_Error (if String.eqb id ""
                       then "find() must be called with an item id"
                       else "find() cannot be called with the count or ids view") in
          RestfulModelCollection.find cfg transport modelClass connection id (ArgObj params)
                   (match cb with Some f => ArgFn f | None => ArgNone end)
          = (Rejected err, call cb (Some err) VUndefined))
    /\ requests (RestfulModelCollection.count cfg transport modelClass connection params cb).2
       = [NylasConnection.requestOptions cfg connection
            (simple_options "GET" (RestfulModelCollection.path modelClass)
               (mkParams (Some (default (VStr "count") (view params)))
                         (limit params) (offset params) (filters params))
               None)].
Proof.
  intros cfg transport modelClass connection params cb. split; [|split].
  - intros Hv. split.
    + intros fuel. unfold RestfulModelCollection.list. rewrite Hv. reflexivity.
    + unfold RestfulModelCollection.first. rewrite Hv. reflexivity.
  - intros id Hid err. subst err. unfold RestfulModelCollection.find.
    assert (Hcb : match match cb with Some f => ArgFn f | None => ArgNone end,
                        ArgObj params with
                  | ArgFn f, _ => Some f
                  | _, ArgFn f => Some f
                  | _, _ => None
                  end = cb) by (destruct cb; reflexivity).
    rewrite Hcb. clear Hcb.
    destruct (String.eqb id "") eqn:E; [reflexivity|].
    destruct Hid as [->|Hv]; [discriminate|].
    replace (RestfulModelCollection.view_is params "count" || RestfulModelCollection.view_is params "ids") with true.
    + reflexivity.
    + symmetry. destruct Hv as [-> | ->]; [reflexivity | apply orb_true_r].
  - unfold RestfulModelCollection.count, catch_, then_, RestfulModelCollection.request, NylasConnection.request.
    set (ro := NylasConnection.requestOptions _ _ _).
    assert (Hro : ro = NylasConnection.requestOptions cfg connection
            (simple_options "GET" (RestfulModelCollection.path modelClass)
               (mkParams (Some (default (VStr "count") (view params)))
                         (limit params) (offset params) (filters params))
               None)).
    { subst ro. destruct (view params); reflexivity. }
    rewrite <- Hro. clearbody ro.
    destruct (reply_response (transport ro)); cbn -[RestfulModelCollection.count].
    2: { rewrite requests_call. reflexivity. }
    request_cases; cbn; rewrite ?app_nil_r, ?requests_call; try reflexivity;
      destruct cb; reflexivity.
Qed.

(** The theorem at a [list] call with the count view. *)
Lemma incompatible_view_is_usage_error_witness :
  RestfulModelCollection.list test_config (Server.unreachable None) Calendar.class test_connection
    0 (mkParams (Some (VStr "count")) None None ∅) None
  = Some (Rejected (new_Error "list() cannot be called with the count view"), []).
Proof.
  exact (proj1 (proj1 (incompatible_view_is_usage_error test_config
                  (Server.unreachable None) Calendar.class test_connection
                  (mkParams (Some (VStr "count")) None None ∅) None)
               eq_refl) 0%nat).
Defined.

(** C5 as stated fails for [count]: given the ids view, which makes no
    sense for a count, it still sends its request, with [view=ids], and
    resolves with whatever [count] field the reply has. *)
Lemma count_checks_no_view :
  (RestfulModelCollection.count test_config (Server.constant 200 ∅ (VObj {["count" := VNum (num 7)]}))
     Calendar.class test_connection
     (mkParams (Some (VStr "ids")) None None ∅) None).1
    = Resolved (VNum (num 7))
  /\ chunks (RestfulModelCollection.count test_config
               (Server.constant 200 ∅ (VObj {["count" := VNum (num 7)]}))
               Calendar.class test_connection
               (mkParams (Some (VStr "ids")) None None ∅) None).2
     = [(None, None)]
  /\ (fun o => r_qs o ≫= view)
       <$> requests (RestfulModelCollection.count test_config
               (Server.constant 200 ∅ (VObj {["count" := VNum (num 7)]}))
               Calendar.class test_connection
               (mkParams (Some (VStr "ids")) None None ∅) None).2
     = [Some (VStr "ids")].
Proof. repeat split; vm_compute; reflexivity. Qed.

(** ** Failures on the promise and on the callback *)

Lemma request_no_callbacks cfg transport conn options :
  callbacks (NylasConnection.request cfg transport conn options).2 = [].
Proof.
  unfold NylasConnection.request.
  destruct (reply_response _); [|reflexivity].
  cbv zeta.
  request_cases; reflexivity.
Qed.

Lemma callbacks_app (a b : list event) :
  callbacks (a ++ b) = callbacks a ++ callbacks b.
Proof. unfold callbacks. apply omap_app. Qed.

Section AlwaysRejected.
Variable cfg : Config.
Variable transport : Transport.
Variable err : Error.
Hypothesis rejected :
  forall conn options,
    (NylasConnection.request cfg transport conn options).1 = Rejected err.

Lemma request_rejected conn options :
  exists evs, NylasConnection.request cfg transport conn options
              = (Rejected err, evs) /\ callbacks evs = [].
Proof.
  pose proof (rejected conn options) as H1.
  pose proof (request_no_callbacks cfg transport conn options) as H2.
  destruct (NylasConnection.request cfg transport conn options) as [s evs].
  cbn in *. subst. eauto.
Qed.

Lemma report_rejected cb conn options :
  both_channels (report cb (NylasConnection.request cfg transport conn options))
                cb err.
Proof.
  destruct (request_rejected conn options) as (evs & -> & Hc).
  unfold both_channels, report, then_, catch_. cbn.
  split; [reflexivity|].
  rewrite callbacks_app, Hc, callbacks_call. reflexivity.
Qed.

Lemma getItems_rejected modelClass conn params o l path :
  exists evs, RestfulModelCollection._getItems cfg transport modelClass conn
                params o l path = (Rejected err, evs)
              /\ callbacks evs = [].
Proof.
  unfold RestfulModelCollection._getItems,
    RestfulModelCollection._getModelCollection, RestfulModelCollection.request.
  destruct (RestfulModelCollection.view_is params "ids").
  - apply request_rejected.
  - match goal with |- context [NylasConnection.request ?a ?b ?c ?d] =>
      destruct (request_rejected c d) as (evs & -> & Hc) end.
    exists evs. split; [reflexivity | exact Hc].
Qed.
End AlwaysRejected.

(** ** Hydration: which fields [fromJSON] touches *)

Section Hydration.
Variable conn : NylasConnection.
Variable json : value.

Let F := RestfulModel.hydrate_attr conn json.

Lemma hydrate_attr_other this entry name :
  name <> entry.1 -> F this entry !! name = this !! name.
Proof.
  intros Hne. destruct entry as [attrName attr]. cbn in Hne.
  unfold F, RestfulModel.hydrate_attr.
  destruct (get_prop json (jsonKey attr)); try reflexivity;
    apply lookup_insert_ne; congruence.
Qed.

Lemma hydrate_other attrs this name :
  name ∉ attrs.*1 -> fold_left F attrs this !! name = this !! name.
Proof.
  revert this. induction attrs as [|entry attrs IH]; intros this Hn.
  - reflexivity.
  - cbn [fold_left]. rewrite fmap_cons in Hn.
    apply not_elem_of_cons in Hn as [Hne Hn].
    rewrite IH by exact Hn. apply hydrate_attr_other. exact Hne.
Qed.

Lemma hydrate_skipped attrs this name :
  (forall attr, (name, attr) ∈ attrs -> get_prop json (jsonKey attr) = VUndefined) ->
  fold_left F attrs this !! name = this !! name.
Proof.
  revert this. induction attrs as [|[n attr] attrs IH]; intros this Hs.
  - reflexivity.
  - cbn [fold_left]. rewrite IH.
    + destruct (decide (name = n)) as [->|Hne].
      * unfold F, RestfulModel.hydrate_attr.
        rewrite (Hs attr) by apply list_elem_of_here. reflexivity.
      * apply hydrate_attr_other. exact Hne.
    + intros a Ha. apply Hs. apply list_elem_of_further. exact Ha.
Qed.

Lemma hydrate_at attrs this i name attr :
  NoDup attrs.*1 ->
  attrs !! i = Some (name, attr) ->
  fold_left F attrs this !! name
  = F (fold_left F (take i attrs) this) (name, attr) !! name.
Proof.
  intros Hnd Hi.
  rewrite <- (take_drop_middle attrs i (name, attr) Hi) at 1.
  rewrite fold_left_app. cbn [fold_left].
  apply hydrate_other.
  rewrite <- (take_drop_middle attrs i (name, attr) Hi) in Hnd.
  rewrite fmap_app, fmap_cons in Hnd.
  apply NoDup_app in Hnd as (_ & _ & Hnd).
  apply NoDup_cons in Hnd as [Hnd _]. exact Hnd.
Qed.

Lemma hydrate_before attrs this i name attr :
  NoDup attrs.*1 ->
  attrs !! i = Some (name, attr) ->
  fold_left F (take i attrs) this !! name = this !! name.
Proof.
  intros Hnd Hi. apply hydrate_other.
  rewrite <- (take_drop_middle attrs i (name, attr) Hi) in Hnd.
  rewrite fmap_app, fmap_cons in Hnd.
  apply NoDup_app in Hnd as (_ & Hnd & _).
  intros Hin. apply (Hnd name Hin). apply list_elem_of_here.
Qed.
End Hydration.

Lemma hydrate_attr_obj conn (o s : gmap string value) name attr :
  RestfulModel.hydrate_attr conn (VObj o) s (name, attr)
  = match o !! jsonKey attr with
    | None | Some VUndefined => s
    | Some v => <[name := fromJSON_of attr v (conn, s)]> s
    end.
Proof.
  unfold RestfulModel.hydrate_attr. cbn [get_prop].
  destruct (o !! jsonKey attr) as [[]|]; reflexivity.
Qed.

Lemma request_constant_ok cfg conn hs body m p q b :
  body <> VUndefined ->
  (NylasConnection.request cfg (Server.constant 200 hs body) conn
     (simple_options m p q b)).1 = Resolved body.
Proof.
  intros Hb.
  rewrite (request_unfold _ _ _ _ (mkResponse 200 hs)) by reflexivity.
  cbv zeta. unfold Server.constant.
  cbn [reply_error reply_body resp_statusCode].
  rewrite bool_decide_eq_false_2 by (intros [? ?]; discriminate).
  change (299 <? 200) with false. cbn [orb].
  change (r_downloadRequest (NylasConnection.requestOptions cfg conn
            (simple_options m p q b))) with false.
  cbn [fst]. destruct body; try reflexivity. congruence.
Qed.

(** C8.  On a wire object [o], [fromJSON] does not throw, and the
    instance afterwards differs from the instance before exactly at the
    declared attributes whose wire key has a value other than
    [undefined] in [o]: such an attribute holds
    [attr.fromJSON(o[jsonKey], this)], [this] being the instance as the
    loop had left it when it reached the attribute (a key present with
    [null] is of this kind); a declared attribute whose key is missing
    keeps its prior value, and so does every field that is not declared.
    Hence [save], which hydrates the instance from the response object,
    leaves every field untouched whose key the response lacks. *)
Theorem fromJSON_partial_update :
  forall (attrs : list (string * Attribute)) conn (o this : gmap string value),
    NoDup attrs.*1 ->
    exists this',
      RestfulModel.fromJSON attrs conn (VObj o) this = Normal this'
      /\ (forall i name attr,
            attrs !! i = Some (name, attr) ->
            match o !! jsonKey attr with
            | None | Some VUndefined => this' !! name = this !! name
            | Some v =>
                exists before,
                  RestfulModel.fromJSON (take i attrs) conn (VObj o) this
                    = Normal before
                  /\ this' !! name = Some (fromJSON_of attr v (conn, before))
            end)
      /\ (forall name,
            (forall attr, (name, attr) ∈ attrs -> o !! jsonKey attr = None) ->
            this' !! name = this !! name)
      /\ (forall cfg hs c params cb body,
            attributes c = attrs ->
            saveRequestBody_m c this = Normal body ->
            exists evs,
              RestfulModel._save cfg (Server.constant 200 hs (VObj o))
                (mkInstance c conn this) (ArgObj params) cb
              = Normal ((Resolved (VModel this'), evs), this')).
Proof.
  intros attrs conn o this Hnd.
  assert (Hfrom : forall l, RestfulModel.fromJSON l conn (VObj o) this
                  = Normal (fold_left (RestfulModel.hydrate_attr conn (VObj o)) l this)).
  { intros l. unfold RestfulModel.fromJSON. destruct l; reflexivity. }
  exists (fold_left (RestfulModel.hydrate_attr conn (VObj o)) attrs this).
  split; [apply Hfrom | split; [|split]].
  - intros i name attr Hi.
    rewrite (hydrate_at conn (VObj o) attrs this i name attr Hnd Hi).
    pose proof (hydrate_before conn (VObj o) attrs this i name attr Hnd Hi) as Hb.
    rewrite hydrate_attr_obj.
    destruct (o !! jsonKey attr) as [v|] eqn:E; [|exact Hb].
    destruct v; try exact Hb;
      (eexists; split; [apply Hfrom | apply lookup_insert_eq]).
  - intros name Hs. apply hydrate_skipped.
    intros attr Ha. cbn [get_prop]. rewrite (Hs attr Ha). reflexivity.
  - intros cfg hs c params cb body Hc Hbody.
    unfold RestfulModel._save. cbn [cls fields connection].
    rewrite Hbody.
    match goal with |- context [NylasConnection.request ?a ?b ?c0 ?d] =>
      pose proof (request_constant_ok a c0 hs (VObj o)) as Hreq;
      destruct (NylasConnection.request a b c0 d) as [s evs] eqn:E end.
    match type of E with NylasConnection.request _ _ _ (simple_options ?m ?p ?q ?b) = _ =>
      specialize (Hreq m p q b) end.
    rewrite E in Hreq. cbn in Hreq. rewrite Hreq by discriminate.
    rewrite Hc, Hfrom. eexists. reflexivity.
Qed.

(** The theorem on a calendar with a name and a time zone, hydrated
    from [{ name: null }]: the name is processed (to the empty string),
    the time zone stays. *)
Lemma fromJSON_partial_update_witness :
  NoDup Calendar.attributes.*1
  /\ exists this',
       RestfulModel.fromJSON Calendar.attributes test_connection
         (VObj {["name" := VNull]})
         {["name" := VStr "old"; "timezone" := VStr "UTC"]} = Normal this'
       /\ this' !! "name" = Some (VStr "")
       /\ this' !! "timezone" = Some (VStr "UTC").
Proof.
  assert (Hnd : NoDup Calendar.attributes.*1)
    by (apply (bool_decide_unpack _); vm_compute; exact I).
  split; [exact Hnd|].
  destruct (fromJSON_partial_update Calendar.attributes test_connection
              {["name" := VNull]}
              {["name" := VStr "old"; "timezone" := VStr "UTC"]} Hnd)
    as (this' & H1 & H2 & H3 & _).
  exists this'. split; [exact H1|]. split.
  - destruct (H2 3%nat "name" (Attributes.String (args "name")) eq_refl)
      as (before & _ & Hn).
    exact Hn.
  - exact (H2 7%nat "timezone" (Attributes.String (args "timezone")) eq_refl).
Defined.

(** ** Bounded traversal: [list] on a paging server *)

Lemma less_than_num (z k : Z) : less_than (VNum (num z)) k = (z <? k).
Proof.
  unfold less_than, to_number, num. cbn [this Q2Qc].
  rewrite Qred_identity by apply Z.gcd_1_r.
  unfold Qcompare, inject_Z. cbn [Qnum Qden].
  rewrite !Z.mul_1_r. unfold Z.ltb. destruct (z ?= k); reflexivity.
Qed.

Lemma take_clip {A} (l : list A) (m k : nat) :
  (m <= length l)%nat ->
  take (m + k) l = take (m + Nat.min k (length l - m)) l.
Proof.
  intros Hm. destruct (Nat.le_gt_cases k (length l - m)).
  - rewrite Nat.min_l by assumption. reflexivity.
  - rewrite Nat.min_r by lia.
    rewrite !take_ge by lia. reflexivity.
Qed.

(** The [expanded] rewrite leaves [offset] and [limit] alone. *)
Lemma rewrite_expanded_offset q :
  offset (NylasConnection.rewrite_expanded q) = offset q.
Proof.
  unfold NylasConnection.rewrite_expanded.
  destruct (filters q !! "expanded") as [e|]; [destruct (truthy e)|]; reflexivity.
Qed.

Lemma rewrite_expanded_limit q :
  limit (NylasConnection.rewrite_expanded q) = limit q.
Proof.
  unfold NylasConnection.rewrite_expanded.
  destruct (filters q !! "expanded") as [e|]; [destruct (truthy e)|]; reflexivity.
Qed.

Section Paged.
Variable cfg : Config.
Variable modelClass : ModelClass.
Variable connection : NylasConnection.
Variable items : list value.
Variable params : Params.

Let n := length items.
Let mk := delivered modelClass connection params.

Let chunk_at := chunk_event cfg modelClass connection params.

Lemma chunks_chunk_event o l : chunks [chunk_at o l] = [(Some o, Some l)].
Proof.
  unfold chunk_at, chunk_event, chunks,
    NylasConnection.requestOptions. cbn.
  rewrite rewrite_expanded_offset, rewrite_expanded_limit. reflexivity.
Qed.

Lemma getItems_paged (o l : Z) :
  RestfulModelCollection._getItems cfg (Server.paged items) modelClass
    connection params o l None
  = (Resolved (VArr (map mk (take (Z.to_nat l) (drop (Z.to_nat o) items)))),
     [chunk_at o l]).
Proof.
  unfold RestfulModelCollection._getItems,
    RestfulModelCollection._getModelCollection, RestfulModelCollection.request.
  cbn [NylasConnection.nonempty default].
  set (opts := simple_options _ _ _ _).
  assert (Hreq : NylasConnection.request cfg (Server.paged items) connection opts
                 = (Resolved (VArr (take (Z.to_nat l) (drop (Z.to_nat o) items))),
                    [chunk_at o l])).
  { unfold NylasConnection.request.
    assert (Hrep : Server.paged items
                     (NylasConnection.requestOptions cfg connection opts)
                   = Server.ok (VArr (take (Z.to_nat l) (drop (Z.to_nat o) items)))).
    { unfold Server.paged, NylasConnection.requestOptions. cbn.
      rewrite rewrite_expanded_offset, rewrite_expanded_limit. reflexivity. }
    rewrite Hrep. reflexivity. }
  rewrite Hreq. unfold mk, delivered.
  destruct (RestfulModelCollection.view_is params "ids").
  - rewrite map_id. reflexivity.
  - reflexivity.
Qed.

Lemma range_step (fuel : nat) (B : bound) (m : nat) :
  (m <= n)%nat ->
  let c := Nat.min (Z.to_nat (limit_at B (Z.of_nat m))) (n - m) in
  RestfulModelCollection.range_iteratee cfg (Server.paged items) modelClass
    connection (S fuel) params 0 B None (map mk (take m items))
  = if (Z.of_nat c <? 100)
       || RestfulModelCollection.reached B (map mk (take (m + c) items))
    then Some ((Resolved VUndefined,
                [chunk_at (Z.of_nat m) (limit_at B (Z.of_nat m))]),
               map mk (take (m + c) items))
    else match RestfulModelCollection.range_iteratee cfg (Server.paged items)
                 modelClass connection fuel params 0 B None
                 (map mk (take (m + c) items)) with
         | Some ((s, evs'), acc') =>
             Some ((s, chunk_at (Z.of_nat m) (limit_at B (Z.of_nat m)) :: evs'),
                   acc')
         | None => None
         end.
Proof.
  intros Hm c.
  assert (Hlen : length (map mk (take m items)) = m)
    by (rewrite length_map, length_take; fold n; lia).
  cbn [RestfulModelCollection.range_iteratee].
  assert (Hcl : RestfulModelCollection.chunkLimit_of B (map mk (take m items))
                = limit_at B (Z.of_nat m)).
  { unfold RestfulModelCollection.chunkLimit_of, limit_at. rewrite Hlen.
    reflexivity. }
  rewrite Hcl, Hlen, Z.add_0_l, getItems_paged. fold mk.
  rewrite Nat2Z.id.
  cbn [concat length_of].
  rewrite <- map_app, take_take_drop, (take_clip items m _ Hm). fold n. fold c.
  rewrite length_map, length_take, length_drop. fold n. fold c.
  rewrite less_than_num. unfold REQUEST_CHUNK_SIZE.
  destruct ((Z.of_nat c <? 100) || _); [reflexivity|].
  destruct (RestfulModelCollection.range_iteratee _ _ _ _ _ _ _ _ _ _)
    as [[[s evs'] acc']|]; reflexivity.
Qed.

Lemma range_from (B : bound) :
  match B with Finite l => 1 <= l | Infinity => True end ->
  forall k j fuel,
    (j + k = chunk_count B n)%nat -> (1 <= k)%nat -> (k <= fuel)%nat ->
    RestfulModelCollection.range_iteratee cfg (Server.paged items) modelClass
      connection fuel params 0 B None (map mk (take (100 * j) items))
    = Some ((Resolved VUndefined,
             map (fun i : nat =>
                    chunk_at (100 * Z.of_nat i) (limit_at B (100 * Z.of_nat i)))
                 (seq j k)),
            map mk (take (match B with
                          | Finite l => Z.to_nat l
                          | Infinity => n
                          end) items)).
Proof.
  intros HB k. induction k as [|k IH]; intros j fuel HK Hk Hfuel; [lia|].
  destruct fuel as [|fuel]; [lia|].
  pose proof (Nat.div_mod_eq n 100) as Hdiv.
  pose proof (Nat.mod_upper_bound n 100 ltac:(lia)) as Hmod.
  assert (Hj : (100 * j <= n)%nat).
  { unfold chunk_count in HK. destruct B; lia. }
  rewrite (range_step fuel B (100 * j) Hj). cbv zeta.
  replace (Z.of_nat (100 * j)) with (100 * Z.of_nat j) by lia.
  set (c := Nat.min (Z.to_nat (limit_at B (100 * Z.of_nat j))) (n - 100 * j)).
  assert (Hreached : forall m, (m <= n)%nat ->
            RestfulModelCollection.reached B (map mk (take m items))
            = match B with Finite l => l <=? Z.of_nat m | Infinity => false end).
  { intros m Hm. unfold RestfulModelCollection.reached.
    rewrite length_map, length_take. fold n.
    replace (Nat.min m n) with m by lia. reflexivity. }
  assert (Hc : (c <= n - 100 * j)%nat) by (subst c; lia).
  rewrite Hreached by lia.
  destruct k as [|k].
  - (* the last chunk *)
    assert (Hfin : (Z.of_nat c <? 100)
                   || match B with
                      | Finite l => l <=? Z.of_nat (100 * j + c)
                      | Infinity => false
                      end = true).
    { unfold chunk_count in HK. subst c. unfold limit_at.
      destruct B as [l|].
      - pose proof (Z.div_mod (l + 99) 100 ltac:(lia)) as Hd.
        pose proof (Z.mod_pos_bound (l + 99) 100 ltac:(lia)) as Hb.
        apply orb_true_iff.
        destruct (Z.ltb_spec (Z.of_nat (Nat.min (Z.to_nat (Z.min 100 (l - 100 * Z.of_nat j)))
                                                (n - 100 * j))) 100);
          [left; reflexivity | right; apply Z.leb_le; lia].
      - rewrite orb_false_r. apply Z.ltb_lt. lia. }
    rewrite Hfin. cbn [seq map]. do 3 f_equal.
    unfold chunk_count in HK. subst c. unfold limit_at.
    destruct B as [l|].
    + pose proof (Z.div_mod (l + 99) 100 ltac:(lia)) as Hd.
      pose proof (Z.mod_pos_bound (l + 99) 100 ltac:(lia)) as Hb.
      destruct (Nat.le_gt_cases n (Z.to_nat l)).
      * rewrite !take_ge; [reflexivity | fold n; lia | fold n; lia].
      * f_equal. lia.
    + rewrite take_ge; [symmetry; apply take_ge; fold n; lia | fold n; lia].
  - (* a full chunk, and more to come *)
    assert (Hc100 : c = 100%nat).
    { unfold chunk_count in HK. subst c. unfold limit_at.
      destruct B as [l|].
      - pose proof (Z.div_mod (l + 99) 100 ltac:(lia)) as Hd.
        pose proof (Z.mod_pos_bound (l + 99) 100 ltac:(lia)) as Hb.
        lia.
      - lia. }
    assert (Hnot : (Z.of_nat c <? 100)
                   || match B with
                      | Finite l => l <=? Z.of_nat (100 * j + c)
                      | Infinity => false
                      end = false).
    { rewrite Hc100. unfold chunk_count in HK.
      destruct B as [l|]; [|reflexivity].
      pose proof (Z.div_mod (l + 99) 100 ltac:(lia)) as Hd.
      pose proof (Z.mod_pos_bound (l + 99) 100 ltac:(lia)) as Hb.
      cbn [orb]. change (Z.of_nat 100 <? 100) with false. cbn [orb].
      apply Z.leb_gt. lia. }
    rewrite Hnot, Hc100.
    replace (100 * j + 100)%nat with (100 * S j)%nat by lia.
    rewrite (IH (S j) fuel) by lia.
    reflexivity.
Qed.
End Paged.

Lemma paged_reply cfg modelClass connection items params o l :
  reply_body (Server.paged items
                (NylasConnection.requestOptions cfg connection
                   (simple_options "GET" (RestfulModelCollection.path modelClass)
                      (RestfulModelCollection.chunk_qs params o l) None)))
  = VArr (take (Z.to_nat l) (drop (Z.to_nat o) items)).
Proof.
  unfold Server.paged, NylasConnection.requestOptions. cbn.
  rewrite rewrite_expanded_offset, rewrite_expanded_limit. reflexivity.
Qed.

(** C1, as the code has it.  Against a server that pages through
    [items], [list] with a limit [L >= 1] or with no limit at all (and
    no offset) asks for chunks of [min(100, L - accumulated)] items, 100
    without a limit, at the offsets 0, 100, 200, ...; it makes
    [min(ceil(L / 100), n / 100 + 1)] requests, [n / 100 + 1] without a
    limit, which is to stop at the first chunk that comes back with
    fewer than 100 items or fills the limit; and it resolves to the
    first [L] items in order, as delivered, or to all of them if there
    are fewer: at most [L], and exactly [L] when the server has that
    many.  With 250 items and no limit that is three requests, answered
    with 100, 100 and 50 items. *)
Theorem list_chunked_traversal :
  forall cfg modelClass connection items params fuel,
    RestfulModelCollection.view_is params "count" = false ->
    offset params = None ->
    (forall l, limit params = Some l -> 1 <= l) ->
    (length items / 100 < fuel)%nat ->
    let B := match limit params with Some l => Finite l | None => Infinity end in
    let wanted := match limit params with
                  | Some l => Z.to_nat l
                  | None => length items
                  end in
    let evs :=
      map (fun j : nat =>
             chunk_event cfg modelClass connection params
               (100 * Z.of_nat j) (limit_at B (100 * Z.of_nat j)))
          (seq 0 (chunk_count B (length items))) in
    RestfulModelCollection.list cfg (Server.paged items) modelClass connection
      fuel params None
    = Some (Resolved (VArr (map (delivered modelClass connection params)
                                (take wanted items))),
            evs)
    /\ chunks evs = planned_chunks B (chunk_count B (length items))
    /\ (length (take wanted items) <= wanted)%nat
    /\ ((wanted <= length items)%nat -> length (take wanted items) = wanted)
    /\ (limit params = None -> length items = 250%nat ->
        chunks evs = [(Some 0, Some 100); (Some 100, Some 100); (Some 200, Some 100)]
        /\ map (fun o => match reply_body (Server.paged items o) with
                         | VArr chunk => length chunk
                         | _ => 0%nat
                         end) (requests evs)
           = [100; 100; 50]%nat).
Proof.
  intros cfg modelClass connection items params fuel Hview Hoff Hlim Hfuel
         B wanted evs.
  assert (HB : RestfulModelCollection.limit_or_Infinity params = B).
  { unfold RestfulModelCollection.limit_or_Infinity. subst B.
    destruct (limit params) as [l|] eqn:E; [|reflexivity].
    specialize (Hlim l eq_refl).
    destruct (Z.eqb_spec l 0); [lia | reflexivity]. }
  assert (HB1 : match B with Finite l => 1 <= l | Infinity => True end).
  { subst B. destruct (limit params) as [l|]; [apply Hlim; reflexivity | exact I]. }
  assert (HK : (1 <= chunk_count B (length items) <= fuel)%nat).
  { pose proof (Nat.div_mod_eq (length items) 100).
    unfold chunk_count. destruct B as [l|]; [|lia].
    pose proof (Z.div_mod (l + 99) 100 ltac:(lia)).
    pose proof (Z.mod_pos_bound (l + 99) 100 ltac:(lia)). lia. }
  assert (Hchunks : chunks evs = planned_chunks B (chunk_count B (length items))).
  { subst evs. unfold planned_chunks.
    induction (seq 0 (chunk_count B (length items))) as [|j js IH]; [reflexivity|].
    cbn [map]. change (chunks (?e :: ?r)) with (chunks [e] ++ chunks r).
    rewrite chunks_chunk_event, IH. reflexivity. }
  split; [|split; [exact Hchunks | split; [|split]]].
  - unfold RestfulModelCollection.list, RestfulModelCollection._range.
    rewrite Hview, Hoff, HB. cbn [default].
    pose proof (range_from cfg modelClass connection items params B HB1
                  (chunk_count B (length items)) 0 fuel) as Hr.
    change (100 * 0)%nat with 0%nat in Hr. rewrite take_0 in Hr.
    cbn [map] in Hr. change (id B) with B.
    rewrite Hr by lia.
    subst wanted B. destruct (limit params); reflexivity.
  - rewrite length_take. lia.
  - intros Hw. rewrite length_take. lia.
  - intros Hnone Hn. subst evs B. rewrite Hnone in *.
    unfold chunk_count. rewrite Hn.
    change (250 / 100 + 1)%nat with 3%nat. cbn [seq map limit_at].
    split.
    + change (chunks (?a :: ?b :: ?c :: [])) with (chunks [a] ++ chunks [b] ++ chunks [c]).
      rewrite !chunks_chunk_event. reflexivity.
    + unfold chunk_event.
      change (requests [EvRequest ?a; EvRequest ?b; EvRequest ?c]) with [a; b; c].
      cbn [map].
      rewrite !paged_reply, !length_take, !length_drop, Hn. reflexivity.
Qed.

(** The theorem on three items and a limit of two. *)
Lemma list_chunked_traversal_witness :
  RestfulModelCollection.list test_config
    (Server.paged [VStr "a"; VStr "b"; VStr "c"]) Calendar.class test_connection
    1 (mkParams (Some (VStr "ids")) (Some 2) None ∅) None
  = Some (Resolved (VArr [VStr "a"; VStr "b"]),
          [chunk_event test_config Calendar.class test_connection
             (mkParams (Some (VStr "ids")) (Some 2) None ∅) 0 2]).
Proof.
  refine (proj1 (list_chunked_traversal test_config Calendar.class test_connection
                   [VStr "a"; VStr "b"; VStr "c"]
                   (mkParams (Some (VStr "ids")) (Some 2) None ∅) 1
                   eq_refl eq_refl _ _)).
  - intros l Hl. inversion Hl. lia.
  - vm_compute. lia.
Defined.

(** C1 as stated fails at [L = 0]: [params.limit || Infinity] takes a
    limit of 0 for no limit, so the chunk request asks for 100 items and
    all three items come back. *)
Lemma list_limit_zero_is_unbounded :
  (fun p : Promise => (p.1, chunks p.2))
    <$> RestfulModelCollection.list test_config
          (Server.paged [VStr "a"; VStr "b"; VStr "c"]) Calendar.class
          test_connection 1 (mkParams (Some (VStr "ids")) (Some 0) None ∅) None
  = Some (Resolved (VArr [VStr "a"; VStr "b"; VStr "c"]), [(Some 0, Some 100)]).
Proof. vm_compute. reflexivity. Qed.

(** ** Streaming traversal: [forEach] *)

Lemma paced_items seen last xs rest :
  paced seen last (map EvEach xs ++ rest)
  = paced (seen + Z.of_nat (length xs)) (last + Z.of_nat (length xs)) rest.
Proof.
  revert seen last. induction xs as [|x xs IH]; intros seen last.
  - cbn [map app length]. rewrite !Z.add_0_r. reflexivity.
  - cbn [map app length paced]. rewrite IH. f_equal; lia.
Qed.

Lemma paced_warnings seen last ws rest :
  paced seen last (map EvWarn ws ++ rest) = paced seen last rest.
Proof. induction ws as [|w ws IH]; [reflexivity | exact IH]. Qed.

Lemma completions_app (a b : list event) :
  completions (a ++ b) = completions a ++ completions b.
Proof. unfold completions. apply omap_app. Qed.

Lemma visited_app (a b : list event) : visited (a ++ b) = visited a ++ visited b.
Proof. unfold visited. apply omap_app. Qed.

Lemma chunks_app (a b : list event) : chunks (a ++ b) = chunks a ++ chunks b.
Proof. unfold chunks. apply omap_app. Qed.

Lemma visited_items xs : visited (map EvEach xs) = xs.
Proof. induction xs as [|x xs IH]; [reflexivity | cbn; f_equal; exact IH]. Qed.

Lemma chunks_items xs : chunks (map EvEach xs) = [].
Proof. induction xs as [|x xs IH]; [reflexivity | exact IH]. Qed.

Lemma completions_items xs : completions (map EvEach xs) = [].
Proof. induction xs as [|x xs IH]; [reflexivity | exact IH]. Qed.

Lemma completions_request o rest :
  completions (EvRequest o :: rest) = completions rest.
Proof. reflexivity. Qed.

Lemma completions_warnings ws : completions (map EvWarn ws) = [].
Proof. induction ws as [|w ws IH]; [reflexivity | exact IH]. Qed.

(** Consecutive slices of 100 make up the list again. *)
Lemma slices_concat {A} (l : list A) (k j : nat) :
  List.concat (map (fun i : nat => take 100 (drop (100 * i) l)) (seq j k))
  = take (100 * k) (drop (100 * j) l).
Proof.
  revert j. induction k as [|k IH]; intros j.
  - rewrite Nat.mul_0_r. reflexivity.
  - cbn [seq map List.concat]. rewrite IH.
    replace (100 * S j)%nat with (100 * j + 100)%nat by lia.
    rewrite <- drop_drop, take_take_drop. f_equal. lia.
Qed.

Lemma request_qs_offset cfg conn m p q b :
  r_qs (NylasConnection.requestOptions cfg conn (simple_options m p q b)) ≫= offset
  = offset q.
Proof. cbn. apply rewrite_expanded_offset. Qed.

Lemma request_qs_limit cfg conn m p q b :
  r_qs (NylasConnection.requestOptions cfg conn (simple_options m p q b)) ≫= limit
  = limit q.
Proof. cbn. apply rewrite_expanded_limit. Qed.

Section Streaming.
Variable cfg : Config.
Variable modelClass : ModelClass.
Variable connection : NylasConnection.
Variable params : Params.

Let mk := delivered modelClass connection params.
Let chunk_at := chunk_event cfg modelClass connection params.

(** Whatever the transport, a chunk request leaves its request event,
    possibly followed by a version warning. *)
Lemma getItems_events transport o l :
  exists ws,
    (RestfulModelCollection._getItems cfg transport modelClass connection
       params o l None).2 = chunk_at o l :: map EvWarn ws.
Proof.
  assert (Hreq : forall opts, exists ws,
            (NylasConnection.request cfg transport connection opts).2
            = EvRequest (NylasConnection.requestOptions cfg connection opts)
                :: map EvWarn ws).
  { intros opts. unfold NylasConnection.request.
    destruct (reply_response _); [|exists []; reflexivity].
    cbv zeta.
    match goal with |- context [String.eqb ?w ""] =>
      exists (if String.eqb w "" then [] else [w]) end.
    request_cases; reflexivity. }
  unfold RestfulModelCollection._getItems,
    RestfulModelCollection._getModelCollection, RestfulModelCollection.request.
  cbn [NylasConnection.nonempty default].
  match goal with |- context [NylasConnection.request ?a ?b ?c ?d] =>
    destruct (Hreq d) as [ws Hws];
    destruct (NylasConnection.request a b c d) as [s evs] end.
  cbn [snd] in Hws. subst evs. exists ws.
  destruct (RestfulModelCollection.view_is params "ids"); [reflexivity|].
  unfold then_. destruct s as [v| |]; try reflexivity.
  destruct v; cbn [snd]; rewrite ?app_nil_r; reflexivity.
Qed.

Lemma paced_chunk_event seen last rest :
  paced seen last (chunk_at seen 100 :: rest) = (100 <=? last) && paced seen 0 rest.
Proof.
  unfold chunk_at, chunk_event. cbn [paced].
  rewrite request_qs_offset, request_qs_limit.
  rewrite !bool_decide_eq_true_2 by reflexivity. reflexivity.
Qed.

Lemma iteratee_paced transport fuel :
  forall o last s evs,
    100 <= last ->
    RestfulModelCollection.forEach_iteratee cfg transport modelClass connection
      fuel params o = Some (s, evs) ->
    paced o last evs = true /\ completions evs = [].
Proof.
  induction fuel as [|fuel IH]; intros o last s evs Hlast Hit; [discriminate|].
  cbn [RestfulModelCollection.forEach_iteratee] in Hit.
  destruct (getItems_events transport o REQUEST_CHUNK_SIZE) as [ws Hws].
  destruct (RestfulModelCollection._getItems _ _ _ _ _ _ _ _) as [s1 evs1].
  cbn [snd] in Hws. subst evs1. unfold REQUEST_CHUNK_SIZE in *.
  assert (Hbase : forall tail,
            paced o last (chunk_at o 100 :: map EvWarn ws ++ tail)
            = paced o 0 tail).
  { intros tail. rewrite paced_chunk_event, paced_warnings.
    replace (100 <=? last) with true by (symmetry; apply Z.leb_le; lia).
    reflexivity. }
  assert (Hcbase : forall tail,
            completions (chunk_at o 100 :: map EvWarn ws ++ tail)
            = completions tail).
  { intros tail. unfold chunk_at, chunk_event.
    rewrite completions_request, completions_app, completions_warnings.
    reflexivity. }
  destruct s1 as [v|e|e].
  - destruct (iterate v) as [xs|].
    + destruct (Z.of_nat (length xs) <? 100) eqn:Hfin.
      * inversion Hit; subst. split.
        -- cbn [app]. rewrite Hbase.
           rewrite <- (app_nil_r (map EvEach xs)), paced_items.
           reflexivity.
        -- cbn [app]. rewrite Hcbase. apply completions_items.
      * destruct (RestfulModelCollection.forEach_iteratee _ _ _ _ _ _ _)
          as [[s' evs']|] eqn:Hrec; [|discriminate].
        inversion Hit; subst.
        apply Z.ltb_ge in Hfin.
        destruct (IH _ (Z.of_nat (length xs)) _ _ Hfin Hrec) as [Hp Hc].
        split.
        -- rewrite <- app_assoc. cbn [app].
           rewrite Hbase, paced_items, Z.add_0_l. exact Hp.
        -- rewrite <- app_assoc. cbn [app].
           rewrite Hcbase, completions_app, completions_items, Hc. reflexivity.
    + inversion Hit; subst. split.
      * rewrite <- (app_nil_r (map EvWarn ws)), Hbase. reflexivity.
      * rewrite <- (app_nil_r (map EvWarn ws)), Hcbase. reflexivity.
  - inversion Hit; subst. split.
    + rewrite <- (app_nil_r (map EvWarn ws)), Hbase. reflexivity.
    + rewrite <- (app_nil_r (map EvWarn ws)), Hcbase. reflexivity.
  - inversion Hit; subst. split.
    + rewrite <- (app_nil_r (map EvWarn ws)), Hbase. reflexivity.
    + rewrite <- (app_nil_r (map EvWarn ws)), Hcbase. reflexivity.
Qed.
End Streaming.

Section StreamingPaged.
Variable cfg : Config.
Variable modelClass : ModelClass.
Variable connection : NylasConnection.
Variable items : list value.
Variable params : Params.

Let mk := delivered modelClass connection params.
Let chunk_at := chunk_event cfg modelClass connection params.

(** The events of the chunk at offset [100 j] on the paging server. *)
Let chunk_trace (j : nat) : list event :=
  chunk_at (100 * Z.of_nat j) 100
    :: map EvEach (map mk (take 100 (drop (100 * j) items))).

Lemma forEach_from :
  forall k j fuel,
    (j + k = length items / 100 + 1)%nat -> (1 <= k)%nat -> (k <= fuel)%nat ->
    RestfulModelCollection.forEach_iteratee cfg (Server.paged items) modelClass
      connection fuel params (100 * Z.of_nat j)
    = Some (Resolved VUndefined, List.concat (map chunk_trace (seq j k))).
Proof.
  pose proof (Nat.div_mod_eq (length items) 100) as Hdiv.
  pose proof (Nat.mod_upper_bound (length items) 100 ltac:(lia)) as Hmod.
  induction k as [|k IH]; intros j fuel HK Hk Hfuel; [lia|].
  destruct fuel as [|fuel]; [lia|].
  cbn [RestfulModelCollection.forEach_iteratee].
  rewrite (getItems_paged cfg modelClass connection items params).
  cbn [iterate]. unfold REQUEST_CHUNK_SIZE.
  replace (Z.to_nat (100 * Z.of_nat j)) with (100 * j)%nat by lia.
  change (Z.to_nat 100) with 100%nat.
  rewrite length_map, length_take, length_drop.
  fold mk. fold (chunk_at (100 * Z.of_nat j) 100).
  change ([chunk_at (100 * Z.of_nat j) 100]
            ++ map EvEach (map mk (take 100 (drop (100 * j) items))))
    with (chunk_trace j).
  destruct k as [|k].
  - replace (Z.of_nat (Nat.min 100 (length items - 100 * j)) <? 100) with true
      by (symmetry; apply Z.ltb_lt; lia).
    cbn [seq map List.concat]. rewrite app_nil_r. reflexivity.
  - replace (Z.of_nat (Nat.min 100 (length items - 100 * j)) <? 100) with false
      by (symmetry; apply Z.ltb_ge; lia).
    replace (100 * Z.of_nat j + Z.of_nat (Nat.min 100 (length items - 100 * j)))
      with (100 * Z.of_nat (S j)) by lia.
    rewrite (IH (S j) fuel) by lia. reflexivity.
Qed.

Lemma visited_chunks k j :
  visited (List.concat (map chunk_trace (seq j k)))
  = map mk (take (100 * k) (drop (100 * j) items)).
Proof.
  rewrite <- slices_concat. revert j.
  induction k as [|k IH]; intros j; [reflexivity|].
  cbn [seq map List.concat]. rewrite visited_app, IH, map_app. f_equal.
  unfold chunk_trace, chunk_at, chunk_event.
  change (visited (EvRequest ?o :: ?r)) with (visited r).
  apply visited_items.
Qed.

Lemma chunks_chunks k j :
  chunks (List.concat (map chunk_trace (seq j k)))
  = map (fun i : nat => (Some (100 * Z.of_nat i), Some 100)) (seq j k).
Proof.
  revert j. induction k as [|k IH]; intros j; [reflexivity|].
  cbn [seq map List.concat]. rewrite chunks_app, IH. unfold chunk_trace.
  change (chunks (?e :: ?r)) with (chunks [e] ++ chunks r).
  unfold chunk_at.
  rewrite chunks_chunk_event, chunks_items. reflexivity.
Qed.
End StreamingPaged.

(** ** A chunk request that fails *)

Lemma request_ext cfg (t1 t2 : Transport) conn options :
  t1 (NylasConnection.requestOptions cfg conn options)
    = t2 (NylasConnection.requestOptions cfg conn options) ->
  NylasConnection.request cfg t1 conn options
  = NylasConnection.request cfg t2 conn options.
Proof. intros H. unfold NylasConnection.request. rewrite H. reflexivity. Qed.

Lemma paged_serves cfg modelClass connection params items o l :
  serves cfg (Server.paged items) modelClass connection params items o l.
Proof.
  unfold serves, chunk_options, Server.paged, NylasConnection.requestOptions.
  cbn. rewrite rewrite_expanded_offset, rewrite_expanded_limit. reflexivity.
Qed.

Section Failing.
Variable cfg : Config.
Variable transport : Transport.
Variable modelClass : ModelClass.
Variable connection : NylasConnection.
Variable items : list value.
Variable params : Params.

Let mk := delivered modelClass connection params.
Let chunk_at := chunk_event cfg modelClass connection params.

(** A chunk the transport serves is delivered as the paging server
    delivers it. *)
Lemma getItems_served (o l : Z) :
  serves cfg transport modelClass connection params items o l ->
  RestfulModelCollection._getItems cfg transport modelClass connection
    params o l None
  = (Resolved (VArr (map mk (take (Z.to_nat l) (drop (Z.to_nat o) items)))),
     [chunk_at o l]).
Proof.
  intros Hs. unfold mk, chunk_at.
  rewrite <- (getItems_paged cfg modelClass connection items params o l).
  unfold RestfulModelCollection._getItems,
    RestfulModelCollection._getModelCollection, RestfulModelCollection.request.
  cbn [NylasConnection.nonempty default].
  rewrite (request_ext cfg transport (Server.paged items) connection
             (simple_options "GET" (RestfulModelCollection.path modelClass)
                (RestfulModelCollection.chunk_qs params o l) None)).
  - reflexivity.
  - pose proof (paged_serves cfg modelClass connection params items o l) as Hp.
    unfold serves, chunk_options in Hp, Hs. rewrite Hp. exact Hs.
Qed.

(** A chunk request that is rejected rejects [_getItems], and leaves
    its request event and possibly a version warning. *)
Lemma getItems_fails (o l : Z) err :
  rejects cfg transport connection (chunk_options modelClass params o l) err ->
  exists ws,
    RestfulModelCollection._getItems cfg transport modelClass connection
      params o l None
    = (Rejected err, chunk_at o l :: map EvWarn ws).
Proof.
  intros Hr.
  destruct (getItems_events cfg modelClass connection params transport o l)
    as [ws Hws].
  exists ws. revert Hws. unfold rejects, chunk_options in Hr.
  unfold RestfulModelCollection._getItems,
    RestfulModelCollection._getModelCollection, RestfulModelCollection.request.
  cbn [NylasConnection.nonempty default].
  destruct (NylasConnection.request _ _ _ _) as [s evs].
  cbn [fst] in Hr. subst s.
  destruct (RestfulModelCollection.view_is params "ids");
    cbn [then_ snd]; intros ->; reflexivity.
Qed.

Variable J : nat.
Variable err : Error.
Hypothesis enough : (100 * J <= length items)%nat.

Let chunk_trace (j : nat) : list event :=
  chunk_at (100 * Z.of_nat j) 100
    :: map EvEach (map mk (take 100 (drop (100 * j) items))).

(** [forEach]'s traversal when the transport serves the first [J]
    chunks and the next chunk request is rejected. *)
Lemma forEach_failing_from :
  (forall i, (i < J)%nat ->
     serves cfg transport modelClass connection params items
       (100 * Z.of_nat i) 100) ->
  rejects cfg transport connection
    (chunk_options modelClass params (100 * Z.of_nat J) 100) err ->
  exists ws, forall k j fuel,
    (j + k = J)%nat -> (k < fuel)%nat ->
    RestfulModelCollection.forEach_iteratee cfg transport modelClass
      connection fuel params (100 * Z.of_nat j)
    = Some (Rejected err,
            List.concat (map chunk_trace (seq j k))
              ++ chunk_at (100 * Z.of_nat J) 100 :: map EvWarn ws).
Proof.
  intros Hserved Hrej.
  destruct (getItems_fails (100 * Z.of_nat J) 100 err Hrej) as [ws Hws].
  exists ws. induction k as [|k IH]; intros j fuel HK Hfuel;
    (destruct fuel as [|fuel]; [lia|]).
  - replace j with J by lia.
    cbn [RestfulModelCollection.forEach_iteratee]. unfold REQUEST_CHUNK_SIZE.
    rewrite Hws. reflexivity.
  - cbn [RestfulModelCollection.forEach_iteratee]. unfold REQUEST_CHUNK_SIZE.
    rewrite (getItems_served (100 * Z.of_nat j) 100) by (apply Hserved; lia).
    cbn [iterate].
    replace (Z.to_nat (100 * Z.of_nat j)) with (100 * j)%nat by lia.
    change (Z.to_nat 100) with 100%nat.
    rewrite length_map, length_take, length_drop.
    replace (Z.of_nat (Nat.min 100 (length items - 100 * j)) <? 100) with false
      by (symmetry; apply Z.ltb_ge; lia).
    replace (100 * Z.of_nat j + Z.of_nat (Nat.min 100 (length items - 100 * j)))
      with (100 * Z.of_nat (S j)) by lia.
    rewrite (IH (S j) fuel) by lia.
    cbn [seq map List.concat]. unfold chunk_trace at 2.
    rewrite <- !app_assoc. reflexivity.
Qed.

End Failing.

Section FailingRange.
Variable cfg : Config.
Variable transport : Transport.
Variable modelClass : ModelClass.
Variable connection : NylasConnection.
Variable items : list value.
Variable params : Params.
Variable J k0 : nat.
Variable err : Error.
Variable B : bound.
Hypothesis enough : (k0 + 100 * J <= length items)%nat.
Hypothesis within :
  (0 < J)%nat ->
  match B with Finite l => 100 * Z.of_nat J < l | Infinity => True end.

Let mk := delivered modelClass connection params.
Let chunk_at := chunk_event cfg modelClass connection params.

(** [_range]'s traversal from offset [k0] when the transport serves the
    first [J] chunks and the next chunk request is rejected. *)
Lemma range_failing_from :
  (forall i, (i < J)%nat ->
     serves cfg transport modelClass connection params items
       (Z.of_nat k0 + 100 * Z.of_nat i) (limit_at B (100 * Z.of_nat i))) ->
  rejects cfg transport connection
    (chunk_options modelClass params (Z.of_nat k0 + 100 * Z.of_nat J)
                   (limit_at B (100 * Z.of_nat J))) err ->
  exists ws, forall k j fuel,
    (j + k = J)%nat -> (k < fuel)%nat ->
    RestfulModelCollection.range_iteratee cfg transport modelClass
      connection fuel params (Z.of_nat k0) B None
      (map mk (take (100 * j) (drop k0 items)))
    = Some ((Rejected err,
             map (fun i : nat =>
                    chunk_at (Z.of_nat k0 + 100 * Z.of_nat i)
                             (limit_at B (100 * Z.of_nat i)))
                 (seq j k)
               ++ chunk_at (Z.of_nat k0 + 100 * Z.of_nat J)
                           (limit_at B (100 * Z.of_nat J))
               :: map EvWarn ws),
            map mk (take (100 * J) (drop k0 items))).
Proof.
  intros Hserved Hrej.
  destruct (getItems_fails cfg transport modelClass connection params _ _ err
              Hrej) as [ws Hws].
  fold chunk_at in Hws.
  exists ws. induction k as [|k IH]; intros j fuel HK Hfuel;
    (destruct fuel as [|fuel]; [lia|]).
  - replace j with J by lia.
    cbn [RestfulModelCollection.range_iteratee].
    assert (Hlen : length (map mk (take (100 * J) (drop k0 items)))
                   = (100 * J)%nat)
      by (rewrite length_map, length_take, length_drop; lia).
    assert (Hcl : RestfulModelCollection.chunkLimit_of B
                    (map mk (take (100 * J) (drop k0 items)))
                  = limit_at B (100 * Z.of_nat J)).
    { unfold RestfulModelCollection.chunkLimit_of, limit_at. rewrite Hlen.
      replace (Z.of_nat (100 * J)) with (100 * Z.of_nat J) by lia.
      reflexivity. }
    rewrite Hcl, Hlen.
    replace (Z.of_nat k0 + Z.of_nat (100 * J))
      with (Z.of_nat k0 + 100 * Z.of_nat J) by lia.
    rewrite Hws. reflexivity.
  - cbn [RestfulModelCollection.range_iteratee].
    assert (HB : match B with
                 | Finite l => 100 * Z.of_nat J < l
                 | Infinity => True
                 end) by (apply within; lia).
    assert (Hlen : length (map mk (take (100 * j) (drop k0 items)))
                   = (100 * j)%nat)
      by (rewrite length_map, length_take, length_drop; lia).
    assert (Hl100 : limit_at B (100 * Z.of_nat j) = 100).
    { unfold limit_at. destruct B as [l|]; [|reflexivity]. lia. }
    assert (Hcl : RestfulModelCollection.chunkLimit_of B
                    (map mk (take (100 * j) (drop k0 items))) = 100).
    { rewrite <- Hl100.
      unfold RestfulModelCollection.chunkLimit_of, limit_at. rewrite Hlen.
      replace (Z.of_nat (100 * j)) with (100 * Z.of_nat j) by lia.
      reflexivity. }
    rewrite Hcl, Hlen.
    replace (Z.of_nat k0 + Z.of_nat (100 * j))
      with (Z.of_nat k0 + 100 * Z.of_nat j) by lia.
    pose proof (Hserved j ltac:(lia)) as Hs. rewrite Hl100 in Hs.
    rewrite (getItems_served cfg transport modelClass connection items params
               _ _ Hs).
    fold mk. fold chunk_at.
    replace (Z.to_nat (Z.of_nat k0 + 100 * Z.of_nat j)) with (k0 + 100 * j)%nat
      by lia.
    change (Z.to_nat 100) with 100%nat.
    rewrite <- drop_drop.
    cbn [concat length_of].
    rewrite <- map_app, take_take_drop.
    rewrite length_map, length_take, !length_drop.
    replace (Nat.min 100 (length items - k0 - 100 * j)) with 100%nat by lia.
    rewrite less_than_num. unfold REQUEST_CHUNK_SIZE.
    change (100 <? 100) with false. cbn [orb].
    replace (100 * j + 100)%nat with (100 * S j)%nat by lia.
    assert (Hreach : RestfulModelCollection.reached B
                       (map mk (take (100 * S j) (drop k0 items))) = false).
    { unfold RestfulModelCollection.reached.
      rewrite length_map, length_take, length_drop.
      destruct B as [l|]; [|reflexivity]. apply Z.leb_gt. lia. }
    rewrite Hreach.
    rewrite (IH (S j) fuel) by lia.
    cbn [seq map app]. rewrite Hl100. reflexivity.
Qed.
End FailingRange.

Lemma visited_warnings ws : visited (map EvWarn ws) = [].
Proof. induction ws as [|w ws IH]; [reflexivity | exact IH]. Qed.

Lemma chunks_warnings ws : chunks (map EvWarn ws) = [].
Proof. induction ws as [|w ws IH]; [reflexivity | exact IH]. Qed.

Lemma callbacks_warnings ws : callbacks (map EvWarn ws) = [].
Proof. induction ws as [|w ws IH]; [reflexivity | exact IH]. Qed.

Lemma callbacks_items xs : callbacks (map EvEach xs) = [].
Proof. induction xs as [|x xs IH]; [reflexivity | exact IH]. Qed.

Lemma quiet_chunks cfg modelClass connection params (items : list value) k j :
  completions
    (List.concat
       (map (fun j : nat =>
               chunk_event cfg modelClass connection params
                 (100 * Z.of_nat j) 100
               :: map EvEach (map (delivered modelClass connection params)
                                  (take 100 (drop (100 * j) items))))
            (seq j k))) = []
  /\ callbacks
       (List.concat
          (map (fun j : nat =>
                  chunk_event cfg modelClass connection params
                    (100 * Z.of_nat j) 100
                  :: map EvEach (map (delivered modelClass connection params)
                                     (take 100 (drop (100 * j) items))))
               (seq j k))) = [].
Proof.
  revert j. induction k as [|k IH]; intros j; [split; reflexivity|].
  cbn [seq map List.concat]. rewrite completions_app, callbacks_app.
  destruct (IH (S j)) as [-> ->].
  change (completions (chunk_event ?a ?b ?c ?d ?e ?f :: ?r))
    with (completions r).
  change (callbacks (chunk_event ?a ?b ?c ?d ?e ?f :: ?r)) with (callbacks r).
  rewrite completions_items, callbacks_items. split; reflexivity.
Qed.

(** What the trace of a streaming traversal that ends with a rejected
    chunk request shows: the items of the chunks served, the chunk
    requests up to the rejected one, and no callback. *)
Lemma failing_trace cfg modelClass connection params items (J : nat) ws :
  (100 * J <= length items)%nat ->
  let trace :=
    List.concat
      (map (fun j : nat =>
              chunk_event cfg modelClass connection params
                (100 * Z.of_nat j) 100
              :: map EvEach (map (delivered modelClass connection params)
                                 (take 100 (drop (100 * j) items))))
           (seq 0 J))
      ++ chunk_event cfg modelClass connection params (100 * Z.of_nat J) 100
      :: map EvWarn ws in
  visited trace
  = map (delivered modelClass connection params) (take (100 * J) items)
  /\ chunks trace
     = map (fun j : nat => (Some (100 * Z.of_nat j), Some 100)) (seq 0 (S J))
  /\ completions trace = []
  /\ callbacks trace = [].
Proof.
  intros HJ trace. subst trace. repeat split.
  - rewrite visited_app, visited_chunks.
    change (visited (chunk_event ?a ?b ?c ?d ?e ?f :: ?r)) with (visited r).
    rewrite visited_warnings, app_nil_r. change (100 * 0)%nat with 0%nat.
    rewrite drop_0. reflexivity.
  - rewrite chunks_app, chunks_chunks, seq_S, map_app. f_equal.
    change (chunks (?e :: ?r)) with (chunks [e] ++ chunks r).
    rewrite chunks_chunk_event, chunks_warnings. reflexivity.
  - rewrite completions_app.
    change (completions (chunk_event ?a ?b ?c ?d ?e ?f :: ?r))
      with (completions r).
    rewrite completions_warnings, app_nil_r.
    apply (quiet_chunks cfg modelClass connection params items J 0).
  - rewrite callbacks_app.
    change (callbacks (chunk_event ?a ?b ?c ?d ?e ?f :: ?r))
      with (callbacks r).
    rewrite callbacks_warnings, app_nil_r.
    apply (quiet_chunks cfg modelClass connection params items J 0).
Qed.

(** C2.  With a view other than 'count' and a completion callback,
    [forEach] returns [undefined] and, against a server that pages
    through [items], requests 100 items at each of the offsets 0, 100,
    ..., hands every item to the item callback exactly once and in
    order, stops after the first chunk shorter than 100 (request number
    [n / 100 + 1]), and then calls the completion callback once, with no
    error.  Against a transport that serves the first [J] chunks of
    [items] and rejects the next chunk request with [err], it hands out
    the [100 J] items of the chunks served, in order, makes no request
    after the rejected one, and then calls the completion callback once,
    with [err].  Against any transport, every request asks for 100 items
    from the offset equal to the number of items handed out so far, that
    is the previous offset plus the length the previous chunk really
    had, and is made only after a chunk of at least 100 items; the
    completion callback is called once, last. *)
Theorem forEach_streams_every_item :
  forall cfg modelClass connection params f,
    RestfulModelCollection.view_is params "count" = false ->
    (forall items fuel,
       (length items / 100 < fuel)%nat ->
       exists trace,
         RestfulModelCollection.forEach cfg (Server.paged items) modelClass
           connection fuel params (Some f)
         = (None, Some (trace ++ [EvComplete None]))
         /\ visited trace = map (delivered modelClass connection params) items
         /\ chunks trace
            = map (fun j : nat => (Some (100 * Z.of_nat j), Some 100))
                  (seq 0 (length items / 100 + 1))
         /\ completions trace = [])
    /\ (forall transport items (J : nat) err fuel,
          (100 * J <= length items)%nat ->
          (forall i, (i < J)%nat ->
             serves cfg transport modelClass connection params items
               (100 * Z.of_nat i) 100) ->
          rejects cfg transport connection
            (chunk_options modelClass params (100 * Z.of_nat J) 100) err ->
          (J < fuel)%nat ->
          exists trace,
            RestfulModelCollection.forEach cfg transport modelClass
              connection fuel params (Some f)
            = (None, Some (trace ++ [EvComplete (Some err)]))
            /\ visited trace
               = map (delivered modelClass connection params)
                     (take (100 * J) items)
            /\ chunks trace
               = map (fun j : nat => (Some (100 * Z.of_nat j), Some 100))
                     (seq 0 (S J))
            /\ completions trace = [])
    /\ (forall transport fuel s trace,
          RestfulModelCollection.forEach_iteratee cfg transport modelClass
            connection fuel params 0 = Some (s, trace) ->
          paced 0 100 trace = true
          /\ completions trace = []
          /\ RestfulModelCollection.forEach cfg transport modelClass connection
               fuel params (Some f)
             = (None,
                Some (trace ++ match s with
                               | Resolved _ => [EvComplete None]
                               | Rejected err => [EvComplete (Some err)]
                               | Uncaught _ => []
                               end))).
Proof.
  intros cfg modelClass connection params f Hview.
  assert (Hgen : forall transport fuel s trace,
          RestfulModelCollection.forEach_iteratee cfg transport modelClass
            connection fuel params 0 = Some (s, trace) ->
          paced 0 100 trace = true
          /\ completions trace = []
          /\ RestfulModelCollection.forEach cfg transport modelClass connection
               fuel params (Some f)
             = (None,
                Some (trace ++ match s with
                               | Resolved _ => [EvComplete None]
                               | Rejected err => [EvComplete (Some err)]
                               | Uncaught _ => []
                               end))).
  { intros transport fuel s trace Hit.
    destruct (iteratee_paced cfg modelClass connection params transport fuel
                0 100 s trace ltac:(lia) Hit) as [Hp Hc].
    split; [exact Hp | split; [exact Hc|]].
    unfold RestfulModelCollection.forEach. rewrite Hview, Hit.
    destruct s; rewrite ?app_nil_r; reflexivity. }
  split; [|split; [|exact Hgen]].
  - intros items fuel Hfuel.
    pose proof (forEach_from cfg modelClass connection items params
                  (length items / 100 + 1) 0 fuel ltac:(lia) ltac:(lia) ltac:(lia))
      as Hit.
    change (100 * Z.of_nat 0) with 0 in Hit.
    destruct (Hgen _ _ _ _ Hit) as (_ & Hc & Hfor).
    eexists. split; [exact Hfor | split; [|split; [|exact Hc]]].
    + rewrite visited_chunks. change (100 * 0)%nat with 0%nat.
      rewrite drop_0, take_ge; [reflexivity|].
      pose proof (Nat.div_mod_eq (length items) 100).
      pose proof (Nat.mod_upper_bound (length items) 100 ltac:(lia)). lia.
    + apply chunks_chunks.
  - intros transport items J err fuel HJ Hserved Hrej Hfuel.
    destruct (forEach_failing_from cfg transport modelClass connection items
                params J err HJ Hserved Hrej) as [ws Hit].
    specialize (Hit J 0%nat fuel ltac:(lia) Hfuel).
    change (100 * Z.of_nat 0) with 0 in Hit.
    destruct (Hgen _ _ _ _ Hit) as (_ & _ & Hfor).
    destruct (failing_trace cfg modelClass connection params items J ws HJ)
      as (Hv & Hc & Hd & _).
    eexists. split; [exact Hfor|]. split; [exact Hv|]. split; [exact Hc|exact Hd].
Qed.

(** The theorem on three ids (one request, three item callbacks, one
    completion), and on 150 ids whose second chunk request gets no
    response. *)
Lemma forEach_streams_every_item_witness :
  (exists trace,
     RestfulModelCollection.forEach test_config
       (Server.paged [VStr "a"; VStr "b"; VStr "c"]) Calendar.class
       test_connection 1 (mkParams (Some (VStr "ids")) None None ∅)
       (Some (fun _ _ => VUndefined))
     = (None, Some (trace ++ [EvComplete None]))
     /\ visited trace = [VStr "a"; VStr "b"; VStr "c"]
     /\ chunks trace = [(Some 0, Some 100)])
  /\ (exists trace,
        RestfulModelCollection.forEach test_config
          (Server.failing_at 100
             (mkReply (Some (new_Error "socket hang up")) None VUndefined)
             (Server.paged (replicate 150 (VStr "a"))))
          Calendar.class test_connection 2
          (mkParams (Some (VStr "ids")) None None ∅)
          (Some (fun _ _ => VUndefined))
        = (None, Some (trace ++ [EvComplete (Some (new_Error "socket hang up"))]))
        /\ visited trace = replicate 100 (VStr "a")
        /\ chunks trace = [(Some 0, Some 100); (Some 100, Some 100)]).
Proof.
  split.
  - destruct (proj1 (forEach_streams_every_item test_config Calendar.class
                       test_connection (mkParams (Some (VStr "ids")) None None ∅)
                       (fun _ _ => VUndefined) eq_refl)
                    [VStr "a"; VStr "b"; VStr "c"] 1%nat)
      as (trace & H1 & H2 & H3 & _).
    + vm_compute. lia.
    + exists trace. split; [exact H1 | split; [exact H2 | exact H3]].
  - destruct (proj1 (proj2 (forEach_streams_every_item test_config
                       Calendar.class test_connection
                       (mkParams (Some (VStr "ids")) None None ∅)
                       (fun _ _ => VUndefined) eq_refl))
                    (Server.failing_at 100
                       (mkReply (Some (new_Error "socket hang up")) None
                                VUndefined)
                       (Server.paged (replicate 150 (VStr "a"))))
                    (replicate 150 (VStr "a")) 1%nat
                    (new_Error "socket hang up") 2%nat)
      as (trace & H1 & H2 & H3 & _).
    + vm_compute. lia.
    + intros i Hi. assert (i = 0%nat) by lia. subst i. vm_compute. reflexivity.
    + vm_compute. reflexivity.
    + lia.
    + exists trace. split; [exact H1 | split; [exact H2 | exact H3]].
Defined.

(** C2 as stated fails when [params.view] is 'count': the guard at the
    top of [forEach] calls the completion callback with a usage error
    and returns, so no chunk is requested and the item callback is never
    called although the server holds an item. *)
Lemma forEach_count_view_visits_nothing :
  RestfulModelCollection.forEach test_config (Server.paged [VStr "a"])
    Calendar.class test_connection 1 (mkParams (Some (VStr "count")) None None ∅)
    (Some (fun _ _ => VUndefined))
  = (Some (Rejected (new_Error "forEach() cannot be called with the count view")),
     Some [EvComplete (Some (new_Error "forEach() cannot be called with the count view"))])
  /\ visited [EvComplete (Some (new_Error "forEach() cannot be called with the count view"))]
     <> [VStr "a"].
Proof. split; [reflexivity | discriminate]. Qed.

(** ** What [forEach] returns *)

(** C10.  [forEach] returns a promise only when [params.view ==
    'count'], and that promise is already rejected; the completion
    callback, if any, has been called with the same error and no request
    was made.  Every other call returns [undefined], whatever the
    transport does, and the chunked traversal runs all the same: against
    a server that pages through [items] it requests the chunks and hands
    out every item, with or without a completion callback.  The end of
    the traversal reaches the completion callback alone.  When the
    transport serves the first [J] chunks and rejects the next chunk
    request with [err], the trace of the call is the traversal's own
    events, requests and items, followed by the one invocation of the
    completion callback with [err] if there is a callback; if there is
    none, nothing in the trace and nothing returned carries [err]. *)
Theorem forEach_returns_undefined :
  forall cfg modelClass connection params,
    (RestfulModelCollection.view_is params "count" = true ->
     forall transport fuel cb,
       RestfulModelCollection.forEach cfg transport modelClass connection
         fuel params cb
       = (Some (Rejected (new_Error "forEach() cannot be called with the count view")),
          Some (match cb with
                | Some _ =>
                    [EvComplete
                       (Some (new_Error "forEach() cannot be called with the count view"))]
                | None => []
                end)))
    /\ (RestfulModelCollection.view_is params "count" = false ->
        (forall transport fuel cb,
           (RestfulModelCollection.forEach cfg transport modelClass connection
              fuel params cb).1 = None)
        /\ (forall items fuel,
              (length items / 100 < fuel)%nat ->
              exists trace,
                (forall cb,
                   RestfulModelCollection.forEach cfg (Server.paged items)
                     modelClass connection fuel params cb
                   = (None,
                      Some (trace ++ match cb with
                                     | Some _ => [EvComplete None]
                                     | None => []
                                     end)))
                /\ visited trace
                   = map (delivered modelClass connection params) items
                /\ chunks trace
                   = map (fun j : nat => (Some (100 * Z.of_nat j), Some 100))
                         (seq 0 (length items / 100 + 1))
                /\ completions trace = []
                /\ callbacks trace = [])
        /\ (forall transport items (J : nat) err fuel,
              (100 * J <= length items)%nat ->
              (forall i, (i < J)%nat ->
                 serves cfg transport modelClass connection params items
                   (100 * Z.of_nat i) 100) ->
              rejects cfg transport connection
                (chunk_options modelClass params (100 * Z.of_nat J) 100) err ->
              (J < fuel)%nat ->
              exists trace,
                (forall cb,
                   RestfulModelCollection.forEach cfg transport modelClass
                     connection fuel params cb
                   = (None,
                      Some (trace ++ match cb with
                                     | Some _ => [EvComplete (Some err)]
                                     | None => []
                                     end)))
                /\ visited trace
                   = map (delivered modelClass connection params)
                         (take (100 * J) items)
                /\ chunks trace
                   = map (fun j : nat => (Some (100 * Z.of_nat j), Some 100))
                         (seq 0 (S J))
                /\ completions trace = []
                /\ callbacks trace = [])).
Proof.
  intros cfg modelClass connection params. split.
  - intros Hv transport fuel cb. unfold RestfulModelCollection.forEach.
    rewrite Hv. destruct cb; reflexivity.
  - intros Hv. split; [|split].
    + intros transport fuel cb. unfold RestfulModelCollection.forEach.
      rewrite Hv. reflexivity.
    + intros items fuel Hfuel.
      pose proof (forEach_from cfg modelClass connection items params
                    (length items / 100 + 1) 0 fuel ltac:(lia) ltac:(lia)
                    ltac:(lia)) as Hit.
      change (100 * Z.of_nat 0) with 0 in Hit.
      eexists. split; [|split; [|split; [|split]]].
      * intros cb. unfold RestfulModelCollection.forEach. rewrite Hv, Hit.
        destruct cb; reflexivity.
      * rewrite visited_chunks. change (100 * 0)%nat with 0%nat.
        rewrite drop_0, take_ge; [reflexivity|].
        pose proof (Nat.div_mod_eq (length items) 100).
        pose proof (Nat.mod_upper_bound (length items) 100 ltac:(lia)). lia.
      * apply chunks_chunks.
      * apply (quiet_chunks cfg modelClass connection params items).
      * apply (quiet_chunks cfg modelClass connection params items).
    + intros transport items J err fuel HJ Hserved Hrej Hfuel.
      destruct (forEach_failing_from cfg transport modelClass connection items
                  params J err HJ Hserved Hrej) as [ws Hit].
      specialize (Hit J 0%nat fuel ltac:(lia) Hfuel).
      change (100 * Z.of_nat 0) with 0 in Hit.
      destruct (failing_trace cfg modelClass connection params items J ws HJ)
        as (Hvis & Hc & Hd & Hcb).
      eexists. split; [|split; [exact Hvis | split; [exact Hc|]]].
      * intros cb. unfold RestfulModelCollection.forEach. rewrite Hv, Hit.
        destruct cb; reflexivity.
      * split; [exact Hd | exact Hcb].
Qed.

(** The theorem on 150 ids whose second chunk request gets no response. *)
Lemma forEach_returns_undefined_witness :
  exists trace,
    (forall cb,
       RestfulModelCollection.forEach test_config
         (Server.failing_at 100
            (mkReply (Some (new_Error "socket hang up")) None VUndefined)
            (Server.paged (replicate 150 (VStr "a"))))
         Calendar.class test_connection 2
         (mkParams (Some (VStr "ids")) None None ∅) cb
       = (None,
          Some (trace ++ match cb with
                         | Some _ => [EvComplete (Some (new_Error "socket hang up"))]
                         | None => []
                         end)))
    /\ visited trace = replicate 100 (VStr "a")
    /\ completions trace = []
    /\ callbacks trace = [].
Proof.
  destruct (proj2 (proj2 (proj2 (forEach_returns_undefined test_config
                     Calendar.class test_connection
                     (mkParams (Some (VStr "ids")) None None ∅)) eq_refl))
                  (Server.failing_at 100
                     (mkReply (Some (new_Error "socket hang up")) None
                              VUndefined)
                     (Server.paged (replicate 150 (VStr "a"))))
                  (replicate 150 (VStr "a")) 1%nat
                  (new_Error "socket hang up") 2%nat)
    as (trace & H1 & H2 & _ & H3 & H4).
  - vm_compute. lia.
  - intros i Hi. assert (i = 0%nat) by lia. subst i. vm_compute. reflexivity.
  - vm_compute. reflexivity.
  - lia.
  - exists trace. split; [exact H1 | split; [exact H2 | split; [exact H3 | exact H4]]].
Defined.

(** ** Failures of the operations *)

(** C3, as the code has it.  When the request that [count], [first],
    [find], [delete] or [save] makes is rejected with [err] (no
    response, or an error status), whatever the transport does with
    other requests, the operation rejects its promise with [err] and
    calls the callback, if one was given, once with [err]; [save] leaves
    the instance as it was.  A usage error of [first], [find], [list] or
    [delete] reaches both channels in the same way.  [list] is the
    exception for a failed chunk request, the first or a later one:
    against a transport that serves the first [J] chunks, counted from
    the offset of the params, and rejects the next chunk request with
    [err], [list] without a callback rejects its promise with [err];
    with a callback the callback gets [err], once, and the promise
    resolves, to whatever the callback returned.  The chunks accumulated
    before the failure are dropped either way. *)
Theorem failure_reporting :
  forall cfg transport modelClass conn err params cb,
    (rejects cfg transport conn
       (simple_options "GET" (RestfulModelCollection.path modelClass)
          (mkParams (Some (default (VStr "count") (view params)))
                    (limit params) (offset params) (filters params)) None) err ->
     both_channels
       (RestfulModelCollection.count cfg transport modelClass conn params cb)
       cb err)
    /\ (if RestfulModelCollection.view_is params "count"
        then both_channels
               (RestfulModelCollection.first cfg transport modelClass conn
                  params cb)
               cb (new_Error "first() cannot be called with the count view")
        else rejects cfg transport conn
               (chunk_options modelClass params 0 1) err ->
             both_channels
               (RestfulModelCollection.first cfg transport modelClass conn
                  params cb)
               cb err)
    /\ (forall id,
          let found :=
            RestfulModelCollection.find cfg transport modelClass conn id
              (ArgObj params)
              (match cb with Some f => ArgFn f | None => ArgNone end) in
          if String.eqb id ""
          then both_channels found cb
                 (new_Error "find() must be called with an item id")
          else if RestfulModelCollection.view_is params "count"
                  || RestfulModelCollection.view_is params "ids"
          then both_channels found cb
                 (new_Error "find() cannot be called with the count or ids view")
          else rejects cfg transport conn
                 (simple_options "GET"
                    (RestfulModelCollection.path modelClass +:+ "/" +:+ id)
                    params None) err ->
               both_channels found cb err)
    /\ (forall itemOrId,
          let deleted :=
            RestfulModelCollection.delete cfg transport modelClass conn
              itemOrId (ArgObj params) cb in
          let request_of (item : Instance) :=
            simple_options "DELETE"
              (RestfulModelCollection.path modelClass +:+ "/"
                 +:+ show (default VUndefined (fields item !! "id")))
              (deleteRequestQueryString_m (cls item) params)
              (Some (deleteRequestBody_m (cls item) params)) in
          match itemOrId with
          | NoItem =>
              both_channels deleted cb
                (new_Error "delete() requires an item or an id")
          | AnId id =>
              if String.eqb id ""
              then both_channels deleted cb
                     (new_Error "delete() requires an item or an id")
              else rejects cfg transport conn
                     (request_of (RestfulModelCollection.build modelClass
                                    conn {["id" := VStr id]})) err ->
                   both_channels deleted cb err
          | AnItem item =>
              rejects cfg transport conn (request_of item) err ->
              both_channels deleted cb err
          end)
    /\ (forall this body,
          saveRequestBody_m (cls this) (fields this) = Normal body ->
          let id := default VUndefined (fields this !! "id") in
          rejects cfg transport (connection this)
            (simple_options (if truthy id then "PUT" else "POST")
               (if truthy id
                then RestfulModel.saveEndpoint (cls this) +:+ "/" +:+ show id
                else RestfulModel.saveEndpoint (cls this))
               params (Some body)) err ->
          exists p,
            RestfulModel._save cfg transport this (ArgObj params) cb
              = Normal (p, fields this)
            /\ both_channels p cb err)
    /\ (forall fuel,
          RestfulModelCollection.view_is params "count" = true ->
          exists p,
            RestfulModelCollection.list cfg transport modelClass conn
              fuel params cb = Some p
            /\ both_channels p cb
                 (new_Error "list() cannot be called with the count view"))
    /\ (forall items (k0 J : nat) fuel,
          RestfulModelCollection.view_is params "count" = false ->
          default 0 (offset params) = Z.of_nat k0 ->
          let B := RestfulModelCollection.limit_or_Infinity params in
          ((0 < J)%nat ->
           match B with Finite l => 100 * Z.of_nat J < l | Infinity => True end) ->
          (k0 + 100 * J <= length items)%nat ->
          (forall i, (i < J)%nat ->
             serves cfg transport modelClass conn params items
               (Z.of_nat k0 + 100 * Z.of_nat i)
               (limit_at B (100 * Z.of_nat i))) ->
          rejects cfg transport conn
            (chunk_options modelClass params (Z.of_nat k0 + 100 * Z.of_nat J)
                           (limit_at B (100 * Z.of_nat J))) err ->
          (J < fuel)%nat ->
          exists evs,
            RestfulModelCollection.list cfg transport modelClass conn
              fuel params None = Some (Rejected err, evs)
            /\ (forall f,
                  RestfulModelCollection.list cfg transport modelClass
                    conn fuel params (Some f)
                  = Some (Resolved (f (Some err) VUndefined),
                          evs ++ [EvCallback (Some err) VUndefined]))
            /\ chunks evs = shifted (Z.of_nat k0) (planned_chunks B (S J))
            /\ callbacks evs = []).
Proof.
  intros cfg transport modelClass conn err params cb.
  assert (Hrep : forall options,
            rejects cfg transport conn options err ->
            exists evs,
              NylasConnection.request cfg transport conn options
              = (Rejected err, evs) /\ callbacks evs = []).
  { intros options Hr. unfold rejects in Hr.
    pose proof (request_no_callbacks cfg transport conn options) as Hc.
    destruct (NylasConnection.request cfg transport conn options)
      as [s evs]. cbn [fst snd] in *. subst s. eauto. }
  assert (Hboth : forall options,
            rejects cfg transport conn options err ->
            both_channels
              (report cb (NylasConnection.request cfg transport conn
                            options)) cb err).
  { intros options Hr. destruct (Hrep options Hr) as (evs & -> & Hc).
    unfold both_channels, report, then_, catch_. cbn.
    split; [reflexivity|].
    rewrite callbacks_app, Hc, callbacks_call. reflexivity. }
  split; [|split; [|split; [|split; [|split; [|split]]]]].
  - intros Hr. unfold RestfulModelCollection.count, RestfulModelCollection.request.
    assert (Hq : {| view := match view params with
                            | Some v => Some v
                            | None => Some (VStr "count")
                            end;
                    limit := limit params; offset := offset params;
                    filters := filters params |}
                 = mkParams (Some (default (VStr "count") (view params)))
                            (limit params) (offset params) (filters params))
      by (destruct (view params); reflexivity).
    rewrite Hq. destruct (Hrep _ Hr) as (evs & -> & Hc).
    unfold both_channels, then_, catch_. cbn. split; [reflexivity|].
    rewrite callbacks_app, Hc, callbacks_call. reflexivity.
  - unfold RestfulModelCollection.first.
    destruct (RestfulModelCollection.view_is params "count").
    + split; [reflexivity | apply callbacks_call].
    + intros Hr.
      destruct (getItems_fails cfg transport modelClass conn params 0 1
                  err Hr) as [ws ->].
      unfold both_channels, then_, catch_. cbn [fst snd]. split; [reflexivity|].
      rewrite callbacks_app, callbacks_call.
      change (callbacks (chunk_event ?a ?b ?c ?d ?e ?f :: ?r))
        with (callbacks r).
      rewrite callbacks_warnings. reflexivity.
  - intros id found. subst found. unfold RestfulModelCollection.find.
    assert (Hcb : match match cb with Some f => ArgFn f | None => ArgNone end,
                        ArgObj params with
                  | ArgFn f, _ => Some f
                  | _, ArgFn f => Some f
                  | _, _ => None
                  end = cb) by (destruct cb; reflexivity).
    rewrite Hcb. clear Hcb.
    destruct (String.eqb id ""); [split; [reflexivity | apply callbacks_call]|].
    destruct (_ || _); [split; [reflexivity | apply callbacks_call]|].
    intros Hr.
    unfold RestfulModelCollection._getModel, RestfulModelCollection.request.
    destruct (Hrep _ Hr) as (evs & He & Hc).
    unfold report at 1. rewrite He. unfold both_channels, then_, catch_. cbn.
    split; [reflexivity|].
    rewrite callbacks_app, Hc, callbacks_call. reflexivity.
  - intros itemOrId deleted request_of. subst deleted.
    unfold RestfulModelCollection.delete.
    assert (Hdel : forall item,
      rejects cfg transport conn (request_of item) err ->
      both_channels
        (let '(body, qs) := RestfulModel.deleteRequestOptions (cls item) params in
         RestfulModelCollection.deleteItem cfg transport modelClass conn
           (mkDeleteOptions item None (Some body) (Some qs)) cb) cb err).
    { intros item Hr. unfold RestfulModel.deleteRequestOptions,
        RestfulModelCollection.deleteItem, RestfulModelCollection.request.
      cbn [d_callback d_body d_qs d_item].
      apply Hboth. exact Hr. }
    destruct itemOrId as [id| item |].
    + destruct (String.eqb id "");
        [split; [reflexivity | apply callbacks_call] | apply Hdel].
    + apply Hdel.
    + split; [reflexivity | apply callbacks_call].
  - intros this body Hbody id Hr. unfold RestfulModel._save. rewrite Hbody.
    fold id. unfold rejects in Hr.
    pose proof (request_no_callbacks cfg transport (connection this)
                  (simple_options (if truthy id then "PUT" else "POST")
                     (if truthy id
                      then RestfulModel.saveEndpoint (cls this) +:+ "/" +:+ show id
                      else RestfulModel.saveEndpoint (cls this))
                     params (Some body))) as Hc.
    destruct (NylasConnection.request _ _ _ _) as [s evs].
    cbn [fst snd] in Hr, Hc. subst s.
    eexists. split; [reflexivity|].
    split; [reflexivity|]. cbn [snd].
    rewrite callbacks_app, Hc, callbacks_call. reflexivity.
  - intros fuel Hv. unfold RestfulModelCollection.list. rewrite Hv.
    eexists. split; [reflexivity|]. split; [reflexivity | apply callbacks_call].
  - intros items k0 J fuel Hv Hoff B Hin HJ Hserved Hrej Hfuel.
    destruct (range_failing_from cfg transport modelClass conn items
                params J k0 err B HJ Hin Hserved Hrej) as [ws Hit].
    specialize (Hit J 0%nat fuel ltac:(lia) Hfuel).
    change (100 * 0)%nat with 0%nat in Hit. rewrite take_0 in Hit.
    cbn [map] in Hit.
    eexists. split; [|split; [|split]].
    + unfold RestfulModelCollection.list, RestfulModelCollection._range.
      rewrite Hv. fold B. rewrite Hoff. cbn [default from_option].
      change (id B) with B.
      rewrite Hit. reflexivity.
    + intros f.
      unfold RestfulModelCollection.list, RestfulModelCollection._range.
      rewrite Hv. fold B. rewrite Hoff. cbn [default from_option].
      change (id B) with B.
      rewrite Hit. reflexivity.
    + rewrite chunks_app. unfold planned_chunks, shifted.
      rewrite seq_S, !map_app. f_equal.
      * generalize (seq 0 J). intros js.
        induction js as [|j js IH]; [reflexivity|].
        cbn [map]. change (chunks (?e :: ?r)) with (chunks [e] ++ chunks r).
        rewrite chunks_chunk_event, IH. reflexivity.
      * change (chunks (?e :: ?r)) with (chunks [e] ++ chunks r).
        rewrite chunks_chunk_event, chunks_warnings. reflexivity.
    + rewrite callbacks_app.
      change (callbacks (chunk_event ?a ?b ?c ?d ?e ?f :: ?r))
        with (callbacks r).
      rewrite callbacks_warnings, app_nil_r.
      generalize (seq 0 J). intros js.
      induction js as [|j js IH]; [reflexivity|]. exact IH.
Qed.

(** The theorem on 150 ids whose second chunk request gets no
    response. *)
Lemma failure_reporting_witness :
  exists evs,
    RestfulModelCollection.list test_config
      (Server.failing_at 100
         (mkReply (Some (new_Error "socket hang up")) None VUndefined)
         (Server.paged (replicate 150 (VStr "a"))))
      Calendar.class test_connection 2
      (mkParams (Some (VStr "ids")) None None ∅) None
    = Some (Rejected (new_Error "socket hang up"), evs)
    /\ RestfulModelCollection.list test_config
         (Server.failing_at 100
            (mkReply (Some (new_Error "socket hang up")) None VUndefined)
            (Server.paged (replicate 150 (VStr "a"))))
         Calendar.class test_connection 2
         (mkParams (Some (VStr "ids")) None None ∅)
         (Some (fun _ _ => VStr "handled"))
       = Some (Resolved (VStr "handled"),
               evs ++ [EvCallback (Some (new_Error "socket hang up")) VUndefined])
    /\ chunks evs = [(Some 0, Some 100); (Some 100, Some 100)].
Proof.
  destruct (proj2 (proj2 (proj2 (proj2 (proj2 (proj2
              (failure_reporting test_config
                 (Server.failing_at 100
                    (mkReply (Some (new_Error "socket hang up")) None VUndefined)
                    (Server.paged (replicate 150 (VStr "a"))))
                 Calendar.class test_connection (new_Error "socket hang up")
                 (mkParams (Some (VStr "ids")) None None ∅) None))))))
              (replicate 150 (VStr "a")) 0%nat 1%nat 2%nat eq_refl eq_refl)
    as (evs & H1 & H2 & H3 & _).
  - intros _. exact I.
  - vm_compute. lia.
  - intros i Hi. assert (i = 0%nat) by lia. subst i. vm_compute. reflexivity.
  - vm_compute. reflexivity.
  - lia.
  - exists evs. split; [exact H1 | split; [exact (H2 _) | exact H3]].
Defined.

(** C3 as stated fails for [list]: when its chunk request gets no
    response and a callback was given, the callback is called with the
    error but the promise is resolved (with the callback's return
    value), not rejected: the code does this on purpose, so that
    callback users see no unhandled rejection. *)
Lemma list_failure_resolves_with_callback :
  fst <$> RestfulModelCollection.list test_config (Server.unreachable None)
            Calendar.class test_connection 1 no_params
            (Some (fun _ _ => VUndefined))
    = Some (Resolved VUndefined)
  /\ (fun p => callbacks p.2)
       <$> RestfulModelCollection.list test_config (Server.unreachable None)
             Calendar.class test_connection 1 no_params
             (Some (fun _ _ => VUndefined))
     = Some [(Some (new_Error "No response"), VUndefined)].
Proof. split; reflexivity. Qed.

(** ** Date and date-time round trips *)

Lemma this_num (z : Z) : this (Q2Qc (inject_Z z)) = inject_Z z.
Proof. cbn [this Q2Qc]. apply Qred_identity. apply Z.gcd_1_r. Qed.

Lemma is_zero_num (z : Z) : is_zero (Q2Qc (inject_Z z)) = (z =? 0).
Proof. unfold is_zero. rewrite this_num. reflexivity. Qed.

Lemma trunc_num (z : Z) : trunc (Q2Qc (inject_Z z)) = z.
Proof. unfold trunc. rewrite this_num. cbn [inject_Z Qnum Qden]. apply Z.quot_1_r. Qed.

Lemma dyadic_exact (z k : Z) :
  0 <= k -> dyadic (z * 2 ^ k) (- k) = Q2Qc (inject_Z z).
Proof.
  intros Hk. unfold dyadic.
  destruct (Z.leb_spec 0 (- k)) as [H|H].
  - assert (k = 0) by lia. subst k. change (- 0) with 0.
    change (2 ^ 0) with 1. rewrite !Z.mul_1_r. reflexivity.
  - apply Qc_is_canon. cbn [this Q2Qc]. rewrite !Qred_correct.
    unfold Qeq, inject_Z. cbn [Qnum Qden].
    rewrite Z.opp_involutive, Z2Pos.id by (apply Z.pow_pos_nonneg; lia).
    lia.
Qed.

(** Rounding leaves an integer below [2 ^ 53] as it is. *)
Lemma round64_num (z : Z) :
  Z.abs z < 2 ^ 53 -> round64 (Q2Qc (inject_Z z)) = num z.
Proof.
  intros Hz. unfold round64, num. rewrite this_num. cbn [inject_Z Qnum Qden].
  destruct (Z.eqb_spec z 0) as [->|Hne]; [reflexivity|].
  set (a := Z.abs z). assert (Ha : 0 < a) by (subst a; lia).
  pose proof (Z.log2_spec a Ha) as [Hlo Hhi].
  pose proof (Z.log2_nonneg a) as Hl0.
  set (la := Z.log2 a) in *.
  assert (Hla : la <= 52).
  { destruct (Z.le_gt_cases la 52) as [?|Hgt]; [assumption|].
    assert (2 ^ 53 <= 2 ^ la) by (apply Z.pow_le_mono_r; lia). lia. }
  assert (He : ulp_exponent a 1 = la - 52).
  { unfold ulp_exponent. change (Z.log2 1) with 0. fold la.
    unfold scale. replace (la - 0 - 53) with (la - 53) by lia.
    destruct (Z.leb_spec 0 (la - 53)); [lia|]. cbn [fst snd].
    rewrite Z.div_1_r.
    replace (- (la - 53)) with (53 - la) by lia.
    assert (2 ^ 53 <= a * 2 ^ (53 - la)).
    { replace (2 ^ 53) with (2 ^ la * 2 ^ (53 - la))
        by (rewrite <- Z.pow_add_r by lia; f_equal; lia).
      apply Z.mul_le_mono_nonneg_r; [apply Z.pow_nonneg; lia | exact Hlo]. }
    destruct (Z.leb_spec (2 ^ 53) (a * 2 ^ (53 - la))) as [_|Hc];
      [replace (la - 53 + 1) with (la - 52) by ring;
       apply Z.max_l; clear - Hl0; lia
      | exfalso; exact (Z.lt_irrefl _ (Z.le_lt_trans _ _ _ H0 Hc))]. }
  rewrite He.
  assert (Hm : nearest_even (scale a 1 (la - 52)) = a * 2 ^ (52 - la)).
  { unfold scale, nearest_even.
    destruct (Z.leb_spec 0 (la - 52)).
    - assert (la = 52) by lia. replace (la - 52) with 0 by lia.
      replace (52 - la) with 0 by lia. cbn [fst snd].
      change (1 * 2 ^ 0) with 1. rewrite Z.div_1_r, Z.mod_1_r.
      change (2 * 0 ?= 1) with Lt. cbv iota. change (2 ^ 0) with 1. ring.
    - cbn [fst snd]. rewrite Z.div_1_r, Z.mod_1_r.
      change (2 * 0 ?= 1) with Lt. cbv iota.
      replace (- (la - 52)) with (52 - la) by ring. reflexivity. }
  rewrite Hm.
  replace ((971 <? la - 52)
           || ((la - 52 =? 971) && (2 ^ 53 <=? a * 2 ^ (52 - la))))
    with false.
  2:{ symmetry. destruct (Z.ltb_spec 971 (la - 52)); [lia|].
      destruct (Z.eqb_spec (la - 52) 971); [lia|]. reflexivity. }
  f_equal.
  replace (Z.sgn z * (a * 2 ^ (52 - la))) with (z * 2 ^ (52 - la))
    by (subst a; rewrite Z.mul_assoc, (Z.mul_comm (Z.sgn z)), Z.abs_sgn;
        reflexivity).
  replace (la - 52) with (- (52 - la)) by lia.
  apply dyadic_exact. lia.
Qed.

Lemma Qc_mul_num (a b : Z) :
  (Q2Qc (inject_Z a) * Q2Qc (inject_Z b))%Qc = Q2Qc (inject_Z (a * b)).
Proof.
  apply Qc_is_canon.
  unfold Qcmult. cbn [this Q2Qc]. rewrite !Qred_correct.
  rewrite inject_Z_mult. reflexivity.
Qed.

Lemma mul_num (a b : Z) :
  Z.abs (a * b) < 2 ^ 53 -> mul (num a) (num b) = num (a * b).
Proof.
  intros H. unfold mul, num. rewrite Qc_mul_num. apply round64_num. exact H.
Qed.

Lemma Qc_div_mul (q c : Qc) : c <> Q2Qc 0 -> (q * c / c)%Qc = q.
Proof. intros Hc. field. exact Hc. Qed.

Lemma num_nonzero (b : Z) : b <> 0 -> Q2Qc (inject_Z b) <> Q2Qc 0.
Proof.
  intros Hb H. apply (f_equal this) in H. rewrite this_num in H.
  apply (f_equal Qnum) in H. cbn in H. contradiction.
Qed.

Lemma div_num (a b : Z) :
  b <> 0 -> Z.abs a < 2 ^ 53 -> div (num (a * b)) (num b) = num a.
Proof.
  intros Hb Ha. unfold div, num.
  rewrite is_zero_num. destruct (Z.eqb_spec b 0); [contradiction|].
  rewrite <- Qc_mul_num, Qc_div_mul by (apply num_nonzero; exact Hb).
  apply round64_num. exact Ha.
Qed.

Lemma maxTime_small (ms : Z) : Z.abs ms <= Date.maxTime -> Z.abs ms < 2 ^ 53.
Proof. unfold Date.maxTime. change (2 ^ 53) with 9007199254740992. lia. Qed.

(** What [toJSON (fromJSON n)] computes on a truthy number: the product
    [n * 1000] truncated to whole milliseconds, then divided by 1000,
    both in binary64; NaN when the product is outside the range of
    [Date]. *)
Lemma dateTime_computes key parent (n : number) :
  truthy (VNum n) = true ->
  AttributeDateTime.toJSON key (AttributeDateTime.fromJSON (VNum n) parent)
  = Normal (VNum (match Date.clip_number (mul n (num 1000)) with
                  | Some ms => div (num ms) (num 1000)
                  | None => NaN
                  end)).
Proof.
  intros Ht. unfold AttributeDateTime.fromJSON. rewrite Ht. cbn [negb].
  cbn [to_number]. unfold Date.of_number.
  destruct (Date.clip_number (mul n (num 1000))); reflexivity.
Qed.

(** The epoch-seconds half of C6 where it holds: a number [q] of seconds
    whose thousandfold is a whole number [ms] of milliseconds, other
    than 0 and within the range of [Date], comes back unchanged. *)
Lemma dateTime_exact key parent (q : Qc) (ms : Z) :
  round64 q = Fin q ->
  (q * Q2Qc (inject_Z 1000))%Qc = Q2Qc (inject_Z ms) ->
  ms <> 0 -> Z.abs ms <= Date.maxTime ->
  AttributeDateTime.toJSON key
    (AttributeDateTime.fromJSON (VNum (Fin q)) parent)
  = Normal (VNum (Fin q)).
Proof.
  intros Hq Hms Hne Hr.
  assert (Ht : truthy (VNum (Fin q)) = true).
  { cbn [truthy]. unfold is_zero.
    destruct (Z.eqb_spec (Qnum (this q)) 0) as [Hz|]; [|reflexivity].
    exfalso. apply Hne.
    assert (Hq0 : q = Q2Qc 0).
    { apply Qc_is_canon. cbn [this Q2Qc]. rewrite Qred_correct.
      unfold Qeq. cbn [Qnum Qden]. rewrite Hz. reflexivity. }
    rewrite Hq0 in Hms.
    assert (H0 : (Q2Qc 0 * Q2Qc (inject_Z 1000))%Qc = Q2Qc (inject_Z 0))
      by (apply Qc_is_canon; reflexivity).
    rewrite H0 in Hms. apply (f_equal this) in Hms.
    rewrite !this_num in Hms. apply (f_equal Qnum) in Hms. cbn in Hms.
    congruence. }
  rewrite (dateTime_computes key parent (Fin q) Ht).
  unfold mul, num. rewrite Hms.
  rewrite round64_num by (apply maxTime_small; exact Hr).
  unfold Date.clip_number, num. rewrite trunc_num. unfold Date.TimeClip.
  destruct (Z.leb_spec (Z.abs ms) Date.maxTime); [|lia].
  unfold div. rewrite is_zero_num. change (1000 =? 0) with false. cbv iota.
  rewrite <- Hms, Qc_div_mul by (apply num_nonzero; discriminate).
  rewrite Hq. reflexivity.
Qed.

(** Whole seconds are of this kind. *)
Lemma dateTime_round_trip key parent (t : Z) :
  t <> 0 -> Z.abs (t * 1000) <= Date.maxTime ->
  AttributeDateTime.toJSON key (AttributeDateTime.fromJSON (VNum (num t)) parent)
  = Normal (VNum (num t)).
Proof.
  intros Ht Hr. unfold num.
  apply (dateTime_exact key parent _ (t * 1000)).
  - apply round64_num. apply maxTime_small. lia.
  - apply Qc_mul_num.
  - lia.
  - exact Hr.
Qed.

(** *** The calendar *)

Ltac divmod := Z.div_mod_to_equations.

Lemma DayFromYear_next (y : Z) :
  Date.DayFromYear (y + 1) - Date.DayFromYear y
  = if Date.isLeap y then 366 else 365.
Proof.
  unfold Date.DayFromYear, Date.isLeap.
  destruct (Z.eqb_spec (y mod 4) 0), (Z.eqb_spec (y mod 100) 0),
           (Z.eqb_spec (y mod 400) 0); cbn [negb andb orb];
    divmod; lia.
Qed.

Lemma YearFromDay_spec (d : Z) :
  Date.DayFromYear (Date.YearFromDay d) <= d
  < Date.DayFromYear (Date.YearFromDay d + 1).
Proof.
  unfold Date.YearFromDay.
  set (e := 1970 + 400 * d / 146097).
  destruct (Z.leb_spec (Date.DayFromYear (e + 1)) d) as [H1|H1].
  - split; [exact H1|].
    unfold Date.DayFromYear in *. subst e. divmod. lia.
  - destruct (Z.leb_spec (Date.DayFromYear e) d) as [H2|H2].
    + split; assumption.
    + replace (e - 1 + 1) with e by lia. split; [|exact H2].
      unfold Date.DayFromYear in *. subst e. divmod. lia.
Qed.

Lemma DayWithinYear_range (t : Z) :
  0 <= Date.DayWithinYear t
  < (if Date.isLeap (Date.YearFromTime t) then 366 else 365).
Proof.
  unfold Date.DayWithinYear, Date.YearFromTime.
  pose proof (YearFromDay_spec (Date.Day t)) as H.
  pose proof (DayFromYear_next (Date.YearFromDay (Date.Day t))) as Hn.
  destruct (Date.isLeap _); lia.
Qed.

Lemma month_and_date (leap : bool) (d : Z) :
  0 <= d < (if leap then 366 else 365) ->
  let m := Date.monthOfDay leap d in
  0 <= m <= 11
  /\ 1 <= d - Date.monthStart leap m + 1 <= 31.
Proof.
  intros Hd m. subst m. unfold Date.monthOfDay.
  destruct leap;
    repeat match goal with
           | |- context [d <? ?c] =>
               let c' := eval vm_compute in c in
               change c with c'; destruct (Z.ltb_spec d c')
           end;
    vm_compute Date.monthStart; lia.
Qed.

Lemma time_fields (t : Z) :
  0 <= Date.HourFromTime t <= 23
  /\ 0 <= Date.MinFromTime t <= 59
  /\ 0 <= Date.SecFromTime t <= 59
  /\ 0 <= Date.msFromTime t <= 999
  /\ Date.MakeTime (Date.HourFromTime t) (Date.MinFromTime t)
       (Date.SecFromTime t) (Date.msFromTime t)
     = Date.TimeWithinDay t.
Proof.
  unfold Date.HourFromTime, Date.MinFromTime, Date.SecFromTime, Date.msFromTime,
    Date.MakeTime, Date.TimeWithinDay, Date.msPerDay.
  divmod. lia.
Qed.

Lemma MakeDay_fields (t : Z) :
  Date.MakeDay (Date.YearFromTime t) (Date.MonthFromTime t + 1 - 1)
    (Date.DateFromTime t) = Date.Day t.
Proof.
  pose proof (DayWithinYear_range t) as Hd.
  pose proof (month_and_date (Date.isLeap (Date.YearFromTime t))
                (Date.DayWithinYear t) Hd) as [Hm _].
  fold (Date.MonthFromTime t) in Hm.
  unfold Date.MakeDay, Date.DateFromTime.
  replace (Date.MonthFromTime t + 1 - 1) with (Date.MonthFromTime t) by lia.
  rewrite Z.div_small, Z.mod_small by lia.
  rewrite Z.add_0_r. unfold Date.DayWithinYear. lia.
Qed.

Lemma year_range (t : Z) :
  Z.abs t <= Date.maxTime -> -999999 <= Date.YearFromTime t <= 999999.
Proof.
  intros Ht. unfold Date.YearFromTime.
  pose proof (YearFromDay_spec (Date.Day t)) as H.
  assert (Hday : -100000000 <= Date.Day t <= 100000000).
  { unfold Date.Day, Date.msPerDay, Date.maxTime in *. divmod. lia. }
  unfold Date.DayFromYear in H. divmod. lia.
Qed.

(** *** Digits *)

Lemma digit_char_facts (d : Z) :
  0 <= d <= 9 ->
  is_digit (Date.digit_char d) = true
  /\ digit_val (Date.digit_char d) = d
  /\ Ascii.eqb (Date.digit_char d) "+" = false
  /\ Ascii.eqb (Date.digit_char d) "-" = false.
Proof.
  intros Hd.
  assert (H : d = 0 \/ d = 1 \/ d = 2 \/ d = 3 \/ d = 4 \/ d = 5 \/ d = 6
              \/ d = 7 \/ d = 8 \/ d = 9) by lia.
  repeat (destruct H as [-> | H]; [repeat split; reflexivity|]).
  subst. repeat split; reflexivity.
Qed.

Lemma read_digit (n : nat) (acc d : Z) (cs : list ascii) :
  0 <= d <= 9 ->
  Date.read_digits (S n) acc (Date.digit_char d :: cs)
  = Date.read_digits n (10 * acc + d) cs.
Proof.
  intros Hd. destruct (digit_char_facts d Hd) as (H1 & H2 & _).
  cbn [Date.read_digits]. rewrite H1, H2. reflexivity.
Qed.

Lemma read_pad2 (acc v : Z) (cs : list ascii) :
  0 <= v <= 99 ->
  Date.read_digits 2 acc (Date.pad2 v ++ cs) = Some (100 * acc + v, cs).
Proof.
  intros Hv. unfold Date.pad2. cbn [app].
  rewrite !read_digit by (divmod; lia).
  cbn [Date.read_digits]. do 2 f_equal. divmod. lia.
Qed.

Lemma read_pad3 (v : Z) (cs : list ascii) :
  0 <= v <= 999 ->
  Date.read_digits 3 0 (Date.pad3 v ++ cs) = Some (v, cs).
Proof.
  intros Hv. unfold Date.pad3. cbn [app].
  rewrite read_digit by (divmod; lia).
  rewrite read_pad2 by (divmod; lia). do 2 f_equal. divmod. lia.
Qed.

Lemma read_pad4 (acc v : Z) (cs : list ascii) :
  0 <= v <= 9999 ->
  Date.read_digits 4 acc (Date.pad4 v ++ cs) = Some (10000 * acc + v, cs).
Proof.
  intros Hv. unfold Date.pad4, Date.pad2. cbn [app].
  rewrite !read_digit by (divmod; lia).
  cbn [Date.read_digits]. do 2 f_equal. divmod. lia.
Qed.

Lemma read_pad6 (v : Z) (cs : list ascii) :
  0 <= v <= 999999 ->
  Date.read_digits 6 0 (Date.pad6 v ++ cs) = Some (v, cs).
Proof.
  intros Hv. unfold Date.pad6, Date.pad2 at 1. cbn [app].
  rewrite !read_digit by (divmod; lia).
  rewrite read_pad4 by (divmod; lia). do 2 f_equal. divmod. lia.
Qed.

(** *** Parsing what [toISOString] prints *)

Lemma read_year_printed (y : Z) (rest : list ascii) :
  -999999 <= y <= 999999 ->
  Date.read_year (Date.year_chars y ++ rest) = Some (Some y, rest).
Proof.
  intros Hy. unfold Date.year_chars.
  destruct (Z.leb_spec 0 y) as [H0|H0]; cbn [andb].
  - destruct (Z.leb_spec y 9999) as [H1|H1].
    + unfold Date.pad4, Date.pad2. cbn [app]. unfold Date.read_year.
      destruct (digit_char_facts (y / 100 / 10) ltac:(divmod; lia))
        as (_ & _ & -> & ->).
      rewrite !read_digit by (divmod; lia).
      cbn [Date.read_digits fmap option_fmap option_map fst snd].
      do 3 f_equal. divmod. lia.
    + destruct (Z.ltb_spec y 0); [lia|].
      cbn [app]. unfold Date.read_year.
      change (Ascii.eqb "+" "+") with true. cbv iota.
      rewrite read_pad6 by lia.
      cbn [fmap option_fmap option_map fst snd]. do 3 f_equal. lia.
  - destruct (Z.ltb_spec y 0); [|lia].
    cbn [app]. unfold Date.read_year.
    change (Ascii.eqb "-" "+") with false.
    change (Ascii.eqb "-" "-") with true. cbv iota.
    rewrite read_pad6 by lia.
    cbn [fmap option_fmap option_map fst snd].
    destruct (Z.eqb_spec (Z.abs y) 0); [lia|]. do 3 f_equal. lia.
Qed.

Lemma read_group_pad2 (sep : ascii) (v : Z) (rest : list ascii) :
  0 <= v <= 99 ->
  Date.read_group sep 2 (sep :: Date.pad2 v ++ rest) = Some (Some v, rest).
Proof.
  intros Hv. unfold Date.read_group. rewrite Ascii.eqb_refl.
  rewrite read_pad2 by lia.
  cbn [fmap option_fmap option_map fst snd]. repeat f_equal; lia.
Qed.

Lemma read_group_pad3 (sep : ascii) (v : Z) (rest : list ascii) :
  0 <= v <= 999 ->
  Date.read_group sep 3 (sep :: Date.pad3 v ++ rest) = Some (Some v, rest).
Proof.
  intros Hv. unfold Date.read_group. rewrite Ascii.eqb_refl.
  rewrite read_pad3 by lia. reflexivity.
Qed.

Lemma read_time_printed (h m s ms : Z) :
  0 <= h <= 99 -> 0 <= m <= 99 -> 0 <= s <= 99 -> 0 <= ms <= 999 ->
  Date.read_time (Date.pad2 h ++ ":"%char :: Date.pad2 m
                    ++ ":"%char :: Date.pad2 s ++ "."%char :: Date.pad3 ms
                    ++ ["Z"%char])
  = Some ((h, m, s, ms), Some (false, 0, 0)).
Proof.
  intros Hh Hm Hs Hms. unfold Date.read_time.
  rewrite read_pad2 by lia. change (Ascii.eqb ":" ":") with true. cbv iota.
  rewrite read_pad2 by lia.
  rewrite read_group_pad2 by lia.
  rewrite read_group_pad3 by lia.
  change (Date.read_offset ["Z"%char]) with (Some (Some (false, 0, 0))).
  cbn [default from_option]. do 5 f_equal; lia.
Qed.

(** The fields read from what [toISOString] prints. *)
Lemma read_toISOString (t : Z) :
  Z.abs t <= Date.maxTime ->
  Date.read_format (Date.iso_chars t)
  = Some (Date.mkFields (Some (Date.YearFromTime t)) (Date.MonthFromTime t + 1)
            (Date.DateFromTime t)
            (Some (Date.HourFromTime t, Date.MinFromTime t,
                   Date.SecFromTime t, Date.msFromTime t))
            (Some (false, 0, 0))).
Proof.
  intros Ht. unfold Date.read_format, Date.iso_chars.
  rewrite read_year_printed by (apply year_range; exact Ht).
  pose proof (DayWithinYear_range t) as Hd.
  pose proof (month_and_date (Date.isLeap (Date.YearFromTime t))
                (Date.DayWithinYear t) Hd) as [Hm Hdate].
  fold (Date.MonthFromTime t) in Hm, Hdate. fold (Date.DateFromTime t) in Hdate.
  destruct (time_fields t) as (Hh & Hmi & Hs & Hms & Htime).
  rewrite read_group_pad2 by lia.
  rewrite read_group_pad2 by lia.
  change (Ascii.eqb "T" "T") with true. cbv iota.
  rewrite read_time_printed by lia.
  reflexivity.
Qed.

(** [Date.parse] inverts [toISOString] on every valid time value,
    whatever the host. *)
Lemma parse_toISOString host (t : Z) :
  Z.abs t <= Date.maxTime -> Date.parse host (Date.toISOString t) = Some t.
Proof.
  intros Ht. unfold Date.parse, Date.toISOString.
  rewrite list_ascii_of_string_of_list_ascii.
  rewrite read_toISOString by exact Ht.
  unfold Date.time_value.
  cbn [Date.f_year Date.f_month Date.f_day Date.f_time Date.f_offset].
  pose proof (DayWithinYear_range t) as Hd.
  pose proof (month_and_date (Date.isLeap (Date.YearFromTime t))
                (Date.DayWithinYear t) Hd) as [Hm Hdate].
  fold (Date.MonthFromTime t) in Hm, Hdate. fold (Date.DateFromTime t) in Hdate.
  destruct (time_fields t) as (Hh & Hmi & Hs & Hms & Htime).
  unfold Date.in_range.
  repeat match goal with
         | |- context [?x <=? ?y] =>
             destruct (Z.leb_spec x y); [|lia]
         end.
  cbn [andb orb].
  rewrite MakeDay_fields, Htime.
  unfold Date.MakeDate, Date.Day, Date.TimeWithinDay.
  f_equal. unfold Date.msPerDay. divmod. lia.
Qed.

Lemma toISOString_nonempty (t : Z) : String.eqb (Date.toISOString t) "" = false.
Proof.
  unfold Date.toISOString, Date.iso_chars, Date.year_chars.
  destruct (_ && _); reflexivity.
Qed.

(** What [toJSON (fromJSON s)] computes on a string in the date-time
    string format: the full UTC form of its time value, and a RangeError
    when it has none. *)
Lemma date_computes key parent host (s : string) (f : Date.Fields) :
  s <> "" ->
  Date.read_format (list_ascii_of_string s) = Some f ->
  AttributeDate.toJSON key (AttributeDate.fromJSON host (VStr s) parent)
  = match Date.time_value host f ≫= Date.TimeClip with
    | Some t => Normal (VStr (Date.toISOString t))
    | None => Throw (new_Error "Invalid time value")
    end.
Proof.
  intros Hs Hf. unfold AttributeDate.fromJSON. cbn [truthy].
  destruct (String.eqb_spec s ""); [contradiction|]. cbn [negb Date.construct].
  unfold Date.parse. rewrite Hf.
  destruct (Date.time_value host f ≫= Date.TimeClip); reflexivity.
Qed.

(** The ISO-string half of C6 where it holds: a string that
    [toISOString] prints for a valid date comes back from
    [toJSON (fromJSON s)] unchanged. *)
Lemma date_round_trip key parent host (t : Z) :
  Z.abs t <= Date.maxTime ->
  AttributeDate.toJSON key
    (AttributeDate.fromJSON host (VStr (Date.toISOString t)) parent)
  = Normal (VStr (Date.toISOString t)).
Proof.
  intros Ht. unfold AttributeDate.fromJSON. cbn [truthy].
  rewrite toISOString_nonempty. cbn [negb Date.construct].
  rewrite parse_toISOString by exact Ht.
  cbn [mbind option_bind]. unfold Date.TimeClip.
  destruct (Z.leb_spec (Z.abs t) Date.maxTime); [reflexivity | lia].
Qed.

(** C6, as the code has it.  On a truthy number [n] of epoch seconds,
    [AttributeDateTime.toJSON (fromJSON n)] is the product [n * 1000]
    cut to whole milliseconds and divided by 1000, both operations
    rounding as binary64 does, and NaN when the product is not within
    the range of [Date].  It is [n] itself whenever the thousandfold of
    [n] is a whole number of milliseconds other than 0 and within that
    range, which covers every whole number of seconds and fractions such
    as a half or an eighth; 0 is falsy, so it deserialises to null and
    serialises back to null.  On a string in the date-time string
    format, [AttributeDate.toJSON (fromJSON s)] is the full UTC form
    YYYY-MM-DDTHH:mm:ss.sssZ of its time value, the year expanded to six
    signed digits outside 0000..9999, and a RangeError when it has no
    time value, a field being out of range or the instant outside the
    range of [Date]; it is [s] itself for every string that
    [toISOString] prints for a valid date. *)
Theorem wire_dates_round_trip :
  forall key parent host,
    (forall n : number,
       truthy (VNum n) = true ->
       AttributeDateTime.toJSON key
         (AttributeDateTime.fromJSON (VNum n) parent)
       = Normal (VNum (match Date.clip_number (mul n (num 1000)) with
                       | Some ms => div (num ms) (num 1000)
                       | None => NaN
                       end)))
    /\ (forall (q : Qc) (ms : Z),
          round64 q = Fin q ->
          (q * Q2Qc (inject_Z 1000))%Qc = Q2Qc (inject_Z ms) ->
          ms <> 0 -> Z.abs ms <= Date.maxTime ->
          AttributeDateTime.toJSON key
            (AttributeDateTime.fromJSON (VNum (Fin q)) parent)
          = Normal (VNum (Fin q)))
    /\ (forall t : Z,
          t <> 0 -> Z.abs (t * 1000) <= Date.maxTime ->
          AttributeDateTime.toJSON key
            (AttributeDateTime.fromJSON (VNum (num t)) parent)
          = Normal (VNum (num t)))
    /\ AttributeDateTime.toJSON key
         (AttributeDateTime.fromJSON (VNum (num 0)) parent)
       = Normal VNull
    /\ (forall (s : string) (f : Date.Fields),
          s <> "" ->
          Date.read_format (list_ascii_of_string s) = Some f ->
          AttributeDate.toJSON key (AttributeDate.fromJSON host (VStr s) parent)
          = match Date.time_value host f ≫= Date.TimeClip with
            | Some t => Normal (VStr (Date.toISOString t))
            | None => Throw (new_Error "Invalid time value")
            end)
    /\ (forall t : Z,
          Z.abs t <= Date.maxTime ->
          AttributeDate.toJSON key
            (AttributeDate.fromJSON host (VStr (Date.toISOString t)) parent)
          = Normal (VStr (Date.toISOString t))).
Proof.
  intros key parent host. repeat split.
  - intros n Hn. apply dateTime_computes. exact Hn.
  - intros q ms Hq Hms Hne Hr. apply (dateTime_exact key parent q ms); assumption.
  - intros t Ht Hr. apply dateTime_round_trip; assumption.
  - intros s f Hs Hf. apply date_computes; assumption.
  - intros t Ht. apply date_round_trip. exact Ht.
Qed.

(** The theorem at the first second of 2020, at a second and a half,
    and at the first millisecond of 2020. *)
Lemma wire_dates_round_trip_witness :
  AttributeDateTime.toJSON "linkedAt"
    (AttributeDateTime.fromJSON (VNum (num 1577836800)) (test_connection, ∅))
  = Normal (VNum (num 1577836800))
  /\ AttributeDateTime.toJSON "linkedAt"
       (AttributeDateTime.fromJSON (VNum (Fin (Q2Qc (3 # 2))))
          (test_connection, ∅))
     = Normal (VNum (Fin (Q2Qc (3 # 2))))
  /\ AttributeDate.toJSON "date"
       (AttributeDate.fromJSON utc_host (VStr "2020-01-01T00:00:00.000Z")
          (test_connection, ∅))
     = Normal (VStr "2020-01-01T00:00:00.000Z").
Proof.
  pose proof (wire_dates_round_trip "linkedAt" (test_connection, ∅) utc_host)
    as (_ & H0 & H1 & _).
  pose proof (wire_dates_round_trip "date" (test_connection, ∅) utc_host)
    as (_ & _ & _ & _ & _ & H2).
  split; [|split].
  - apply H1; [discriminate | vm_compute; discriminate].
  - apply (H0 (Q2Qc (3 # 2)) 1500).
    + vm_compute. f_equal. apply Qc_is_canon. reflexivity.
    + apply Qc_is_canon. reflexivity.
    + discriminate.
    + vm_compute. discriminate.
  - apply (H2 1577836800000). vm_compute. discriminate.
Defined.

(** C6 as stated fails in both halves.  The epoch itself, [t = 0], is
    falsy: it comes back as null.  The number 1.001 comes back as 1: its
    thousandfold is 1000.9999999999999 in binary64, which [Date] cuts to
    1000 milliseconds.  A date-only ISO-8601 string is parsed as
    midnight UTC and comes back in the full form [toISOString]
    prints. *)
Lemma epoch_and_date_only_do_not_round_trip :
  AttributeDateTime.toJSON "linkedAt"
    (AttributeDateTime.fromJSON (VNum (num 0)) (test_connection, ∅))
  = Normal VNull
  /\ (string_to_number "1.001" = round64 (Q2Qc (1001 # 1000))
      /\ show (VNum (mul (round64 (Q2Qc (1001 # 1000))) (num 1000)))
         = "1000.9999999999999"
      /\ (fun r => match r with Normal v => Some (show v) | Throw _ => None end)
           (AttributeDateTime.toJSON "linkedAt"
              (AttributeDateTime.fromJSON
                 (VNum (round64 (Q2Qc (1001 # 1000)))) (test_connection, ∅)))
         = Some "1"
      /\ show (VNum (round64 (Q2Qc (1001 # 1000)))) = "1.001")
  /\ AttributeDate.toJSON "date"
       (AttributeDate.fromJSON utc_host (VStr "2020-01-01") (test_connection, ∅))
     = Normal (VStr "2020-01-01T00:00:00.000Z").
Proof. repeat split; vm_compute; reflexivity. Qed.

(** ** What a request leaves in the trace *)

Lemma request_trace cfg transport conn options :
  requests (NylasConnection.request cfg transport conn options).2
  = [NylasConnection.requestOptions cfg conn options].
Proof.
  unfold NylasConnection.request.
  destruct (reply_response _); [|reflexivity].
  cbv zeta.
  request_cases; reflexivity.
Qed.

Lemma requests_app (a b : list event) :
  requests (a ++ b) = requests a ++ requests b.
Proof. unfold requests. apply omap_app. Qed.

Lemma requests_report cfg transport conn options cb :
  requests (report cb (NylasConnection.request cfg transport conn options)).2
  = [NylasConnection.requestOptions cfg conn options].
Proof.
  pose proof (request_trace cfg transport conn options) as Htr.
  destruct (NylasConnection.request _ _ _ _) as [[v|e|e] evs];
    unfold report, then_, catch_; cbn [fst snd] in *;
    rewrite ?requests_app, ?requests_call, ?app_nil_r; exact Htr.
Qed.

Lemma request_constant_resolves cfg conn hs body options :
  body <> VUndefined -> downloadRequest options = false ->
  json options <> Some false ->
  (NylasConnection.request cfg (Server.constant 200 hs body) conn options).1
  = Resolved body.
Proof.
  intros Hb Hd Hj.
  rewrite (request_unfold _ _ _ _ (mkResponse 200 hs)) by reflexivity.
  cbv zeta. unfold Server.constant.
  cbn [reply_error reply_body resp_statusCode].
  replace (r_json (NylasConnection.requestOptions cfg conn options)) with true
    by (cbn; destruct (json options) as [[|]|];
        first [reflexivity | congruence]).
  rewrite bool_decide_eq_false_2 by (intros [? ?]; discriminate).
  change (299 <? 200) with false. cbn [orb].
  change (r_downloadRequest (NylasConnection.requestOptions cfg conn options))
    with (downloadRequest options).
  rewrite Hd. cbn [fst]. destruct body; try reflexivity. congruence.
Qed.

(** ** Resolving request options *)

Lemma nonempty_default o d :
  d <> "" ->
  NylasConnection.nonempty (Some (default d (NylasConnection.nonempty o)))
  = Some (default d (NylasConnection.nonempty o)).
Proof.
  intros Hd. apply nonempty_Some.
  unfold NylasConnection.nonempty. destruct o as [s|]; [|exact Hd].
  destruct (String.eqb_spec s ""); [exact Hd | assumption].
Qed.

Lemma rewrite_expanded_idem q :
  NylasConnection.rewrite_expanded (NylasConnection.rewrite_expanded q)
  = NylasConnection.rewrite_expanded q.
Proof.
  destruct (filters q !! "expanded") as [e|] eqn:E.
  - destruct (truthy e) eqn:Et.
    + assert (H : NylasConnection.rewrite_expanded q
                  = {| view := match e with
                               | VBool true => Some (VStr "expanded")
                               | _ => view q
                               end;
                       limit := limit q; offset := offset q;
                       filters := delete "expanded" (filters q) |}).
      { unfold NylasConnection.rewrite_expanded. rewrite E, Et. reflexivity. }
      rewrite H. unfold NylasConnection.rewrite_expanded. cbn [filters].
      rewrite lookup_delete_eq. reflexivity.
    + assert (H : NylasConnection.rewrite_expanded q = q).
      { unfold NylasConnection.rewrite_expanded. rewrite E, Et. reflexivity. }
      rewrite !H. reflexivity.
  - assert (H : NylasConnection.rewrite_expanded q = q).
    { unfold NylasConnection.rewrite_expanded. rewrite E. reflexivity. }
    rewrite !H. reflexivity.
Qed.

Lemma app_nonempty (a b : string) : b <> "" -> a +:+ b <> "".
Proof. intros Hb. destruct a; [exact Hb | discriminate]. Qed.

Lemma url_idem (p api : string) (u0 : option string) :
  let u1 := match String.eqb p "", NylasConnection.nonempty u0 with
            | false, None => api +:+ p
            | _, u => default "" u
            end in
  match String.eqb p "", NylasConnection.nonempty (Some u1) with
  | false, None => api +:+ p
  | _, u => default "" u
  end = u1.
Proof.
  cbv zeta. unfold NylasConnection.nonempty.
  destruct (String.eqb_spec p "") as [Hp|Hp].
  - destruct u0 as [u|]; cbn [default from_option].
    + destruct (String.eqb_spec u "") as [Hu|Hu]; cbn [default from_option].
      * reflexivity.
      * change (id u) with u.
        destruct (String.eqb_spec u ""); [contradiction|reflexivity].
    + reflexivity.
  - destruct u0 as [u|]; cbn [default from_option].
    + destruct (String.eqb_spec u "") as [Hu|Hu]; cbn [default from_option].
      * pose proof (app_nonempty api p Hp) as Hn.
        destruct (String.eqb_spec (api +:+ p) ""); [contradiction|reflexivity].
      * change (id u) with u.
        destruct (String.eqb_spec u ""); [contradiction|reflexivity].
    + pose proof (app_nonempty api p Hp) as Hn.
      destruct (String.eqb_spec (api +:+ p) ""); [contradiction|reflexivity].
Qed.

(** [requestOptions] is idempotent: options it has resolved come back
    unchanged when resolved again, so its defaults (method, url, body,
    json, headers) and the [expanded] rewrite are applied once and for
    all.  Of the headers it sets, [Nylas-SDK-API-Version] is always the
    supported version and [X-Nylas-Client-Id] always the connection's
    client id, whatever the caller passed under these names; every
    header other than these two and [User-Agent] is passed through as
    given. *)
Theorem requestOptions_idempotent :
  forall cfg conn options,
    let r := NylasConnection.requestOptions cfg conn options in
    NylasConnection.requestOptions cfg conn (as_options r) = r
    /\ r_headers r !! "Nylas-SDK-API-Version" = Some SUPPORTED_API_VERSION
    /\ r_headers r !! "X-Nylas-Client-Id" = clientId conn
    /\ (forall k, k <> "Nylas-SDK-API-Version" -> k <> "X-Nylas-Client-Id" ->
          k <> "User-Agent" -> r_headers r !! k = headers options !! k).
Proof.
  intros cfg conn options r.
  assert (Hh : r_headers r !! "Nylas-SDK-API-Version" = Some SUPPORTED_API_VERSION
    /\ r_headers r !! "X-Nylas-Client-Id" = clientId conn
    /\ (forall k, k <> "Nylas-SDK-API-Version" -> k <> "X-Nylas-Client-Id" ->
          k <> "User-Agent" -> r_headers r !! k = headers options !! k)
    /\ is_Some (r_headers r !! "User-Agent")).
  { subst r. unfold NylasConnection.requestOptions. cbn [r_headers].
    destruct (clientId conn) as [c|];
      destruct (headers options !! "User-Agent") as [ua|] eqn:Eua;
      repeat split;
      try (intros k H1 H2 H3);
      repeat first
        [ rewrite lookup_insert_eq
        | rewrite lookup_insert_ne by (first [discriminate | congruence])
        | rewrite lookup_delete_eq
        | rewrite lookup_delete_ne by (first [discriminate | congruence]) ];
      try reflexivity; rewrite ?Eua; eauto. }
  destruct Hh as (H1 & H2 & H3 & H4).
  split; [|split; [exact H1 | split; [exact H2 | exact H3]]].
  subst r. unfold NylasConnection.requestOptions at 1.
  unfold as_options.
  cbn [method path url qs body formData json downloadRequest headers].
  set (r := NylasConnection.requestOptions cfg conn options) in *.
  assert (Hm : default "GET" (NylasConnection.nonempty (Some (r_method r)))
               = r_method r).
  { unfold r. cbn [NylasConnection.requestOptions r_method].
    rewrite nonempty_default by discriminate. reflexivity. }
  assert (Hu : match String.eqb (r_path r) "",
                     NylasConnection.nonempty (Some (r_url r)) with
               | false, None => apiServer cfg +:+ r_path r
               | _, u => default "" u
               end = r_url r).
  { unfold r. cbn [NylasConnection.requestOptions r_path r_url].
    apply url_idem. }
  assert (Hq : NylasConnection.rewrite_expanded <$> r_qs r = r_qs r).
  { unfold r. cbn [NylasConnection.requestOptions r_qs].
    destruct (qs options) as [q|]; [|reflexivity].
    cbn [fmap option_fmap option_map]. rewrite rewrite_expanded_idem.
    reflexivity. }
  assert (Hb : match r_formData r with
               | Some f =>
                   if truthy f then r_body r
                   else Some (or_else (default VUndefined (r_body r)) (VObj ∅))
               | None => Some (or_else (default VUndefined (r_body r)) (VObj ∅))
               end = r_body r).
  { unfold r. cbn [NylasConnection.requestOptions r_formData r_body].
    assert (Ho : forall b, or_else (or_else b (VObj ∅)) (VObj ∅)
                           = or_else b (VObj ∅)).
    { intros b. unfold or_else.
      destruct (truthy b) eqn:Eb; [rewrite Eb|]; reflexivity. }
    destruct (formData options) as [f|]; [destruct (truthy f)|];
      cbn [default from_option]; cbv beta delta [id]; rewrite ?Ho;
      reflexivity. }
  assert (Hhs : match clientId conn with
                | Some c =>
                    <["X-Nylas-Client-Id" := c]>
                      (<["Nylas-SDK-API-Version" := SUPPORTED_API_VERSION]>
                         (match r_headers r !! "User-Agent" with
                          | Some _ => r_headers r
                          | None =>
                              <["User-Agent" :=
                                  "Nylas Node SDK v" +:+ SDK_VERSION cfg]>
                                (r_headers r)
                          end))
                | None =>
                    delete "X-Nylas-Client-Id"
                      (<["Nylas-SDK-API-Version" := SUPPORTED_API_VERSION]>
                         (match r_headers r !! "User-Agent" with
                          | Some _ => r_headers r
                          | None =>
                              <["User-Agent" :=
                                  "Nylas Node SDK v" +:+ SDK_VERSION cfg]>
                                (r_headers r)
                          end))
                end
                = r_headers r).
  { destruct H4 as [ua Hua]. rewrite Hua.
    apply map_eq. intros k.
    destruct (decide (k = "X-Nylas-Client-Id")) as [->|Hk1].
    - rewrite H2. destruct (clientId conn);
        [apply lookup_insert_eq | apply lookup_delete_eq].
    - assert (Hx : match clientId conn with
                   | Some c =>
                       <["X-Nylas-Client-Id" := c]>
                         (<["Nylas-SDK-API-Version" := SUPPORTED_API_VERSION]>
                            (r_headers r))
                   | None =>
                       delete "X-Nylas-Client-Id"
                         (<["Nylas-SDK-API-Version" := SUPPORTED_API_VERSION]>
                            (r_headers r))
                   end !! k
                   = <["Nylas-SDK-API-Version" := SUPPORTED_API_VERSION]>
                       (r_headers r) !! k).
      { destruct (clientId conn);
          [apply lookup_insert_ne | apply lookup_delete_ne]; congruence. }
      rewrite Hx.
      destruct (decide (k = "Nylas-SDK-API-Version")) as [->|Hk2].
      + rewrite lookup_insert_eq, H1. reflexivity.
      + rewrite lookup_insert_ne by congruence. reflexivity. }
  match goal with |- ?lhs = _ =>
    change lhs with
      {| r_method := default "GET" (NylasConnection.nonempty (Some (r_method r)));
         r_path := r_path r;
         r_url := match String.eqb (r_path r) "",
                        NylasConnection.nonempty (Some (r_url r)) with
                  | false, None => apiServer cfg +:+ r_path r
                  | _, u => default "" u
                  end;
         r_qs := NylasConnection.rewrite_expanded <$> r_qs r;
         r_body := match r_formData r with
                   | Some f =>
                       if truthy f then r_body r
                       else Some (or_else (default VUndefined (r_body r))
                                          (VObj ∅))
                   | None =>
                       Some (or_else (default VUndefined (r_body r)) (VObj ∅))
                   end;
         r_formData := r_formData r;
         r_json := default true (Some (r_json r));
         r_downloadRequest := r_downloadRequest r;
         r_auth := NylasConnection.nonempty
                     (if String.eqb (substring 0 3 (r_path r)) "/a/"
                      then clientSecret cfg else accessToken conn);
         r_headers :=
           match clientId conn with
           | Some c =>
               <["X-Nylas-Client-Id" := c]>
                 (<["Nylas-SDK-API-Version" := SUPPORTED_API_VERSION]>
                    (match r_headers r !! "User-Agent" with
                     | Some _ => r_headers r
                     | None =>
                         <["User-Agent" :=
                             "Nylas Node SDK v" +:+ SDK_VERSION cfg]>
                           (r_headers r)
                     end))
           | None =>
               delete "X-Nylas-Client-Id"
                 (<["Nylas-SDK-API-Version" := SUPPORTED_API_VERSION]>
                    (match r_headers r !! "User-Agent" with
                     | Some _ => r_headers r
                     | None =>
                         <["User-Agent" :=
                             "Nylas Node SDK v" +:+ SDK_VERSION cfg]>
                           (r_headers r)
                     end))
           end |}
  end.
  rewrite Hm, Hu, Hq, Hb, Hhs. cbn [default from_option].
  reflexivity.
Qed.

(** ** The start and the end of an event *)

Lemma ensure_when_plain this :
  when_plain this = true ->
  exists o, Event.ensure_when this !! "when" = Some (VObj o)
            /\ (forall k, k <> "when" -> Event.ensure_when this !! k = this !! k)
            /\ (forall key, get_prop (VObj o) key = Event.when_prop this key).
Proof.
  unfold when_plain, Event.ensure_when, Event.when_prop.
  destruct (this !! "when") as [[]|] eqn:E; try discriminate; intros _;
    cbn [default truthy].
  all: try (exists ∅; split;
            [apply lookup_insert_eq
            | split; [intros k Hk; apply lookup_insert_ne; congruence
                     | reflexivity]]).
  exists props. split; [exact E | split; [reflexivity | reflexivity]].
Qed.

Lemma when_prop_insert this w key :
  Event.when_prop (<["when" := w]> this) key = get_prop w key.
Proof. unfold Event.when_prop. rewrite lookup_insert_eq. reflexivity. Qed.

Lemma ensure_when_set this w :
  Event.ensure_when (<["when" := VObj w]> this) = <["when" := VObj w]> this.
Proof. unfold Event.ensure_when. rewrite lookup_insert_eq. reflexivity. Qed.

Lemma or_chain v :
  or_else (or_else (or_else v VUndefined) VUndefined) VUndefined
    = (if truthy v then v else VUndefined)
  /\ or_else (or_else (or_else VUndefined v) VUndefined) VUndefined
      = (if truthy v then v else VUndefined)
  /\ or_else (or_else (or_else VUndefined VUndefined) v) VUndefined
      = (if truthy v then v else VUndefined)
  /\ or_else (or_else (or_else VUndefined VUndefined) VUndefined) v = v.
Proof.
  unfold or_else. cbn [truthy].
  destruct (truthy v) eqn:E; cbn [truthy]; rewrite ?E; repeat split; reflexivity.
Qed.

Ltac when_keys :=
  repeat first
    [ rewrite lookup_insert_eq
    | rewrite lookup_insert_ne by discriminate
    | rewrite lookup_delete_eq
    | rewrite lookup_delete_ne by discriminate
    | rewrite lookup_singleton_eq
    | rewrite lookup_singleton_ne by discriminate
    | rewrite lookup_empty ];
  cbn [default from_option id].

(** On an event whose [when] is absent, null or a plain object,
    assigning a number or a string to [start] goes through without
    throwing and [start] then reads that value back, provided the value
    is truthy; a falsy value (0, NaN, the empty string) is stored but
    reads back as something falsy.  No field of the event other than
    [when] changes.  The same holds of [end]. *)
Theorem event_set_then_get :
  forall this val,
    when_plain this = true ->
    (exists n, val = VNum n) \/ (exists s, val = VStr s) ->
    (exists this',
       Event.set_start this val = Some (Normal this')
       /\ (if truthy val then Event.start this' = val
           else truthy (Event.start this') = false)
       /\ forall k, k <> "when" -> this' !! k = this !! k)
    /\ (exists this',
          Event.set_end this val = Some (Normal this')
          /\ (if truthy val then Event.end_ this' = val
              else truthy (Event.end_ this') = false)
          /\ forall k, k <> "when" -> this' !! k = this !! k).
Proof.
  intros this val Hp Hval.
  destruct (ensure_when_plain this Hp) as (o & Hw & Hframe & _).
  assert (Hfr : forall w k, k <> "when" ->
                  <["when" := w]> (Event.ensure_when this) !! k = this !! k).
  { intros w k Hk. rewrite lookup_insert_ne by congruence. apply Hframe, Hk. }
  destruct (or_chain val) as (C1 & C2 & C3 & C4).
  assert (Hread : forall r,
            r = (if truthy val then val else VUndefined) \/ r = val ->
            if truthy val then r = val else truthy r = false).
  { intros r [-> | ->]; destruct (truthy val) eqn:E; try reflexivity; exact E. }
  split.
  - unfold Event.set_start, Event.retime. cbv zeta. rewrite Hw. cbn [default].
    destruct Hval as [[n ->]|[s ->]]; destruct (Event.same _ _);
      (eexists; split; [reflexivity|]; split; [|intros k Hk; apply Hfr, Hk]);
      apply Hread; unfold Event.start; rewrite !when_prop_insert;
      cbn [get_prop]; when_keys;
      first [left; exact C1 | left; exact C2 | left; exact C3 | right; exact C4].
  - unfold Event.set_end, Event.retime. cbv zeta. rewrite Hw. cbn [default].
    destruct Hval as [[n ->]|[s ->]]; destruct (Event.same _ _);
      (eexists; split; [reflexivity|]; split; [|intros k Hk; apply Hfr, Hk]);
      apply Hread; unfold Event.end_; rewrite !when_prop_insert;
      cbn [get_prop]; when_keys;
      first [left; exact C1 | left; exact C2 | left; exact C3 | right; exact C4].
Qed.

(** The theorem on an event without a [when]: a start date is read
    back. *)
Lemma event_set_then_get_witness :
  exists this',
    Event.set_start ∅ (VStr "2021-05-01") = Some (Normal this')
    /\ Event.start this' = VStr "2021-05-01".
Proof.
  assert (Hp : when_plain ∅ = true) by (vm_compute; reflexivity).
  destruct (proj1 (event_set_then_get ∅ (VStr "2021-05-01") Hp
                     (or_intror (ex_intro _ "2021-05-01"%string eq_refl))))
    as (this' & H1 & H2 & _).
  exists this'. split; [exact H1 | exact H2].
Defined.

(** An event given the same value as its start and as its end, in
    either order, is a point in time: [when] is then exactly
    [{ time: val }] for a number and [{ date: val }] for a string.  This
    needs the value to equal itself (it is not NaN) and the event not to
    have it already as the bound assigned second. *)
Theorem event_same_start_and_end :
  forall this val,
    when_plain this = true ->
    (exists n, val = VNum n) \/ (exists s, val = VStr s) ->
    Event.same val val = true ->
    (Event.same val (Event.when_prop this (end_key val)) = false ->
     exists this1 this2,
       Event.set_start this val = Some (Normal this1)
       /\ Event.set_end this1 val = Some (Normal this2)
       /\ this2 !! "when" = Some (VObj {[point_key val := val]}))
    /\ (Event.same val (Event.when_prop this (start_key val)) = false ->
        exists this1 this2,
          Event.set_end this val = Some (Normal this1)
          /\ Event.set_start this1 val = Some (Normal this2)
          /\ this2 !! "when" = Some (VObj {[point_key val := val]})).
Proof.
  intros this val Hp Hval Hrefl.
  destruct (ensure_when_plain this Hp) as (o & Hw & _ & Hprop).
  split; intros Hne.
  - unfold Event.set_start at 1. unfold Event.retime. cbv zeta.
    rewrite Hw. cbn [default].
    destruct Hval as [[n ->]|[s ->]]; cbn [end_key point_key] in *;
      rewrite Hprop, Hne; do 2 eexists; (split; [reflexivity|]);
      unfold Event.set_end; cbv zeta; rewrite ensure_when_set;
      (split; [|apply lookup_insert_eq]);
      rewrite lookup_insert_eq; cbn [default from_option id get_prop]; when_keys;
      rewrite Hrefl; reflexivity.
  - unfold Event.set_end at 1. unfold Event.retime. cbv zeta.
    rewrite Hw. cbn [default].
    destruct Hval as [[n ->]|[s ->]]; cbn [start_key point_key] in *;
      rewrite Hprop, Hne; do 2 eexists; (split; [reflexivity|]);
      unfold Event.set_start; cbv zeta; rewrite ensure_when_set;
      (split; [|apply lookup_insert_eq]);
      rewrite lookup_insert_eq; cbn [default from_option id get_prop]; when_keys;
      rewrite Hrefl; reflexivity.
Qed.

(** The theorem on a new event that starts and ends at the same
    second. *)
Lemma event_same_start_and_end_witness :
  exists this1 this2,
    Event.set_start ∅ (VNum (num 1600000000)) = Some (Normal this1)
    /\ Event.set_end this1 (VNum (num 1600000000)) = Some (Normal this2)
    /\ this2 !! "when" = Some (VObj {["time" := VNum (num 1600000000)]}).
Proof.
  assert (Hp : when_plain ∅ = true) by (vm_compute; reflexivity).
  assert (Hr : Event.same (VNum (num 1600000000)) (VNum (num 1600000000)) = true)
    by (vm_compute; reflexivity).
  assert (Hn : Event.same (VNum (num 1600000000))
                 (Event.when_prop ∅ (end_key (VNum (num 1600000000)))) = false)
    by (vm_compute; reflexivity).
  exact (proj1 (event_same_start_and_end ∅ (VNum (num 1600000000)) Hp
                  (or_introl (ex_intro _ (num 1600000000) eq_refl)) Hr)
               Hn).
Defined.

(** Assigning [start] does not disturb an end that is held under
    [end_time] or [end_date]: when one of these is truthy and the new
    start is not strictly equal to the bound of its own kind, [end]
    reads the same before and after.  Likewise for assigning [end] and
    reading [start]. *)
Theorem event_start_keeps_end :
  forall this val,
    when_plain this = true ->
    (exists n, val = VNum n) \/ (exists s, val = VStr s) ->
    (truthy (or_else (Event.when_prop this "end_time")
                     (Event.when_prop this "end_date")) = true ->
     Event.same val (Event.when_prop this (end_key val)) = false ->
     exists this',
       Event.set_start this val = Some (Normal this')
       /\ Event.end_ this' = Event.end_ this)
    /\ (truthy (or_else (Event.when_prop this "start_time")
                        (Event.when_prop this "start_date")) = true ->
        Event.same val (Event.when_prop this (start_key val)) = false ->
        exists this',
          Event.set_end this val = Some (Normal this')
          /\ Event.start this' = Event.start this).
Proof.
  intros this val Hp Hval.
  destruct (ensure_when_plain this Hp) as (o & Hw & _ & Hprop).
  assert (Hor : forall a b c d c' d',
            truthy (or_else a b) = true ->
            or_else (or_else (or_else a b) c) d
            = or_else (or_else (or_else a b) c') d').
  { intros a b c d c' d' H. unfold or_else at 2 5. rewrite H.
    unfold or_else at 1 3. rewrite H. reflexivity. }
  split; intros Ht Hne.
  - unfold Event.set_start, Event.retime. cbv zeta. rewrite Hw. cbn [default].
    destruct Hval as [[n ->]|[s ->]]; cbn [end_key] in *;
      rewrite Hprop, Hne; eexists; (split; [reflexivity|]);
      unfold Event.end_; rewrite !when_prop_insert; cbn [get_prop]; when_keys;
      rewrite <- !Hprop in *; cbn [get_prop] in *; apply Hor; exact Ht.
  - unfold Event.set_end, Event.retime. cbv zeta. rewrite Hw. cbn [default].
    destruct Hval as [[n ->]|[s ->]]; cbn [start_key] in *;
      rewrite Hprop, Hne; eexists; (split; [reflexivity|]);
      unfold Event.start; rewrite !when_prop_insert; cbn [get_prop]; when_keys;
      rewrite <- !Hprop in *; cbn [get_prop] in *; apply Hor; exact Ht.
Qed.

(** The theorem on an event that ends at second 200 and is given the
    start 100. *)
Lemma event_start_keeps_end_witness :
  exists this',
    Event.set_start {["when" := VObj {["end_time" := VNum (num 200)]}]}
                    (VNum (num 100)) = Some (Normal this')
    /\ Event.end_ this' = VNum (num 200).
Proof.
  set (this := {["when" := VObj {["end_time" := VNum (num 200)]}]}
               : gmap string value).
  assert (Hp : when_plain this = true) by (vm_compute; reflexivity).
  assert (Ht : truthy (or_else (Event.when_prop this "end_time")
                               (Event.when_prop this "end_date")) = true)
    by (vm_compute; reflexivity).
  assert (Hn : Event.same (VNum (num 100))
                 (Event.when_prop this (end_key (VNum (num 100)))) = false)
    by (vm_compute; reflexivity).
  destruct (proj1 (event_start_keeps_end this (VNum (num 100)) Hp
                     (or_introl (ex_intro _ (num 100) eq_refl))) Ht Hn)
    as (this' & H1 & H2).
  exists this'. split; [exact H1|]. rewrite H2. vm_compute. reflexivity.
Defined.

(** ** Equality of models *)






(** ** Serialising what was hydrated *)

Lemma string_fromJSON_str s p : AttributeString.fromJSON (VStr s) p = VStr s.
Proof.
  unfold AttributeString.fromJSON, or_else. cbn [truthy].
  destruct (String.eqb_spec s ""); [subst|]; reflexivity.
Qed.

Lemma object_fromJSON_truthy v p :
  truthy v = true -> Attribute.fromJSON v p = v.
Proof. intros H. unfold Attribute.fromJSON, or_else. rewrite H. reflexivity. Qed.

Lemma dateTime_fromJSON (t : Z) p :
  t <> 0 -> Z.abs (t * 1000) <= Date.maxTime ->
  AttributeDateTime.fromJSON (VNum (num t)) p = VDate (Some (t * 1000)).
Proof.
  intros Ht Hr. unfold AttributeDateTime.fromJSON.
  cbn [truthy num]. rewrite is_zero_num.
  destruct (Z.eqb_spec t 0); [contradiction|]. cbn [negb].
  cbn [to_number]. fold (num t).
  rewrite mul_num by (apply maxTime_small; exact Hr).
  unfold Date.of_number, Date.clip_number, num.
  rewrite trunc_num. unfold Date.TimeClip.
  destruct (Z.leb_spec (Z.abs (t * 1000)) Date.maxTime); [reflexivity|lia].
Qed.

Lemma hydrate_lookup conn (o : gmap string value) attrs this i n a :
  NoDup attrs.*1 -> attrs !! i = Some (n, a) ->
  fold_left (RestfulModel.hydrate_attr conn (VObj o)) attrs this !! n
  = match o !! jsonKey a with
    | None | Some VUndefined => this !! n
    | Some v =>
        Some (fromJSON_of a v
                (conn, fold_left (RestfulModel.hydrate_attr conn (VObj o))
                                 (take i attrs) this))
    end.
Proof.
  intros Hnd Hi.
  rewrite (hydrate_at conn (VObj o) attrs this i n a Hnd Hi).
  pose proof (hydrate_before conn (VObj o) attrs this i n a Hnd Hi) as Hb.
  rewrite hydrate_attr_obj.
  destruct (o !! jsonKey a) as [v|]; [|exact Hb].
  destruct v; rewrite ?Hb, ?lookup_insert_eq; reflexivity.
Qed.

Section Serialise.
Variable conn : NylasConnection.
Variable o : gmap string value.

(** What the attribute [a] holds in a model built from [o]: nothing when
    [o] lacks its key, else [a.fromJSON] of the wire value. *)
Let held (a : Attribute) (before : gmap string value) : value :=
  match o !! jsonKey a with
  | None | Some VUndefined => VUndefined
  | Some v => fromJSON_of a v (conn, before)
  end.

Lemma new_fields attrs :
  RestfulModel.new attrs conn (VObj o)
  = fold_left (RestfulModel.hydrate_attr conn (VObj o)) attrs ∅.
Proof.
  unfold RestfulModel.new, RestfulModel.fromJSON. destruct attrs; reflexivity.
Qed.

Lemma new_lookup attrs i n a :
  NoDup attrs.*1 -> attrs !! i = Some (n, a) ->
  default VUndefined (RestfulModel.new attrs conn (VObj o) !! n)
  = held a (fold_left (RestfulModel.hydrate_attr conn (VObj o))
                      (take i attrs) ∅).
Proof.
  intros Hnd Hi. rewrite new_fields.
  rewrite (hydrate_lookup conn o attrs ∅ i n a Hnd Hi). unfold held.
  destruct (o !! jsonKey a) as [v|]; [|reflexivity].
  destruct v; reflexivity.
Qed.

(** [toJSON] when no attribute throws: the serialised values are
    inserted under the wire keys in declaration order. *)
Lemma toJSON_fold (this : gmap string value) attrs ws acc :
  Forall2 (fun (e : string * Attribute) w =>
             toJSON_of e.2 (default VUndefined (this !! e.1)) = Normal w)
          attrs ws ->
  fold_left
    (fun (acc : completion (gmap string value)) (entry : string * Attribute) =>
       match acc with
       | Throw e => Throw e
       | Normal json =>
           match toJSON_of entry.2 (default VUndefined (this !! entry.1)) with
           | Normal v => Normal (<[jsonKey entry.2 := v]> json)
           | Throw e => Throw e
           end
       end) attrs (Normal acc)
  = Normal (fold_left (fun m (ew : string * Attribute * value) =>
                         <[jsonKey ew.1.2 := ew.2]> m) (zip attrs ws) acc).
Proof.
  intros H. revert acc. induction H as [|e w attrs ws He _ IH]; intros acc.
  - reflexivity.
  - cbn [fold_left zip zip_with]. rewrite He. apply IH.
Qed.

(** Once an attribute has thrown, so does [toJSON]. *)
Lemma toJSON_fold_throw (this : gmap string value) attrs e :
  fold_left
    (fun (acc : completion (gmap string value)) (entry : string * Attribute) =>
       match acc with
       | Throw e => Throw e
       | Normal json =>
           match toJSON_of entry.2 (default VUndefined (this !! entry.1)) with
           | Normal v => Normal (<[jsonKey entry.2 := v]> json)
           | Throw e => Throw e
           end
       end) attrs (Throw e)
  = Throw e.
Proof. induction attrs as [|a attrs IH]; [reflexivity | exact IH]. Qed.

(** [toJSON] of a model freshly built from [o], attribute by
    attribute. *)
Lemma toJSON_new name attrs ws :
  NoDup attrs.*1 ->
  (forall i n a w, attrs !! i = Some (n, a) -> ws !! i = Some w ->
     forall before, toJSON_of a (held a before) = Normal w) ->
  length ws = length attrs ->
  RestfulModel.toJSON name attrs (RestfulModel.new attrs conn (VObj o))
  = Normal (VObj (<["object" := VStr (toLowerCase name)]>
                    (fold_left (fun m (ew : string * Attribute * value) =>
                                  <[jsonKey ew.1.2 := ew.2]> m)
                               (zip attrs ws) ∅))).
Proof.
  intros Hnd Hws Hlen. unfold RestfulModel.toJSON.
  rewrite (toJSON_fold _ attrs ws ∅); [reflexivity|].
  apply Forall2_same_length_lookup_2; [symmetry; exact Hlen|].
  intros i [n a] w Hi Hw. cbn [fst snd].
  rewrite (new_lookup attrs i n a Hnd Hi). eapply Hws; eassumption.
Qed.
End Serialise.

Ltac wire_lookup :=
  match goal with |- context [?m !! ?k] =>
    let r := eval vm_compute in (m !! k) in change (m !! k) with r
  end; cbv iota.

Ltac wire_lookups := repeat wire_lookup.

(** A calendar as the wire has it (all ten keys, strings and booleans,
    [object] being "calendar") is serialised, once hydrated, to the very
    same object: [toJSON] undoes the constructor. *)
Theorem calendar_wire_round_trip :
  forall conn id account_id name description location timezone job_status_id
         read_only is_primary,
    let wire := calendar_wire id account_id name description location
                  timezone job_status_id read_only is_primary in
    toJSON_m Calendar.class
      (RestfulModel.new Calendar.attributes conn (VObj wire))
    = Normal (VObj wire).
Proof.
  intros. subst wire. unfold calendar_wire.
  change (toJSON_m Calendar.class)
    with (RestfulModel.toJSON "Calendar" Calendar.attributes).
  assert (Hnd : NoDup Calendar.attributes.*1)
    by (apply (bool_decide_unpack _); vm_compute; exact I).
  rewrite (toJSON_new conn _ "Calendar" Calendar.attributes
             [VStr id; VStr "calendar"; VStr account_id; VStr name;
              VStr description; VBool read_only; VStr location; VStr timezone;
              VBool is_primary; VStr job_status_id] Hnd).
  - vm_compute. reflexivity.
  - intros i n a w Hi Hw before.
    do 10 (destruct i as [|i];
           [ cbn in Hi, Hw; inversion Hi; inversion Hw; subst n a w;
             clear Hi Hw; wire_lookup;
             first [ apply (f_equal Normal), string_fromJSON_str
                   | reflexivity ] |]).
    cbn in Hi. discriminate.
  - reflexivity.
Qed.

(** [connection.account.get()] against a server that answers 200 with
    an account object whose [linked_at] is a whole number [t] of epoch
    seconds, other than 0 and within the range of [Date]: one GET of
    [/account] is made, the promise resolves to a model whose
    [linkedAt] is the [Date] at [1000 t] milliseconds, and serialising
    that model gives the account object back. *)
Theorem account_get_round_trip :
  forall cfg conn hs params id account_id name email provider org sync
         billing t,
    t <> 0 -> Z.abs (t * 1000) <= Date.maxTime ->
    let wire := account_wire id account_id name email provider org sync
                  billing t in
    let p := RestfulModelInstance.get cfg (Server.constant 200 hs (VObj wire))
               Account.class conn params in
    exists f,
      p.1 = Resolved (VModel f)
      /\ requests p.2
         = [NylasConnection.requestOptions cfg conn
              (simple_options "GET" "/account" params None)]
      /\ f !! "emailAddress" = Some (VStr email)
      /\ f !! "linkedAt" = Some (VDate (Some (t * 1000)))
      /\ toJSON_m Account.class f = Normal (VObj wire).
Proof.
  intros cfg conn hs params id account_id name email provider org sync billing
         t Ht Hr wire p.
  exists (RestfulModel.new Account.attributes conn (VObj wire)).
  assert (Hnd : NoDup Account.attributes.*1)
    by (apply (bool_decide_unpack _); vm_compute; exact I).
  subst p. unfold RestfulModelInstance.get, RestfulModelInstance.path.
  change ("/" +:+ endpointName Account.class) with "/account".
  pose proof (request_constant_ok cfg conn hs (VObj wire) "GET" "/account"
                params None ltac:(discriminate)) as Hreq.
  pose proof (request_trace cfg (Server.constant 200 hs (VObj wire)) conn
                (simple_options "GET" "/account" params None)) as Htr.
  destruct (NylasConnection.request _ _ _ _) as [s evs].
  cbn [fst snd] in Hreq, Htr.
  subst s. cbn [then_ fst snd]. rewrite app_nil_r.
  split; [reflexivity | split; [exact Htr|]].
  split; [|split].
  - rewrite new_fields.
    rewrite (hydrate_lookup conn wire Account.attributes ∅ 4%nat _ _ Hnd eq_refl).
    subst wire. unfold account_wire. wire_lookup.
    f_equal. apply string_fromJSON_str.
  - rewrite new_fields.
    rewrite (hydrate_lookup conn wire Account.attributes ∅ 9%nat _ _ Hnd eq_refl).
    subst wire. unfold account_wire.
    remember (VNum (num t)) as v eqn:Hv. wire_lookup. subst v.
    f_equal. apply dateTime_fromJSON; assumption.
  - change (toJSON_m Account.class)
      with (RestfulModel.toJSON "Account" Account.attributes).
    subst wire. unfold account_wire.
    remember (VNum (num t)) as v eqn:Hv.
    rewrite (toJSON_new conn _ "Account" Account.attributes
               [VStr id; VStr "account"; VStr account_id; VStr name; VStr email;
                VStr provider; VStr org; VStr sync; VStr billing; v] Hnd).
    + vm_compute. reflexivity.
    + intros i n a w Hi Hw before.
      do 10 (destruct i as [|i];
             [ cbn in Hi, Hw; inversion Hi; inversion Hw; subst n a w;
               clear Hi Hw; wire_lookup;
               first [ apply (f_equal Normal), string_fromJSON_str
                     | subst v; apply dateTime_round_trip; assumption ] |]).
      cbn in Hi. discriminate.
    + reflexivity.
Qed.

(** The theorem on an account linked in the first second of 2020. *)
Lemma account_get_round_trip_witness :
  exists f,
    (RestfulModelInstance.get test_config
       (Server.constant 200 ∅
          (VObj (account_wire "a1" "a1" "Ann" "ann@example.com" "gmail" ""
                              "running" "paid" 1577836800)))
       Account.class test_connection no_params).1 = Resolved (VModel f)
    /\ f !! "linkedAt" = Some (VDate (Some 1577836800000)).
Proof.
  destruct (account_get_round_trip test_config test_connection ∅ no_params
              "a1" "a1" "Ann" "ann@example.com" "gmail" "" "running" "paid"
              1577836800 ltac:(discriminate) ltac:(vm_compute; discriminate))
    as (f & H1 & _ & _ & H2 & _).
  exists f. split; [exact H1 | exact H2].
Defined.

Lemma participant_toJSON conn name email status :
  EventParticipant.toJSON
    (RestfulModel.new EventParticipant.attributes conn
       (participant_wire name email status))
  = Normal (participant_wire (if String.eqb name "" then email else name)
                             email status).
Proof.
  unfold EventParticipant.toJSON, participant_wire.
  assert (Hnd : NoDup EventParticipant.attributes.*1)
    by (apply (bool_decide_unpack _); vm_compute; exact I).
  rewrite (toJSON_new conn _ "EventParticipant" EventParticipant.attributes
             [VStr name; VStr email; VStr status] Hnd).
  - cbv zeta. wire_lookup. cbn [default from_option id truthy].
    destruct (String.eqb name ""); cbn [negb]; vm_compute; reflexivity.
  - intros i n a w Hi Hw before.
    do 3 (destruct i as [|i];
          [ cbn in Hi, Hw; inversion Hi; inversion Hw; subst n a w;
            clear Hi Hw; wire_lookup;
            apply (f_equal Normal), string_fromJSON_str |]).
    cbn in Hi. discriminate.
  - reflexivity.
Qed.

Lemma collection_fold itemClass xs ys acc :
  Forall2 (fun x y => AttributeCollection.item_toJSON itemClass x = Normal y)
          xs ys ->
  fold_left
    (fun (acc : completion (list value)) (val : value) =>
       match acc with
       | Throw e => Throw e
       | Normal json =>
           match AttributeCollection.item_toJSON itemClass val with
           | Normal j => Normal (json ++ [j])
           | Throw e => Throw e
           end
       end) xs (Normal acc)
  = Normal (acc ++ ys).
Proof.
  intros H. revert acc. induction H as [|x y xs ys Hx _ IH]; intros acc.
  - rewrite app_nil_r. reflexivity.
  - cbn [fold_left]. rewrite Hx, IH, <- app_assoc. reflexivity.
Qed.

Lemma participants_serialised parent (ps : list (string * string * string)) :
  AttributeCollection.toJSON EventParticipant.class
    (AttributeCollection.fromJSON EventParticipant.class
       (VArr (map (fun p => participant_wire p.1.1 p.1.2 p.2) ps)) parent)
  = Normal (VArr (map (fun p =>
                         participant_wire
                           (if String.eqb p.1.1 "" then p.1.2 else p.1.1)
                           p.1.2 p.2) ps)).
Proof.
  unfold AttributeCollection.fromJSON, AttributeCollection.toJSON.
  cbn [truthy negb].
  rewrite (collection_fold EventParticipant.class _
             (map (fun p => participant_wire
                              (if String.eqb p.1.1 "" then p.1.2 else p.1.1)
                              p.1.2 p.2) ps) []).
  - reflexivity.
  - rewrite map_map. induction ps as [|[[n e] s] ps IH]; constructor; [|exact IH].
    apply participant_toJSON.
Qed.

(** The participants of an event, hydrated from a wire array of
    [{ name, email, status }] objects and serialised again, come back
    as an array of the same length and order, each participant with its
    email and status unchanged, with no [object] key, and with its name
    unchanged unless it is empty, in which case the email stands in for
    it. *)
Theorem participants_round_trip :
  forall parent (ps : list (string * string * string)),
    exists out,
      AttributeCollection.toJSON EventParticipant.class
        (AttributeCollection.fromJSON EventParticipant.class
           (VArr (map (fun p => participant_wire p.1.1 p.1.2 p.2) ps)) parent)
      = Normal (VArr out)
      /\ length out = length ps
      /\ forall i name email status,
           ps !! i = Some (name, email, status) ->
           out !! i
           = Some (participant_wire (if String.eqb name "" then email else name)
                                    email status)
           /\ get_prop (default VUndefined (out !! i)) "object" = VUndefined.
Proof.
  intros parent ps. eexists. split; [apply participants_serialised|].
  split; [apply length_map|].
  intros i name email status Hi.
  rewrite list_lookup_fmap, Hi. cbn [fmap option_fmap option_map fst snd].
  split; [reflexivity|].
  cbn [default from_option id]. unfold participant_wire.
  cbn [get_prop]. wire_lookup. reflexivity.
Qed.

(** An event as the wire has it (all seventeen keys, [object] being
    "event", participants that each have a name, and truthy [when] and
    [recurrence] values) is serialised, once hydrated, to the very same
    object. *)
Theorem event_wire_round_trip :
  forall conn id account_id calendar_id master_event_id ical_uid message_id
         title description owner location status read_only busy participants
         when recurrence,
    Forall (fun p : string * string * string => p.1.1 <> "") participants ->
    truthy when = true -> truthy recurrence = true ->
    let wire := event_wire id account_id calendar_id master_event_id ical_uid
                  message_id title description owner location status
                  read_only busy participants when recurrence in
    toJSON_m Event.class (RestfulModel.new Event.attributes conn (VObj wire))
    = Normal (VObj wire).
Proof.
  intros conn id account_id calendar_id master_event_id ical_uid message_id
         title description owner location status read_only busy participants
         when recurrence Hps Hw Hr wire.
  subst wire. unfold event_wire.
  change (toJSON_m Event.class)
    with (RestfulModel.toJSON "Event" Event.attributes).
  assert (Hnd : NoDup Event.attributes.*1)
    by (apply (bool_decide_unpack _); vm_compute; exact I).
  assert (Hsame : map (fun p : string * string * string =>
                         participant_wire
                           (if String.eqb p.1.1 "" then p.1.2 else p.1.1)
                           p.1.2 p.2) participants
                  = map (fun p => participant_wire p.1.1 p.1.2 p.2)
                        participants).
  { apply map_ext_Forall. eapply Forall_impl; [exact Hps|].
    intros [[n e] s] Hn. cbn [fst snd] in *.
    destruct (String.eqb_spec n ""); [contradiction | reflexivity]. }
  pose proof (fun parent => participants_serialised parent participants)
    as Hpart.
  rewrite Hsame in Hpart.
  remember (map (fun p => participant_wire p.1.1 p.1.2 p.2) participants)
    as items eqn:Hitems.
  clear Hitems Hsame Hps.
  rewrite (toJSON_new conn _ "Event" Event.attributes
             [VStr id; VStr "event"; VStr account_id; VStr calendar_id;
              VStr master_event_id; VStr ical_uid; VStr message_id; VStr title;
              VStr description; VStr owner; VArr items; VBool read_only;
              VStr location; when; VBool busy; VStr status; recurrence] Hnd).
  - clear. vm_compute. reflexivity.
  - intros i n a w Hi Hwi before.
    do 17 (destruct i as [|i];
           [ cbn in Hi, Hwi; inversion Hi; inversion Hwi; subst n a w;
             clear Hi Hwi; wire_lookup;
             first [ apply (f_equal Normal), string_fromJSON_str
                   | apply Hpart
                   | reflexivity
                   | destruct when; try discriminate Hw;
                     apply (f_equal Normal), object_fromJSON_truthy; exact Hw
                   | destruct recurrence; try discriminate Hr;
                     apply (f_equal Normal), object_fromJSON_truthy;
                     exact Hr ] |]).
    cbn in Hi. discriminate.
  - reflexivity.
Qed.

(** The theorem on an event with one participant and a point in time. *)
Lemma event_wire_round_trip_witness :
  toJSON_m Event.class
    (RestfulModel.new Event.attributes test_connection
       (VObj (event_wire "e1" "a1" "c1" "" "" "" "Lunch" "" "ann@example.com"
                         "" "confirmed" false true
                         [("Ann", "ann@example.com", "yes")]
                         (VObj {["time" := VNum (num 1600000000)]})
                         (VObj ∅))))
  = Normal (VObj (event_wire "e1" "a1" "c1" "" "" "" "Lunch" ""
                             "ann@example.com" "" "confirmed" false true
                             [("Ann", "ann@example.com", "yes")]
                             (VObj {["time" := VNum (num 1600000000)]})
                             (VObj ∅))).
Proof.
  apply (event_wire_round_trip test_connection "e1" "a1" "c1" "" "" "" "Lunch"
           "" "ann@example.com" "" "confirmed" false true
           [("Ann", "ann@example.com", "yes")]
           (VObj {["time" := VNum (num 1600000000)]}) (VObj ∅)).
  - constructor; [discriminate | constructor].
  - reflexivity.
  - reflexivity.
Defined.

(** Hydrating twice from the same wire object is the same as hydrating
    once, for every class whose attributes are named apart and read
    nothing of the instance being hydrated, as is the case of every
    attribute kind of the source. *)
Theorem fromJSON_idempotent :
  forall (attrs : list (string * Attribute)) conn (o this : gmap string value),
    NoDup attrs.*1 ->
    (forall n a, (n, a) ∈ attrs ->
       forall v f f', fromJSON_of a v (conn, f) = fromJSON_of a v (conn, f')) ->
    exists this',
      RestfulModel.fromJSON attrs conn (VObj o) this = Normal this'
      /\ RestfulModel.fromJSON attrs conn (VObj o) this' = Normal this'.
Proof.
  intros attrs conn o this Hnd Hpar.
  assert (Hfrom : forall s,
            RestfulModel.fromJSON attrs conn (VObj o) s
            = Normal (fold_left (RestfulModel.hydrate_attr conn (VObj o))
                                attrs s)).
  { intros s. unfold RestfulModel.fromJSON. destruct attrs; reflexivity. }
  eexists. split; [apply Hfrom|].
  rewrite Hfrom. f_equal. apply map_eq. intros k.
  destruct (decide (k ∈ attrs.*1)) as [Hin|Hout].
  - apply list_elem_of_fmap in Hin as ([n a] & -> & Hin). cbn [fst].
    pose proof Hin as Hin'.
    apply list_elem_of_lookup in Hin as [i Hi].
    rewrite (hydrate_lookup conn o attrs _ i n a Hnd Hi).
    destruct (o !! jsonKey a) as [v|] eqn:E; [|reflexivity].
    rewrite (hydrate_lookup conn o attrs this i n a Hnd Hi), E.
    destruct v; try reflexivity; f_equal; apply (Hpar n a Hin').
  - apply hydrate_other. exact Hout.
Qed.

Lemma source_attributes_ignore_fields conn :
  Forall (fun e : string * Attribute =>
            forall v f f',
              fromJSON_of e.2 v (conn, f) = fromJSON_of e.2 v (conn, f'))
         (Calendar.attributes ++ Event.attributes ++ Account.attributes).
Proof. repeat constructor. Qed.

(** The theorem on an event hydrated from a wire object that has a
    title only. *)
Lemma fromJSON_idempotent_witness :
  exists this',
    RestfulModel.fromJSON Event.attributes test_connection
      (VObj {["title" := VStr "Lunch"]}) ∅ = Normal this'
    /\ RestfulModel.fromJSON Event.attributes test_connection
         (VObj {["title" := VStr "Lunch"]}) this' = Normal this'.
Proof.
  apply (fromJSON_idempotent Event.attributes test_connection
           {["title" := VStr "Lunch"]} ∅).
  - apply (bool_decide_unpack _). vm_compute. exact I.
  - intros n a Hin.
    pose proof (source_attributes_ignore_fields test_connection) as H.
    rewrite !Forall_app in H. destruct H as (_ & H & _).
    rewrite Forall_forall in H. exact (H (n, a) Hin).
Defined.

(** ** Serialising for a request *)

Lemma calendar_body (this : gmap string value) :
  Calendar.saveRequestBody this
  = Normal (VObj (list_to_map
                    [("name", default VUndefined (this !! "name"));
                     ("description", default VUndefined (this !! "description"));
                     ("location", default VUndefined (this !! "location"));
                     ("timezone", default VUndefined (this !! "timezone"))])).
Proof.
  unfold Calendar.saveRequestBody, RestfulModel.toJSON.
  set (own := fun k : string => default VUndefined (this !! k)).
  rewrite (toJSON_fold this Calendar.attributes
             [own "id"; own "object"; own "accountId"; own "name";
              own "description"; own "readOnly"; own "location"; own "timezone";
              own "isPrimary"; own "jobStatusId"] ∅).
  - change (default VUndefined (this !! "name")) with (own "name").
    change (default VUndefined (this !! "description")) with (own "description").
    change (default VUndefined (this !! "location")) with (own "location").
    change (default VUndefined (this !! "timezone")) with (own "timezone").
    generalize (own "name"), (own "description"), (own "location"),
               (own "timezone"), (own "id"), (own "object"), (own "accountId"),
               (own "readOnly"), (own "isPrimary"), (own "jobStatusId").
    clear own. intros. vm_compute. reflexivity.
  - unfold Calendar.attributes, RestfulModel_attributes. cbn [app].
    repeat constructor.
Qed.

(** Saving a calendar never throws and issues exactly one request.  Its
    body holds the four writable fields and nothing else: [name],
    [description], [location] and [timezone], each as the instance has
    it ([undefined] when it has none); the id, the account id, the
    read-only and primary flags and the job status are not sent.  The
    request is a PUT to [/calendars/<id>] when the instance has a
    truthy id and a POST to [/calendars] otherwise. *)
Theorem calendar_save_request :
  forall cfg transport conn (this : gmap string value) params cb,
    let own (k : string) := default VUndefined (this !! k) in
    let body :=
      VObj (list_to_map [("name", own "name");
                         ("description", own "description");
                         ("location", own "location");
                         ("timezone", own "timezone")]) in
    Calendar.saveRequestBody this = Normal body
    /\ exists p this',
         Calendar.save cfg transport conn this (ArgObj params) cb
         = Normal (p, this')
         /\ requests p.2
            = [NylasConnection.requestOptions cfg conn
                 (simple_options (if truthy (own "id") then "PUT" else "POST")
                    (if truthy (own "id")
                     then "/calendars/" +:+ show (own "id")
                     else "/calendars")
                    params (Some body))].
Proof.
  intros cfg transport conn this params cb own body.
  split; [apply calendar_body|].
  unfold Calendar.save, RestfulModel._save.
  cbn [cls fields connection saveRequestBody_m Calendar.class].
  rewrite calendar_body. fold own. fold body.
  change (RestfulModel.saveEndpoint Calendar.class) with "/calendars".
  change ("/calendars" +:+ "/" +:+ show (own "id"))
    with ("/calendars/" +:+ show (own "id")).
  match goal with |- context [NylasConnection.request ?a ?b ?c ?d] =>
    pose proof (request_trace a b c d) as Htr;
    destruct (NylasConnection.request a b c d) as [s evs]
  end.
  cbn [snd] in Htr.
  destruct s as [json| err | err].
  - destruct (RestfulModel.fromJSON _ _ _ _);
      do 2 eexists; (split; [reflexivity|]); cbn [snd];
      rewrite requests_app, requests_call, app_nil_r; exact Htr.
  - do 2 eexists. split; [reflexivity|]. cbn [snd].
    rewrite requests_app, requests_call, app_nil_r. exact Htr.
  - do 2 eexists. split; [reflexivity|]. exact Htr.
Qed.

(** [toJSON] of an account throws exactly when [linkedAt] holds
    something truthy that is not a [Date]; the error is the one
    [AttributeDateTime] makes, whose message names the field and ends
    with the text of the value, for every value whose text the model
    has.  Otherwise [toJSON] returns an object whose [object] is
    "account" and whose [linked_at] is null for a falsy [linkedAt] and
    the time in seconds, the milliseconds divided by 1000, for a valid
    [Date]. *)
Theorem account_toJSON_needs_a_date :
  forall this : gmap string value,
    let linkedAt := default VUndefined (this !! "linkedAt") in
    let is_date := match linkedAt with VDate _ => true | _ => false end in
    if truthy linkedAt && negb is_date
    then exists e,
           toJSON_m Account.class this = Throw e
           /\ statusCode e = None
           /\ forall text,
                to_string linkedAt = Some text ->
                message e
                = "Attempting to toJSON AttributeDateTime which is not a date:
          linkedAt
        = " +:+ text
    else exists json,
           toJSON_m Account.class this = Normal (VObj json)
           /\ json !! "object" = Some (VStr "account")
           /\ (truthy linkedAt = false -> json !! "linked_at" = Some VNull)
           /\ (forall t, linkedAt = VDate (Some t) ->
                 json !! "linked_at" = Some (VNum (div (num t) (num 1000)))).
Proof.
  intros this linkedAt is_date.
  change (toJSON_m Account.class this)
    with (RestfulModel.toJSON "Account" Account.attributes this).
  unfold RestfulModel.toJSON.
  change Account.attributes
    with ((RestfulModel_attributes
            ++ [("name", Attributes.String (args "name"));
                ("emailAddress",
                 Attributes.String (args2 "emailAddress" "email_address"));
                ("provider", Attributes.String (args "provider"));
                ("organizationUnit",
                 Attributes.String (args2 "organizationUnit" "organization_unit"));
                ("syncState", Attributes.String (args2 "syncState" "sync_state"));
                ("billingState",
                 Attributes.String (args2 "billingState" "billing_state"))])
            ++ [("linkedAt", Attributes.DateTime (args2 "linkedAt" "linked_at"))]).
  rewrite fold_left_app.
  set (own := fun k : string => default VUndefined (this !! k)).
  rewrite (toJSON_fold this _
             [own "id"; own "object"; own "accountId"; own "name";
              own "emailAddress"; own "provider"; own "organizationUnit";
              own "syncState"; own "billingState"] ∅)
    by (unfold RestfulModel_attributes; cbn [app]; repeat constructor).
  cbn [fold_left fst snd].
  change (toJSON_of (Attributes.DateTime (args2 "linkedAt" "linked_at")))
    with (AttributeDateTime.toJSON "linkedAt").
  change (jsonKey (Attributes.DateTime (args2 "linkedAt" "linked_at")))
    with "linked_at".
  fold linkedAt. unfold AttributeDateTime.toJSON.
  assert (Hobj : forall (m : gmap string value) w,
            <["object" := VStr (toLowerCase "Account")]> (<["linked_at" := w]> m)
              !! "object" = Some (VStr "account")
            /\ <["object" := VStr (toLowerCase "Account")]> (<["linked_at" := w]> m)
                 !! "linked_at" = Some w).
  { intros m w. split; [apply lookup_insert_eq|].
    rewrite lookup_insert_ne by discriminate. apply lookup_insert_eq. }
  assert (Hthrow : exists e,
            Throw (A := value) (AttributeDateTime.not_a_date "linkedAt" linkedAt)
              = Throw e
            /\ statusCode e = None
            /\ forall text,
                 to_string linkedAt = Some text ->
                 message e
                 = "Attempting to toJSON AttributeDateTime which is not a date:
          linkedAt
        = " +:+ text).
  { eexists. split; [reflexivity|]. split; [reflexivity|].
    intros text Ht. unfold AttributeDateTime.not_a_date, show.
    rewrite Ht. reflexivity. }
  subst is_date.
  destruct (truthy linkedAt) eqn:Et; cbn [negb andb].
  - destruct linkedAt as [| |b|n|s|l|m|[t|]|m] eqn:E; cbn [negb];
      try (destruct Hthrow as (e & He & Hs & Hm); exists e;
           split; [rewrite <- He; reflexivity | split; assumption]);
      (eexists; split; [reflexivity|]; split; [apply Hobj|];
       split; [discriminate|]; intros t' Ht'; inversion Ht'; subst; apply Hobj).
  - eexists. split; [reflexivity|]. split; [apply Hobj|].
    split; [intros _; apply Hobj|].
    intros t Ht. rewrite Ht in Et. discriminate.
Qed.

Lemma collection_throw_stays itemClass xs e :
  fold_left
    (fun (acc : completion (list value)) (val : value) =>
       match acc with
       | Throw e => Throw e
       | Normal json =>
           match AttributeCollection.item_toJSON itemClass val with
           | Normal j => Normal (json ++ [j])
           | Throw e => Throw e
           end
       end) xs (Throw e)
  = Throw e.
Proof. induction xs as [|x xs IH]; [reflexivity | exact IH]. Qed.

(** Serialising a collection throws as soon as one element does. *)
Lemma collection_throws itemClass xs x acc :
  x ∈ xs ->
  (exists e, AttributeCollection.item_toJSON itemClass x = Throw e) ->
  exists e,
    fold_left
      (fun (acc : completion (list value)) (val : value) =>
         match acc with
         | Throw e => Throw e
         | Normal json =>
             match AttributeCollection.item_toJSON itemClass val with
             | Normal j => Normal (json ++ [j])
             | Throw e => Throw e
             end
         end) xs (Normal acc)
    = Throw e.
Proof.
  intros Hin [ex Hx]. revert acc.
  induction xs as [|y xs IH]; intros acc; [inversion Hin|].
  cbn [fold_left].
  destruct (AttributeCollection.item_toJSON itemClass y) as [j|e] eqn:Ey.
  - apply elem_of_cons in Hin as [->|Hin]; [congruence|].
    apply IH. exact Hin.
  - exists e. apply collection_throw_stays.
Qed.

Lemma event_save_propagates cfg transport conn (this : gmap string value)
    params cb e :
  AttributeCollection.toJSON EventParticipant.class
    (default VUndefined (this !! "participants")) = Throw e ->
  Event.save cfg transport conn this params cb = Throw e.
Proof.
  intros He.
  assert (Hbody : RestfulModel.toJSON "Event" Event.attributes this = Throw e).
  { unfold RestfulModel.toJSON.
    change Event.attributes
      with ((RestfulModel_attributes ++
             [("calendarId", Attributes.String (args2 "calendarId" "calendar_id"));
              ("masterEventId",
               Attributes.String (args2 "masterEventId" "master_event_id"));
              ("iCalUID", Attributes.String (args2 "iCalUID" "ical_uid"));
              ("messageId", Attributes.String (args2 "messageId" "message_id"));
              ("title", Attributes.String (args "title"));
              ("description", Attributes.String (args "description"));
              ("owner", Attributes.String (args "owner"))])
            ++ ("participants",
                Attributes.Collection (args "participants") EventParticipant.class)
            :: [("readOnly", Attributes.Boolean (args2 "readOnly" "read_only"));
                ("location", Attributes.String (args "location"));
                ("when", Attributes.Object (args "when"));
                ("busy", Attributes.Boolean (args "busy"));
                ("status", Attributes.String (args "status"));
                ("recurrence", Attributes.Object (args "recurrence"))]).
    rewrite fold_left_app.
    set (own := fun k : string => default VUndefined (this !! k)).
    rewrite (toJSON_fold this _
               [own "id"; own "object"; own "accountId"; own "calendarId";
                own "masterEventId"; own "iCalUID"; own "messageId"; own "title";
                own "description"; own "owner"] ∅)
      by (unfold RestfulModel_attributes; cbn [app]; repeat constructor).
    cbn [fold_left fst snd].
    change (toJSON_of (Attributes.Collection (args "participants")
                                             EventParticipant.class))
      with (AttributeCollection.toJSON EventParticipant.class).
    rewrite He. reflexivity. }
  unfold Event.save, RestfulModel._save.
  cbn [cls fields saveRequestBody_m Event.class].
  rewrite Hbody. destruct params; reflexivity.
Qed.

(** [save] of an event throws at once, before any request is made and
    without a promise or a callback call, whenever serialising its
    participants throws.  That is so when [participants] is truthy but
    not iterable, with the TypeError of [for ... of]; and when it is an
    array with a [null] or [undefined] element, with the TypeError of
    reading [toJSON] off that element if every element before it can be
    serialised, and with the error of the first element that cannot
    otherwise. *)
Theorem event_save_throws_at_once :
  forall cfg transport conn (this : gmap string value) params cb,
    let participants := default VUndefined (this !! "participants") in
    let saved := Event.save cfg transport conn this params cb in
    (truthy participants = true -> iterate participants = None ->
     saved = Throw AttributeCollection.not_iterable)
    /\ (forall items x,
          participants = VArr items -> x ∈ items ->
          x = VNull \/ x = VUndefined ->
          exists e, saved = Throw e)
    /\ (forall pre x post,
          participants = VArr (pre ++ x :: post) ->
          x = VNull \/ x = VUndefined ->
          Forall (fun v => exists j,
                    AttributeCollection.item_toJSON EventParticipant.class v
                    = Normal j) pre ->
          saved = Throw (AttributeCollection.no_toJSON x))
    /\ (forall e,
          AttributeCollection.toJSON EventParticipant.class participants
            = Throw e ->
          saved = Throw e).
Proof.
  intros cfg transport conn this params cb participants saved.
  assert (Hnull : forall x, x = VNull \/ x = VUndefined ->
            AttributeCollection.item_toJSON EventParticipant.class x
            = Throw (AttributeCollection.no_toJSON x))
    by (intros x [->| ->]; reflexivity).
  split; [|split; [|split]].
  - intros Ht Hi. apply event_save_propagates. fold participants.
    unfold AttributeCollection.toJSON. rewrite Ht. cbn [negb].
    destruct participants; try discriminate Hi; reflexivity.
  - intros items x Hp Hin Hx.
    destruct (collection_throws EventParticipant.class items x [] Hin
                (ex_intro _ _ (Hnull x Hx))) as [e He].
    exists e. apply event_save_propagates. fold participants. rewrite Hp.
    unfold AttributeCollection.toJSON. cbn [truthy negb]. rewrite He.
    reflexivity.
  - intros pre x post Hp Hx Hpre.
    apply event_save_propagates. fold participants. rewrite Hp.
    unfold AttributeCollection.toJSON. cbn [truthy negb].
    assert (Hys : exists ys,
              Forall2 (fun a b =>
                         AttributeCollection.item_toJSON EventParticipant.class a
                         = Normal b) pre ys).
    { clear Hp. induction Hpre as [|a pre [j Hj] _ [ys IH]].
      - exists []. constructor.
      - exists (j :: ys). constructor; assumption. }
    destruct Hys as [ys Hys].
    rewrite fold_left_app, (collection_fold _ _ ys [] Hys).
    cbn [fold_left]. rewrite (Hnull x Hx), collection_throw_stays. reflexivity.
  - intros e He. apply event_save_propagates. exact He.
Qed.

(** The theorem on an event whose participants are the number 5, and on
    one whose second participant is [null]. *)
Lemma event_save_throws_at_once_witness :
  Event.save test_config (Server.unreachable None) test_connection
    {["participants" := VNum (num 5)]} ArgNone (Some (fun _ _ => VUndefined))
  = Throw AttributeCollection.not_iterable
  /\ Event.save test_config (Server.unreachable None) test_connection
       {["participants" := VArr [VStr "ann@example.com"; VNull]]} ArgNone None
     = Throw (AttributeCollection.no_toJSON VNull).
Proof.
  split.
  - apply (proj1 (event_save_throws_at_once test_config (Server.unreachable None)
                    test_connection {["participants" := VNum (num 5)]} ArgNone
                    (Some (fun _ _ => VUndefined))));
      vm_compute; reflexivity.
  - apply (proj1 (proj2 (proj2 (event_save_throws_at_once test_config
                    (Server.unreachable None) test_connection
                    {["participants" := VArr [VStr "ann@example.com"; VNull]]}
                    ArgNone None)))
                 [VStr "ann@example.com"] VNull []).
    + vm_compute. reflexivity.
    + left. reflexivity.
    + constructor; [eexists; reflexivity | constructor].
Defined.

(** ** Operations that make one request *)

(** [first] asks for one item from offset 0 whatever offset and limit
    the caller's params hold.  Against a server that pages through
    [items] it resolves to the first item as delivered (a model, or the
    raw id under the ids view), and to [undefined] when there is none;
    the callback, if any, is called once with no error and the same
    value. *)
Theorem first_asks_for_one_item :
  forall cfg modelClass connection items params cb,
    RestfulModelCollection.view_is params "count" = false ->
    let p := RestfulModelCollection.first cfg (Server.paged items) modelClass
               connection params cb in
    let found := match items with
                 | x :: _ => delivered modelClass connection params x
                 | [] => VUndefined
                 end in
    p.1 = Resolved found
    /\ chunks p.2 = [(Some 0, Some 1)]
    /\ callbacks p.2 = match cb with Some _ => [(None, found)] | None => [] end.
Proof.
  intros cfg modelClass connection items params cb Hv p found. subst p.
  unfold RestfulModelCollection.first. rewrite Hv.
  rewrite (getItems_paged cfg modelClass connection items params 0 1).
  change (Z.to_nat 0) with 0%nat. change (Z.to_nat 1) with 1%nat.
  rewrite drop_0.
  unfold then_, catch_. cbn [first_of].
  assert (Hf : default VUndefined
                 (head (map (delivered modelClass connection params)
                            (take 1 items)))
               = found).
  { subst found. destruct items; reflexivity. }
  rewrite Hf. cbn [fst snd].
  split; [reflexivity | split].
  - rewrite chunks_app.
    rewrite (chunks_chunk_event cfg modelClass connection params 0 1).
    destruct cb; reflexivity.
  - rewrite callbacks_app, callbacks_call. reflexivity.
Qed.

(** The theorem on two ids and params that ask for ten items from offset
    one: the first id is found all the same. *)
Lemma first_asks_for_one_item_witness :
  (RestfulModelCollection.first test_config
     (Server.paged [VStr "a"; VStr "b"]) Calendar.class test_connection
     (mkParams (Some (VStr "ids")) (Some 10) (Some 1) ∅) None).1
  = Resolved (VStr "a").
Proof.
  exact (proj1 (first_asks_for_one_item test_config Calendar.class
                  test_connection [VStr "a"; VStr "b"]
                  (mkParams (Some (VStr "ids")) (Some 10) (Some 1) ∅) None
                  eq_refl)).
Defined.

(** [find] takes its params and its callback in either order.  With an
    id and a view it accepts, against a server that answers 200 with
    [json], it makes one GET of [/collection/id] carrying the params,
    resolves to the model built from [json], and calls the callback once
    with no error and that model. *)
Theorem find_argument_order :
  forall cfg transport modelClass connection id params f,
    RestfulModelCollection.find cfg transport modelClass connection id
      (ArgObj params) (ArgFn f)
    = RestfulModelCollection.find cfg transport modelClass connection id
        (ArgFn f) (ArgObj params)
    /\ RestfulModelCollection.find cfg transport modelClass connection id
         (ArgFn f) ArgNone
       = RestfulModelCollection.find cfg transport modelClass connection id
           ArgNone (ArgFn f)
    /\ (id <> "" ->
        RestfulModelCollection.view_is params "count" = false ->
        RestfulModelCollection.view_is params "ids" = false ->
        forall hs json,
          json <> VUndefined ->
          let p := RestfulModelCollection.find cfg (Server.constant 200 hs json)
                     modelClass connection id (ArgFn f) (ArgObj params) in
          let model :=
            RestfulModelCollection._createModel modelClass connection json in
          p.1 = Resolved model
          /\ callbacks p.2 = [(None, model)]
          /\ requests p.2
             = [NylasConnection.requestOptions cfg connection
                  (simple_options "GET"
                     ("/" +:+ collectionName modelClass +:+ "/" +:+ id)
                     params None)]).
Proof.
  intros cfg transport modelClass connection id params f.
  split; [reflexivity | split; [reflexivity|]].
  intros Hid Hc Hi hs json Hjson p model. subst p.
  unfold RestfulModelCollection.find. cbv zeta.
  destruct (String.eqb_spec id ""); [contradiction|].
  rewrite Hc, Hi. cbn [orb].
  unfold RestfulModelCollection._getModel, RestfulModelCollection.request,
    RestfulModelCollection.path.
  pose proof (request_constant_ok cfg connection hs json "GET"
                (("/" +:+ collectionName modelClass) +:+ "/" +:+ id)
                params None Hjson) as Hreq.
  pose proof (request_trace cfg (Server.constant 200 hs json) connection
                (simple_options "GET"
                   (("/" +:+ collectionName modelClass) +:+ "/" +:+ id)
                   params None)) as Htr.
  pose proof (request_no_callbacks cfg (Server.constant 200 hs json) connection
                (simple_options "GET"
                   (("/" +:+ collectionName modelClass) +:+ "/" +:+ id)
                   params None)) as Hcb.
  destruct (NylasConnection.request _ _ _ _) as [s evs].
  cbn [fst snd] in Hreq, Htr, Hcb. subst s.
  unfold report, then_, catch_. cbn [fst snd]. fold model.
  rewrite app_nil_r, callbacks_app, requests_app, Hcb, Htr.
  rewrite string_app_assoc in *.
  repeat split; reflexivity.
Qed.

(** The theorem on a calendar found by id. *)
Lemma find_argument_order_witness :
  (RestfulModelCollection.find test_config
     (Server.constant 200 ∅ (VObj {["name" := VStr "Work"]}))
     Calendar.class test_connection "c1"
     (ArgFn (fun _ _ => VUndefined)) (ArgObj no_params)).1
  = Resolved (VModel {["name" := VStr "Work"]}).
Proof.
  assert (H : (RestfulModelCollection.find test_config
                 (Server.constant 200 ∅ (VObj {["name" := VStr "Work"]}))
                 Calendar.class test_connection "c1"
                 (ArgFn (fun _ _ => VUndefined)) (ArgObj no_params)).1
              = Resolved (RestfulModelCollection._createModel Calendar.class
                            test_connection (VObj {["name" := VStr "Work"]}))).
  { apply (proj2 (proj2 (find_argument_order test_config (Server.unreachable None)
                           Calendar.class test_connection "c1" no_params
                           (fun _ _ => VUndefined)))
                 ltac:(discriminate) eq_refl eq_refl ∅
                 (VObj {["name" := VStr "Work"]}) ltac:(discriminate)). }
  rewrite H. vm_compute. reflexivity.
Defined.

(** [delete] by id and [delete] of an item of the collection's class
    that has this id, whatever its other fields, are the same call: one
    DELETE of [/collection/id] whose query string and body are what the
    class makes of the params.  For events the query string is
    [notify_participants] as given in the params and nothing else: no
    other param is forwarded. *)
Theorem delete_by_id_or_item :
  forall cfg transport modelClass connection id params cb,
    id <> "" ->
    let by_id := RestfulModelCollection.delete cfg transport modelClass
                   connection (AnId id) (ArgObj params) cb in
    (forall rest : gmap string value,
       RestfulModelCollection.delete cfg transport modelClass connection
         (AnItem (mkInstance modelClass connection (<["id" := VStr id]> rest)))
         (ArgObj params) cb
       = by_id)
    /\ requests by_id.2
       = [NylasConnection.requestOptions cfg connection
            (simple_options "DELETE"
               ("/" +:+ collectionName modelClass +:+ "/" +:+ id)
               (deleteRequestQueryString_m modelClass params)
               (Some (deleteRequestBody_m modelClass params)))]
    /\ (let qs := deleteRequestQueryString_m Event.class params in
        view qs = None /\ limit qs = None /\ offset qs = None
        /\ forall k, filters qs !! k
                     = if String.eqb k "notify_participants"
                       then filters params !! k else None).
Proof.
  intros cfg transport modelClass connection id params cb Hid by_id.
  assert (Hdel : forall item,
            cls item = modelClass ->
            fields item !! "id" = Some (VStr id) ->
            RestfulModelCollection.delete cfg transport modelClass connection
              (AnItem item) (ArgObj params) cb
            = report cb
                (NylasConnection.request cfg transport connection
                   (simple_options "DELETE"
                      ("/" +:+ collectionName modelClass +:+ "/" +:+ id)
                      (deleteRequestQueryString_m modelClass params)
                      (Some (deleteRequestBody_m modelClass params))))).
  { intros item Hc Hf.
    unfold RestfulModelCollection.delete, RestfulModelCollection.deleteItem,
      RestfulModel.deleteRequestOptions, RestfulModelCollection.request,
      RestfulModelCollection.path.
    cbn [d_item d_callback d_body d_qs]. rewrite Hc, Hf.
    cbv [default from_option Datatypes.id show to_string].
    rewrite string_app_assoc. reflexivity. }
  assert (Hby : by_id
            = report cb
                (NylasConnection.request cfg transport connection
                   (simple_options "DELETE"
                      ("/" +:+ collectionName modelClass +:+ "/" +:+ id)
                      (deleteRequestQueryString_m modelClass params)
                      (Some (deleteRequestBody_m modelClass params))))).
  { subst by_id.
    unfold RestfulModelCollection.delete, RestfulModelCollection.deleteItem,
      RestfulModel.deleteRequestOptions, RestfulModelCollection.request,
      RestfulModelCollection.path, RestfulModelCollection.build.
    destruct (String.eqb_spec id ""); [contradiction|].
    cbn [d_item d_callback d_body d_qs cls fields].
    rewrite (lookup_union_Some_l _ _ "id" (VStr id)) by apply lookup_singleton_eq.
    cbv [default from_option Datatypes.id show to_string].
    rewrite string_app_assoc. reflexivity. }
  split; [|split].
  - intros rest. rewrite Hby. apply Hdel; [reflexivity | apply lookup_insert_eq].
  - rewrite Hby. apply requests_report.
  - cbn [deleteRequestQueryString_m Event.class].
    unfold Event.deleteRequestQueryString.
    destruct (filters params !! "notify_participants") as [v|] eqn:E;
      cbn [view limit offset filters no_params]; repeat split; intros k;
      destruct (String.eqb_spec k "notify_participants") as [->|Hk];
      rewrite ?lookup_singleton_eq, ?lookup_empty; try congruence;
      rewrite ?lookup_singleton_ne by congruence; reflexivity.
Qed.

(** The theorem on an event deleted by id with two params, of which
    only [notify_participants] reaches the query string. *)
Lemma delete_by_id_or_item_witness :
  (fun o => (r_method o, r_path o, filters <$> r_qs o))
    <$> requests
          (RestfulModelCollection.delete test_config (Server.unreachable None)
             Event.class test_connection (AnId "e1")
             (ArgObj (mkParams None None None
                        {["notify_participants" := VBool true;
                          "other" := VStr "x"]}))
             None).2
  = [("DELETE", "/events/e1", Some {["notify_participants" := VBool true]})].
Proof.
  rewrite (proj1 (proj2 (delete_by_id_or_item test_config
                           (Server.unreachable None) Event.class
                           test_connection "e1"
                           (mkParams None None None
                              {["notify_participants" := VBool true;
                                "other" := VStr "x"]})
                           None ltac:(discriminate)))).
  vm_compute. reflexivity.
Defined.

(** [count] against a server that answers 200 with a body resolves to
    the body's [count] field, [undefined] when it has none, and calls
    the callback once with no error and that value.  When the body is
    [null], reading the field throws: the promise is rejected with the
    TypeError and the callback is called once with it. *)
Theorem count_resolves_with_count_field :
  forall cfg modelClass connection hs body params cb,
    body <> VUndefined ->
    let p := RestfulModelCollection.count cfg (Server.constant 200 hs body)
               modelClass connection params cb in
    match body with
    | VNull =>
        both_channels p cb RestfulModelCollection.no_property
    | _ =>
        p.1 = Resolved (get_prop body "count")
        /\ callbacks p.2
           = match cb with
             | Some _ => [(None, get_prop body "count")]
             | None => []
             end
    end.
Proof.
  intros cfg modelClass connection hs body params cb Hb p. subst p.
  unfold RestfulModelCollection.count, RestfulModelCollection.request.
  match goal with
  | |- context [NylasConnection.request ?a ?b ?c (simple_options ?m ?pth ?q ?bd)] =>
    pose proof (request_constant_ok a c hs body m pth q bd Hb) as Hreq;
    pose proof (request_no_callbacks a b c (simple_options m pth q bd)) as Hcb;
    destruct (NylasConnection.request a b c (simple_options m pth q bd))
      as [s evs]
  end.
  cbn [fst snd] in Hreq, Hcb. subst s.
  unfold then_, catch_, both_channels.
  destruct body; try congruence; cbn [fst snd];
    rewrite ?app_nil_r, ?callbacks_app, ?Hcb, ?callbacks_call;
    split; reflexivity.
Qed.

(** The theorem on a reply that counts seven. *)
Lemma count_resolves_with_count_field_witness :
  (RestfulModelCollection.count test_config
     (Server.constant 200 ∅ (VObj {["count" := VNum (num 7)]}))
     Calendar.class test_connection no_params None).1
  = Resolved (VNum (num 7)).
Proof.
  assert (H := count_resolves_with_count_field test_config Calendar.class
                 test_connection ∅ (VObj {["count" := VNum (num 7)]})
                 no_params None ltac:(discriminate)).
  cbv zeta in H. destruct H as [H _]. rewrite H. vm_compute. reflexivity.
Defined.

(** [freeBusy] takes either spelling of its bounds.  With truthy
    bounds, the call with [start_time] and [end_time] and the call with
    [startTime] and [endTime] are the same call; when both spellings
    are given, the camel-case one is sent.  Either way one POST of
    [/calendars/free-busy] is made whose body has [start_time],
    [end_time] and [emails]. *)
Theorem freeBusy_spellings :
  forall cfg transport conn s e emails cb,
    truthy s = true -> truthy e = true ->
    let body := VObj (list_to_map [("start_time", s); ("end_time", e);
                                   ("emails", emails)]) in
    let camel := CalendarRestfulModelCollection.freeBusy cfg transport conn
                   (list_to_map [("startTime", s); ("endTime", e);
                                 ("emails", emails)]) cb in
    CalendarRestfulModelCollection.freeBusy cfg transport conn
      (list_to_map [("start_time", s); ("end_time", e); ("emails", emails)]) cb
    = camel
    /\ (forall s' e',
          CalendarRestfulModelCollection.freeBusy cfg transport conn
            (list_to_map [("startTime", s); ("start_time", s'); ("endTime", e);
                          ("end_time", e'); ("emails", emails)]) cb
          = camel)
    /\ requests camel.2
       = [NylasConnection.requestOptions cfg conn
            (mkOptions (Some "POST") "/calendars/free-busy" None None
                       (Some body) None None false ∅)].
Proof.
  intros cfg transport conn s e emails cb Hs He body camel.
  assert (Hcamel : camel
            = report cb (NylasConnection.request cfg transport conn
                (mkOptions (Some "POST") "/calendars/free-busy" None None
                           (Some body) None None false ∅))).
  { subst camel body. unfold CalendarRestfulModelCollection.freeBusy.
    wire_lookups. cbn [default from_option]. cbv beta delta [id].
    unfold or_else. rewrite Hs, He. reflexivity. }
  split; [|split].
  - rewrite Hcamel. subst body. unfold CalendarRestfulModelCollection.freeBusy.
    wire_lookups. cbn [default from_option]. cbv beta delta [id].
    unfold or_else. cbn [truthy]. reflexivity.
  - intros s' e'. rewrite Hcamel. subst body.
    unfold CalendarRestfulModelCollection.freeBusy.
    wire_lookups. cbn [default from_option]. cbv beta delta [id].
    unfold or_else. rewrite Hs, He. reflexivity.
  - rewrite Hcamel. apply requests_report.
Qed.

(** The theorem on bounds given as strings. *)
Lemma freeBusy_spellings_witness :
  CalendarRestfulModelCollection.freeBusy test_config (Server.unreachable None)
    test_connection
    (list_to_map [("start_time", VStr "1600000000");
                  ("end_time", VStr "1600003600");
                  ("emails", VArr [VStr "ann@example.com"])]) None
  = CalendarRestfulModelCollection.freeBusy test_config
      (Server.unreachable None) test_connection
      (list_to_map [("startTime", VStr "1600000000");
                    ("endTime", VStr "1600003600");
                    ("emails", VArr [VStr "ann@example.com"])]) None.
Proof.
  exact (proj1 (freeBusy_spellings test_config (Server.unreachable None)
                  test_connection (VStr "1600000000") (VStr "1600003600")
                  (VArr [VStr "ann@example.com"]) None eq_refl eq_refl)).
Defined.

(** [rsvp] against a server that answers 200 with an object [o] makes
    one POST of [/send-rsvp] whose body is the event's id, the status
    and the comment, hydrates the event from [o], resolves to the event
    and calls the callback once with no error and the event.  The
    hydration is partial: every field whose wire key [o] lacks keeps its
    value, while a [status] that [o] carries replaces the event's. *)
Theorem rsvp_updates_the_event :
  forall cfg conn hs (this o : gmap string value) status comment cb,
    let r := Event.rsvp cfg (Server.constant 200 hs (VObj o)) conn this
               status comment cb in
    let body := VObj (list_to_map
                        [("event_id", default VUndefined (this !! "id"));
                         ("status", status); ("comment", comment)]) in
    exists this',
      r.2 = this'
      /\ r.1.1 = Resolved (VModel this')
      /\ callbacks r.1.2
         = match cb with Some _ => [(None, VModel this')] | None => [] end
      /\ requests r.1.2
         = [NylasConnection.requestOptions cfg conn
              (mkOptions (Some "POST") "/send-rsvp" None None (Some body)
                         None None false ∅)]
      /\ (forall name,
            (forall attr, (name, attr) ∈ Event.attributes ->
                          o !! jsonKey attr = None) ->
            this' !! name = this !! name)
      /\ (forall s, o !! "status" = Some (VStr s) ->
                    this' !! "status" = Some (VStr s)).
Proof.
  intros cfg conn hs this o status comment cb r body.
  exists (fold_left (RestfulModel.hydrate_attr conn (VObj o)) Event.attributes
                    this).
  subst r. unfold Event.rsvp. cbv zeta.
  change (VObj (<["event_id" := default VUndefined (this !! "id")]>
                  (<["status" := status]> (<["comment" := comment]> ∅))))
    with body.
  set (options := mkOptions (Some "POST") "/send-rsvp" None None (Some body)
                            None None false ∅).
  pose proof (request_constant_resolves cfg conn hs (VObj o) options
                ltac:(discriminate) eq_refl ltac:(discriminate)) as Hreq.
  pose proof (request_trace cfg (Server.constant 200 hs (VObj o)) conn options)
    as Htr.
  pose proof (request_no_callbacks cfg (Server.constant 200 hs (VObj o)) conn
                options) as Hcb.
  destruct (NylasConnection.request _ _ _ _) as [s evs].
  cbn [fst snd] in Hreq, Htr, Hcb. subst s.
  assert (Hfrom : RestfulModel.fromJSON Event.attributes conn (VObj o) this
                  = Normal (fold_left (RestfulModel.hydrate_attr conn (VObj o))
                                      Event.attributes this)) by reflexivity.
  rewrite Hfrom. cbn [fst snd].
  assert (Hnd : NoDup Event.attributes.*1)
    by (apply (bool_decide_unpack _); vm_compute; exact I).
  split; [reflexivity | split; [reflexivity | split; [|split; [|split]]]].
  - rewrite callbacks_app, Hcb, callbacks_call. reflexivity.
  - rewrite requests_app, requests_call, app_nil_r. exact Htr.
  - intros name Hs. apply hydrate_skipped.
    intros attr Ha. cbn [get_prop]. rewrite (Hs attr Ha). reflexivity.
  - intros s Hs.
    rewrite (hydrate_lookup conn o Event.attributes this 15%nat "status"
               (Attributes.String (args "status")) Hnd eq_refl).
    change (jsonKey (Attributes.String (args "status"))) with "status".
    rewrite Hs. f_equal.
    change (fromJSON_of (Attributes.String (args "status")))
      with AttributeString.fromJSON.
    apply string_fromJSON_str.
Qed.

(** Failures of the remaining operations.  On a transport every request
    of which is rejected with [err], [_get], [freeBusy] and [rsvp]
    reject their promise with [err] and call the callback, if one was
    given, once with [err]; [rsvp] leaves the event as it was; and
    [get] of a single-instance resource, which takes no callback,
    rejects with [err]. *)
Theorem failure_reporting_elsewhere :
  forall cfg transport err,
    (forall conn options,
       (NylasConnection.request cfg transport conn options).1 = Rejected err) ->
    forall conn cb,
      (forall this params suffix,
         both_channels (RestfulModel._get cfg transport this params cb suffix)
                       cb err)
      /\ (forall options,
            both_channels
              (CalendarRestfulModelCollection.freeBusy cfg transport conn
                 options cb)
              cb err)
      /\ (forall this status comment,
            both_channels
              (Event.rsvp cfg transport conn this status comment cb).1 cb err
            /\ (Event.rsvp cfg transport conn this status comment cb).2 = this)
      /\ (forall modelClass params,
            exists evs,
              RestfulModelInstance.get cfg transport modelClass conn params
              = (Rejected err, evs)
              /\ callbacks evs = []).
Proof.
  intros cfg transport err H conn cb. split; [|split; [|split]].
  - intros this params suffix. unfold RestfulModel._get.
    apply report_rejected. exact H.
  - intros options. unfold CalendarRestfulModelCollection.freeBusy.
    apply report_rejected. exact H.
  - intros this status comment. unfold Event.rsvp. cbv zeta.
    match goal with |- context [NylasConnection.request ?a ?b ?c ?d] =>
      destruct (request_rejected a b err H c d) as (evs & -> & Hc) end.
    cbn [fst snd]. split; [|reflexivity].
    split; [reflexivity|]. cbn [snd].
    rewrite callbacks_app, Hc, callbacks_call. reflexivity.
  - intros modelClass params. unfold RestfulModelInstance.get.
    match goal with |- context [NylasConnection.request ?a ?b ?c ?d] =>
      destruct (request_rejected a b err H c d) as (evs & -> & Hc) end.
    exists evs. split; [reflexivity | exact Hc].
Qed.

(** The theorem on a transport that never gets a response. *)
Lemma failure_reporting_elsewhere_witness :
  both_channels
    (CalendarRestfulModelCollection.freeBusy test_config
       (Server.unreachable None) test_connection ∅
       (Some (fun _ _ => VUndefined)))
    (Some (fun _ _ => VUndefined)) (new_Error "No response").
Proof.
  exact (proj1 (proj2 (failure_reporting_elsewhere test_config
                         (Server.unreachable None) (new_Error "No response")
                         (fun _ _ => eq_refl) test_connection
                         (Some (fun _ _ => VUndefined))))
               ∅).
Defined.

(** ** More on bounded traversal *)

(** Without a limit and from offset 0, [list] and [forEach] agree:
    against a server that pages through [items], [list] resolves to all
    the items as delivered, in order, [forEach] hands exactly these to
    its item callback in the same order and then completes without an
    error, and the two make the same chunk requests. *)
Theorem list_and_forEach_agree :
  forall cfg modelClass connection items params fuel f,
    RestfulModelCollection.view_is params "count" = false ->
    offset params = None -> limit params = None ->
    (length items / 100 < fuel)%nat ->
    let all := map (delivered modelClass connection params) items in
    exists evs trace,
      RestfulModelCollection.list cfg (Server.paged items) modelClass connection
        fuel params None
      = Some (Resolved (VArr all), evs)
      /\ RestfulModelCollection.forEach cfg (Server.paged items) modelClass
           connection fuel params (Some f)
         = (None, Some (trace ++ [EvComplete None]))
      /\ visited trace = all
      /\ chunks trace = chunks evs.
Proof.
  intros cfg modelClass connection items params fuel f Hview Hoff Hlim Hfuel all.
  subst all.
  pose proof (Nat.div_mod_eq (length items) 100) as Hdiv.
  pose proof (Nat.mod_upper_bound (length items) 100 ltac:(lia)) as Hmod.
  pose proof (range_from cfg modelClass connection items params Infinity I
                (length items / 100 + 1) 0 fuel ltac:(reflexivity) ltac:(lia)
                ltac:(lia)) as Hr.
  change (100 * 0)%nat with 0%nat in Hr. rewrite take_0 in Hr. cbn [map] in Hr.
  rewrite (take_ge items (length items)) in Hr by lia.
  pose proof (forEach_from cfg modelClass connection items params
                (length items / 100 + 1) 0 fuel ltac:(lia) ltac:(lia) ltac:(lia))
    as Hit.
  change (100 * Z.of_nat 0) with 0 in Hit.
  eexists. eexists. split; [|split; [|split]].
  - unfold RestfulModelCollection.list, RestfulModelCollection._range,
      RestfulModelCollection.limit_or_Infinity.
    rewrite Hview, Hoff, Hlim. cbn [default from_option].
    change (id 0) with 0. change (id Infinity) with Infinity.
    rewrite Hr. reflexivity.
  - unfold RestfulModelCollection.forEach. rewrite Hview, Hit. reflexivity.
  - rewrite visited_chunks. change (100 * 0)%nat with 0%nat.
    rewrite drop_0, take_ge by lia. reflexivity.
  - rewrite chunks_chunks.
    generalize (seq 0 (length items / 100 + 1)). intros js.
    induction js as [|j js IH]; [reflexivity|].
    cbn [map]. change (chunks (?e :: ?r)) with (chunks [e] ++ chunks r).
    rewrite chunks_chunk_event, <- IH. reflexivity.
Qed.

(** The theorem on three ids. *)
Lemma list_and_forEach_agree_witness :
  exists evs trace,
    RestfulModelCollection.list test_config
      (Server.paged [VStr "a"; VStr "b"; VStr "c"]) Calendar.class
      test_connection 1 (mkParams (Some (VStr "ids")) None None ∅) None
    = Some (Resolved (VArr [VStr "a"; VStr "b"; VStr "c"]), evs)
    /\ RestfulModelCollection.forEach test_config
         (Server.paged [VStr "a"; VStr "b"; VStr "c"]) Calendar.class
         test_connection 1 (mkParams (Some (VStr "ids")) None None ∅)
         (Some (fun _ _ => VUndefined))
       = (None, Some (trace ++ [EvComplete None]))
    /\ visited trace = [VStr "a"; VStr "b"; VStr "c"].
Proof.
  destruct (list_and_forEach_agree test_config Calendar.class test_connection
              [VStr "a"; VStr "b"; VStr "c"]
              (mkParams (Some (VStr "ids")) None None ∅) 1
              (fun _ _ => VUndefined) eq_refl eq_refl eq_refl
              ltac:(vm_compute; lia))
    as (evs & trace & H1 & H2 & H3 & _).
  exists evs, trace. split; [exact H1 | split; [exact H2 | exact H3]].
Defined.

Lemma range_offset cfg modelClass connection items params B (k : Z) :
  0 <= k ->
  forall fuel acc,
    match RestfulModelCollection.range_iteratee cfg (Server.paged items)
            modelClass connection fuel params k B None acc,
          RestfulModelCollection.range_iteratee cfg
            (Server.paged (drop (Z.to_nat k) items))
            modelClass connection fuel params 0 B None acc with
    | Some ((s, evs), a), Some ((s', evs'), a') =>
        s = s' /\ a = a' /\ chunks evs = shifted k (chunks evs')
    | None, None => True
    | _, _ => False
    end.
Proof.
  intros Hk fuel. induction fuel as [|fuel IH]; intros acc; [exact I|].
  cbn [RestfulModelCollection.range_iteratee].
  rewrite !getItems_paged.
  replace (drop (Z.to_nat (0 + Z.of_nat (length acc))) (drop (Z.to_nat k) items))
    with (drop (Z.to_nat (k + Z.of_nat (length acc))) items)
    by (rewrite drop_drop; f_equal; lia).
  cbn [length_of].
  destruct (less_than _ _ || _).
  - split; [reflexivity | split; [reflexivity|]].
    rewrite !chunks_chunk_event. reflexivity.
  - specialize (IH (concat acc
       (VArr (map (delivered modelClass connection params)
                  (take (Z.to_nat (RestfulModelCollection.chunkLimit_of B acc))
                        (drop (Z.to_nat (k + Z.of_nat (length acc))) items)))))).
    destruct (RestfulModelCollection.range_iteratee cfg (Server.paged items)
                _ _ _ _ _ _ _ _) as [[[s evs] a]|];
    destruct (RestfulModelCollection.range_iteratee cfg
                (Server.paged (drop _ items)) _ _ _ _ _ _ _ _)
      as [[[s' evs'] a']|]; try exact IH.
    destruct IH as (Hs & Ha & He). split; [exact Hs | split; [exact Ha|]].
    cbn [app].
    change (chunks (?e :: ?r)) with (chunks [e] ++ chunks r).
    rewrite !chunks_chunk_event, He. reflexivity.
Qed.

(** [list] from an offset.  Against a server that pages through
    [items], [list] with an offset [k >= 0] and a limit [L >= 1], or no
    limit, resolves to the first [L] of the items from position [k] on,
    or to all of them without a limit, in order; its chunk requests are
    those of a traversal of the items from [k] on, each moved up by
    [k]: offsets [k], [k + 100], [k + 200], ... *)
Theorem list_with_offset :
  forall cfg modelClass connection items params fuel k,
    RestfulModelCollection.view_is params "count" = false ->
    offset params = Some k -> 0 <= k ->
    (forall l, limit params = Some l -> 1 <= l) ->
    (length items / 100 < fuel)%nat ->
    let B := match limit params with Some l => Finite l | None => Infinity end in
    let rest := drop (Z.to_nat k) items in
    let wanted := match limit params with
                  | Some l => Z.to_nat l
                  | None => length rest
                  end in
    exists evs,
      RestfulModelCollection.list cfg (Server.paged items) modelClass connection
        fuel params None
      = Some (Resolved (VArr (map (delivered modelClass connection params)
                                  (take wanted rest))), evs)
      /\ chunks evs
         = map (fun j : nat =>
                  (Some (k + 100 * Z.of_nat j),
                   Some (limit_at B (100 * Z.of_nat j))))
               (seq 0 (chunk_count B (length rest))).
Proof.
  intros cfg modelClass connection items params fuel k Hview Hoff Hk Hlim Hfuel
         B rest wanted.
  assert (HB : RestfulModelCollection.limit_or_Infinity params = B).
  { unfold RestfulModelCollection.limit_or_Infinity. subst B.
    destruct (limit params) as [l|] eqn:E; [|reflexivity].
    specialize (Hlim l eq_refl).
    destruct (Z.eqb_spec l 0); [lia | reflexivity]. }
  assert (HB1 : match B with Finite l => 1 <= l | Infinity => True end).
  { subst B. destruct (limit params) as [l|];
      [apply Hlim; reflexivity | exact I]. }
  assert (Hrest : (length rest <= length items)%nat).
  { subst rest. rewrite length_drop. lia. }
  assert (HK : (1 <= chunk_count B (length rest) <= fuel)%nat).
  { pose proof (Nat.div_mod_eq (length rest) 100).
    pose proof (Nat.Div0.div_le_mono (length rest) (length items) 100 Hrest).
    unfold chunk_count. destruct B as [l|]; [|lia].
    pose proof (Z.div_mod (l + 99) 100 ltac:(lia)).
    pose proof (Z.mod_pos_bound (l + 99) 100 ltac:(lia)). lia. }
  pose proof (range_from cfg modelClass connection rest params B HB1
                (chunk_count B (length rest)) 0 fuel ltac:(lia) ltac:(lia)
                ltac:(lia)) as Hr.
  change (100 * 0)%nat with 0%nat in Hr. rewrite take_0 in Hr. cbn [map] in Hr.
  pose proof (range_offset cfg modelClass connection items params B k Hk fuel [])
    as Hsim.
  fold rest in Hsim. rewrite Hr in Hsim.
  destruct (RestfulModelCollection.range_iteratee cfg (Server.paged items)
              _ _ _ _ _ _ _ _) as [[[s evs] a]|] eqn:Hit; [|contradiction].
  destruct Hsim as (-> & -> & Hch).
  exists evs. split.
  - unfold RestfulModelCollection.list, RestfulModelCollection._range.
    rewrite Hview, Hoff, HB. cbn [default from_option].
    change (id k) with k. change (id B) with B.
    rewrite Hit. subst wanted B. destruct (limit params); reflexivity.
  - rewrite Hch.
    assert (Hc : forall js : list nat,
              chunks (map (fun i : nat =>
                             chunk_event cfg modelClass connection params
                               (100 * Z.of_nat i)
                               (limit_at B (100 * Z.of_nat i))) js)
              = map (fun j : nat =>
                       (Some (100 * Z.of_nat j),
                        Some (limit_at B (100 * Z.of_nat j)))) js).
    { induction js as [|j js IH]; [reflexivity|].
      cbn [map]. change (chunks (?e :: ?r)) with (chunks [e] ++ chunks r).
      rewrite chunks_chunk_event, IH. reflexivity. }
    rewrite Hc. unfold shifted. rewrite map_map. reflexivity.
Qed.

(** The theorem on four ids listed from offset 1 with a limit of 2. *)
Lemma list_with_offset_witness :
  exists evs,
    RestfulModelCollection.list test_config
      (Server.paged [VStr "a"; VStr "b"; VStr "c"; VStr "d"]) Calendar.class
      test_connection 1 (mkParams (Some (VStr "ids")) (Some 2) (Some 1) ∅) None
    = Some (Resolved (VArr [VStr "b"; VStr "c"]), evs)
    /\ chunks evs = [(Some 1, Some 2)].
Proof.
  destruct (list_with_offset test_config Calendar.class test_connection
              [VStr "a"; VStr "b"; VStr "c"; VStr "d"]
              (mkParams (Some (VStr "ids")) (Some 2) (Some 1) ∅) 1 1
              eq_refl eq_refl ltac:(lia)
              ltac:(intros l Hl; inversion Hl; lia)
              ltac:(vm_compute; lia))
    as (evs & H1 & H2).
  exists evs. split; [exact H1 | exact H2].
Defined.

(** [_range] called with neither offset nor limit uses offset 0 and a
    limit of 100: against a server that pages through [items] it makes
    a single request, for 100 items from offset 0, and ends with at
    most the first 100 items.  Without a callback the promise resolves
    to them; with a callback the callback is called once with no error
    and the items, and the promise resolves to what the callback
    returned. *)
Theorem range_defaults :
  forall cfg modelClass connection items params fuel cb,
    (1 <= fuel)%nat ->
    let got := VArr (map (delivered modelClass connection params)
                         (take 100 items)) in
    exists evs,
      RestfulModelCollection._range cfg (Server.paged items) modelClass
        connection fuel params None None cb None
      = Some (Resolved (match cb with Some f => f None got | None => got end),
              evs)
      /\ chunks evs = [(Some 0, Some 100)]
      /\ callbacks evs = match cb with Some _ => [(None, got)] | None => [] end.
Proof.
  intros cfg modelClass connection items params fuel cb Hfuel got.
  assert (HK : chunk_count (Finite 100) (length items) = 1%nat).
  { unfold chunk_count. change (Z.to_nat ((100 + 99) / 100)) with 1%nat. lia. }
  pose proof (range_from cfg modelClass connection items params (Finite 100)
                ltac:(cbn; lia) 1 0 fuel ltac:(rewrite HK; reflexivity)
                ltac:(lia) Hfuel) as Hr.
  change (100 * 0)%nat with 0%nat in Hr. rewrite take_0 in Hr.
  cbn [map seq] in Hr. change (Z.to_nat 100) with 100%nat in Hr.
  change (100 * Z.of_nat 0) with 0 in Hr.
  change (limit_at (Finite 100) 0) with 100 in Hr.
  unfold RestfulModelCollection._range. cbn [default from_option].
  change (id 0) with 0. change (id (Finite 100)) with (Finite 100).
  rewrite Hr. fold got.
  destruct cb as [f|]; eexists; (split; [reflexivity|]); split.
  - rewrite chunks_app, chunks_chunk_event. reflexivity.
  - rewrite callbacks_app. reflexivity.
  - apply chunks_chunk_event.
  - reflexivity.
Qed.

(** The theorem on three ids. *)
Lemma range_defaults_witness :
  exists evs,
    RestfulModelCollection._range test_config
      (Server.paged [VStr "a"; VStr "b"; VStr "c"]) Calendar.class
      test_connection 1 (mkParams (Some (VStr "ids")) None None ∅) None None
      None None
    = Some (Resolved (VArr [VStr "a"; VStr "b"; VStr "c"]), evs)
    /\ chunks evs = [(Some 0, Some 100)].
Proof.
  destruct (range_defaults test_config Calendar.class test_connection
              [VStr "a"; VStr "b"; VStr "c"]
              (mkParams (Some (VStr "ids")) None None ∅) 1 None (le_n 1))
    as (evs & H1 & H2 & _).
  exists evs. split; [exact H1 | exact H2].
Defined.
